(** * eatswithbene: pricing, order submission, dashboard analytics and
      order actions, embedded from the TypeScript sources.

    Sources embedded here:
    - [src/components/OrderForm.tsx]: catalog, price breakdown, order-type
      policy, [handleSubmit];
    - [src/components/DashboardContent.tsx]: [getDateRangeFilter],
      [fetchOrders] (the range filter of the query), [calculateAnalytics],
      [handleOrderAction], the action buttons of an order row;
    - [src/pages/Dashboard.tsx]: the other variant of [handleOrderAction];
    - [src/components/OrderForm.tsx] again: the field handlers,
      [handlePacksChange], [resetForm], the submit button;
    - [src/components/DashboardContent.tsx] again: the slot ranges
      ([fetchSlots], [handleSlotSubmit], [handleDeleteSlot],
      [getDaysInSlotRange], the slot dialog);
    - [unnamed/part_000]: the order tracking page ([searchOrder], the
      status table and the progress bar).

    Conventions.  JavaScript numbers are embedded as exact integers ([Z]):
    every price and fee of the catalog is a whole number of dollars, hence
    so is every amount the order form stores, and doubles are exact on
    them.  The one division ([avgOrderValue]) is the division of binary64
    ([SpecFloat]).  Strings are the bytes of their UTF-8 encoding,
    compared with [String.eqb] where the source uses [===]. *)

From Stdlib Require Import ZArith List String Ascii Bool Lia.
From Stdlib Require Import DecimalString DecimalN DecimalPos SpecFloat.
From Stdlib Require Import Permutation Sorted.
Import ListNotations.

Local Open Scope string_scope.
Local Open Scope list_scope.
Local Open Scope Z_scope.

(** ** Calendar: the local-time view of a JavaScript [Date]

    A [Date] is represented by the number of its local calendar day, counted
    from 1970-01-01 (day 0).  None of the embedded functions looks at the
    time of day: [format] is only used with the patterns [yyyy-MM-dd] and
    [EEE], and [startOfWeek]/[endOfWeek] only reset the hours.  The field
    accessors follow ECMA-262 (Day, YearFromTime, MonthFromTime,
    DateFromTime, WeekDay, MakeDay), computed over 400-year eras.  The
    limit of 100,000,000 days on either side of the epoch, beyond which a
    [Date] is invalid, is not represented. *)

Module JSDate.

Definition Date := Z.

Definition days_per_era : Z := 146097.

(** Days between 0000-03-01 and 1970-01-01. *)
Definition epoch_shift : Z := 719468.

(** Year (counted from March), month index from March (0..11) and day of
    month (1..31) of the day [doe] of an era. *)
Definition yoe_of_doe (doe : Z) : Z :=
  (doe - doe / 1460 + doe / 36524 - doe / 146096) / 365.

Definition doy_of_doe (doe : Z) : Z :=
  let yoe := yoe_of_doe doe in
  doe - (365 * yoe + yoe / 4 - yoe / 100).

Definition mp_of_doy (doy : Z) : Z := (5 * doy + 2) / 153.

Definition dom_of_doy (doy : Z) : Z :=
  doy - (153 * mp_of_doy doy + 2) / 5 + 1.

(** [getMonth]: 0 = January .. 11 = December. *)
Definition getMonth (d : Date) : Z :=
  let doe := (d + epoch_shift) mod days_per_era in
  let mp := mp_of_doy (doy_of_doe doe) in
  if mp <? 10 then mp + 2 else mp - 10.

Definition getFullYear (d : Date) : Z :=
  let z := d + epoch_shift in
  let era := z / days_per_era in
  let doe := z mod days_per_era in
  let y := yoe_of_doe doe + era * 400 in
  if getMonth d <=? 1 then y + 1 else y.

(** [getDate]: the day of the month, 1..31. *)
Definition getDate (d : Date) : Z :=
  dom_of_doy (doy_of_doe ((d + epoch_shift) mod days_per_era)).

(** [getDay]: 0 = Sunday .. 6 = Saturday (WeekDay(t) = (Day(t) + 4) mod 7). *)
Definition getDay (d : Date) : Z := (d + 4) mod 7.

(** Day number of the first day of month [m] (0..11) of year [y]. *)
Definition day_of_month_start (y m : Z) : Z :=
  let y' := if m <=? 1 then y - 1 else y in
  let era := y' / 400 in
  let yoe := y' mod 400 in
  let mp := if m <=? 1 then m + 10 else m - 2 in
  let doy := (153 * mp + 2) / 5 in
  era * days_per_era + (yoe * 365 + yoe / 4 - yoe / 100 + doy) - epoch_shift.

(** ECMA-262 MakeDay(year, month, date): the month may be any integer and
    carries into the year, the date may be any integer and is counted from
    the first of that month. *)
Definition MakeDay (year month date : Z) : Z :=
  let ym := year + month / 12 in
  let mn := month mod 12 in
  day_of_month_start ym mn + date - 1.

(** [new Date(year, month, date)]: a year from 0 to 99 stands for
    1900 + year (ECMA-262, the Date constructor). *)
Definition new_Date (year month date : Z) : Date :=
  let yr := if (0 <=? year) && (year <=? 99) then 1900 + year else year in
  MakeDay yr month date.

(** [d.setDate(dt)]: keeps year and month, normalises the date. *)
Definition setDate (d : Date) (dt : Z) : Date :=
  MakeDay (getFullYear d) (getMonth d) dt.

(** date-fns [startOfWeek(date, { weekStartsOn })] and
    [endOfWeek(date, { weekStartsOn })] (the library is not part of the
    repository; its two functions are embedded from its published source):
    [diff = (day < weekStartsOn ? 7 : 0) + day - weekStartsOn;
     date.setDate(date.getDate() - diff)], and for the end
    [diff = (day < weekStartsOn ? -7 : 0) + 6 - (day - weekStartsOn);
     date.setDate(date.getDate() + diff)]. *)
Definition startOfWeek (d : Date) (weekStartsOn : Z) : Date :=
  let day := getDay d in
  let diff := (if day <? weekStartsOn then 7 else 0) + day - weekStartsOn in
  setDate d (getDate d - diff).

Definition endOfWeek (d : Date) (weekStartsOn : Z) : Date :=
  let day := getDay d in
  let diff := (if day <? weekStartsOn then -7 else 0) + 6 - (day - weekStartsOn) in
  setDate d (getDate d + diff).

(** Decimal digits of a non-negative integer, and date-fns
    [addLeadingZeros]: [String(n).padStart(targetLength, "0")]. *)
Definition decimal (n : Z) : string :=
  NilZero.string_of_uint (N.to_uint (Z.to_N n)).

Fixpoint zeros (k : nat) : string :=
  match k with
  | O => EmptyString
  | S k' => String "0" (zeros k')
  end.

Definition addLeadingZeros (n : Z) (targetLength : nat) : string :=
  let s := decimal n in
  (zeros (targetLength - String.length s) ++ s)%string.

(** [format(d, "yyyy-MM-dd")].  The token [yyyy] prints the year of the
    era: [signedYear > 0 ? signedYear : 1 - signedYear]. *)
Definition format_yyyy_MM_dd (d : Date) : string :=
  let signedYear := getFullYear d in
  let year := if 0 <? signedYear then signedYear else 1 - signedYear in
  (addLeadingZeros year 4 ++ "-" ++ addLeadingZeros (getMonth d + 1) 2
     ++ "-" ++ addLeadingZeros (getDate d) 2)%string.

(** [format(d, "EEE")]: the abbreviated day name of the default locale,
    indexed by [getDay]. *)
Definition dayNames : list string :=
  ["Sun"; "Mon"; "Tue"; "Wed"; "Thu"; "Fri"; "Sat"].

Definition format_EEE (d : Date) : string :=
  nth (Z.to_nat (getDay d)) dayNames "".

End JSDate.

(** ** JavaScript strings: [trim]

    A string is the sequence of the bytes of its UTF-8 encoding (this is
    how the literals of this file are read).  [String.prototype.trim]
    removes white space and line terminators from both ends (ECMA-262,
    WhiteSpace and LineTerminator): TAB, LF, VT, FF, CR and SP, which are
    single bytes, and U+00A0, U+1680, U+2000 to U+200A, U+2028, U+2029,
    U+202F, U+205F, U+3000 and U+FEFF, which take two or three bytes. *)

Module JSString.

(** TAB, LF, VT, FF, CR, SP. *)
Definition is_space (c : ascii) : bool :=
  let n := nat_of_ascii c in
  (Nat.leb 9 n && Nat.leb n 13) || Nat.eqb n 32.

(** U+00A0 (C2 A0). *)
Definition is_space2 (c1 c2 : ascii) : bool :=
  Nat.eqb (nat_of_ascii c1) 194 && Nat.eqb (nat_of_ascii c2) 160.

(** U+1680 (E1 9A 80); U+2000 to U+200A, U+2028, U+2029, U+202F
    (E2 80 80 to E2 80 8A, E2 80 A8, E2 80 A9, E2 80 AF); U+205F
    (E2 81 9F); U+3000 (E3 80 80); U+FEFF (EF BB BF). *)
Definition is_space3 (c1 c2 c3 : ascii) : bool :=
  let n1 := nat_of_ascii c1 in
  let n2 := nat_of_ascii c2 in
  let n3 := nat_of_ascii c3 in
  (Nat.eqb n1 225 && Nat.eqb n2 154 && Nat.eqb n3 128)
  || (Nat.eqb n1 226 && Nat.eqb n2 128
      && ((Nat.leb 128 n3 && Nat.leb n3 138) || Nat.eqb n3 168
          || Nat.eqb n3 169 || Nat.eqb n3 175))
  || (Nat.eqb n1 226 && Nat.eqb n2 129 && Nat.eqb n3 159)
  || (Nat.eqb n1 227 && Nat.eqb n2 128 && Nat.eqb n3 128)
  || (Nat.eqb n1 239 && Nat.eqb n2 187 && Nat.eqb n3 191).

(** Removes the leading run of white-space characters. *)
Fixpoint trimStart (s : string) : string :=
  match s with
  | EmptyString => EmptyString
  | String c1 s1 =>
      if is_space c1 then trimStart s1
      else
        match s1 with
        | EmptyString => s
        | String c2 s2 =>
            if is_space2 c1 c2 then trimStart s2
            else
              match s2 with
              | EmptyString => s
              | String c3 s3 =>
                  if is_space3 c1 c2 c3 then trimStart s3 else s
              end
        end
  end.

(** Removes the trailing run of white-space characters: the string is cut
    where what follows is white space only. *)
Fixpoint trimEnd (s : string) : string :=
  match s with
  | EmptyString => EmptyString
  | String c s' =>
      if (trimStart s =? "")%string then EmptyString
      else String c (trimEnd s')
  end.

Definition trim (s : string) : string := trimEnd (trimStart s).

(** Truthiness of a string: [!s] holds exactly for the empty string. *)
Definition falsy (s : string) : bool := (s =? "")%string.

End JSString.

(** ** The public order form ([src/components/OrderForm.tsx]) *)

Module OrderForm.

Import JSDate JSString.

Record FoodType := mkFoodType {
  value : string;
  label : string;
  price : Z
}.

Definition foodTypes : list FoodType :=
  [ mkFoodType "fried-rice"
      "Check Check Fried Rice (With Chicken, Sausage, Salad With Condiments & Free Drink)" 25;
    mkFoodType "noodles-chicken" "Super Loaded Noodles (With Chicken)" 25;
    mkFoodType "noodles-no-chicken" "Super Loaded Noodles (No Chicken)" 20 ].

Record OrderTypeOption := mkOrderType {
  type_value : string;
  type_label : string
}.

Definition baseOrderTypes : list OrderTypeOption :=
  [ mkOrderType "same-day" "Same Day (+$5 rush fee)";
    mkOrderType "pre-order" "Pre-order" ].

Record FormData := mkFormData {
  name : string;
  foodType : string;
  packs : Z;
  orderType : string;
  pickupLocation : string;
  deliverToMe : bool;
  deliveryAddress : string;
  paymentMethod : string
}.

(** The component state ([useState] cells). *)
Record State := mkState {
  isSubmitting : bool;
  isSuccess : bool;
  orderId : string;
  trackingToken : string;
  agreedToTerms : bool;
  formData : FormData;
  availableOrderTypes : list OrderTypeOption;
  isWeekend : bool
}.

Definition initialFormData : FormData :=
  mkFormData "" "" 1 "" "Brampton" false "" "e-transfer".

Definition initialState : State :=
  mkState false false "" "" false initialFormData [] false.

Definition set_orderType (fd : FormData) (t : string) : FormData :=
  mkFormData (name fd) (foodType fd) (packs fd) t (pickupLocation fd)
             (deliverToMe fd) (deliveryAddress fd) (paymentMethod fd).

Definition set_packs (fd : FormData) (n : Z) : FormData :=
  mkFormData (name fd) (foodType fd) n (orderType fd) (pickupLocation fd)
             (deliverToMe fd) (deliveryAddress fd) (paymentMethod fd).

(** *** The mount effect: order types offered for the day (lines 71-95) *)

Definition weekend (today : Date) : bool :=
  let dayOfWeek := getDay today in
  (dayOfWeek =? 0) || (dayOfWeek =? 6).

Definition orderTypesFor (today : Date) : list OrderTypeOption :=
  if weekend today
  then filter (fun t => (type_value t =? "same-day")%string) baseOrderTypes
  else filter (fun t => (type_value t =? "pre-order")%string) baseOrderTypes.

Definition defaultTypeFor (today : Date) : string :=
  if weekend today then "same-day" else "pre-order".

Definition mountEffect (today : Date) (st : State) : State :=
  mkState (isSubmitting st) (isSuccess st) (orderId st) (trackingToken st)
          (agreedToTerms st)
          (set_orderType (formData st) (defaultTypeFor today))
          (orderTypesFor today) (weekend today).

(** *** The price breakdown (lines 97-103) *)

Definition selectedFood (fd : FormData) : option FoodType :=
  find (fun f => (value f =? foodType fd)%string) foodTypes.

Definition basePricePerPack (fd : FormData) : Z :=
  match selectedFood fd with
  | Some f => price f
  | None => 0
  end.

Definition subtotal (fd : FormData) : Z := basePricePerPack fd * packs fd.

Definition rushFee (fd : FormData) : Z :=
  if (orderType fd =? "same-day")%string then 5 else 0.

Definition deliveryFee (fd : FormData) : Z :=
  if deliverToMe fd then 8 else 0.

Definition total (fd : FormData) : Z :=
  subtotal fd + rushFee fd + deliveryFee fd.

Definition handlePacksChange (delta : Z) (st : State) : State :=
  let prev := formData st in
  mkState (isSubmitting st) (isSuccess st) (orderId st) (trackingToken st)
          (agreedToTerms st)
          (set_packs prev (Z.max 1 (Z.min 20 (packs prev + delta))))
          (availableOrderTypes st) (isWeekend st).

(** *** Submission (lines 128-249) *)

(** The object passed to [supabase.from("orders").insert]. *)
Record OrderRow := mkOrderRow {
  customer_name : string;
  food_type : string;
  number_of_packs : Z;
  order_type : string;
  delivery_method : string;
  deliver_to_me : bool;
  delivery_address : option string;
  pickup_location : string;
  payment_method : string;
  row_subtotal : Z;
  rush_fee : Z;
  delivery_fee : Z;
  total_amount : Z;
  order_status : string;
  payment_status : string
}.

(** What the store answers to the insert: the selected columns of the new
    row, or an error with its message. *)
Inductive InsertResult :=
| InsertOk (order_id tracking_token : string)
| InsertError (message : string).

(** The entry kept in [localStorage] under the key ["orders"]. *)
Record SavedOrder := mkSavedOrder {
  saved_order_id : string;
  saved_tracking_token : string;
  saved_customer_name : string;
  saved_food_type : string;
  saved_status : string;
  saved_created_at : string
}.

Record Toast := mkToast {
  title : string;
  description : string;
  destructive : bool
}.

(** What the browser's storage does in the three accesses that follow an
    accepted insert (lines 222-224): nothing unusual, or an exception
    thrown by the reading of ["orders"] ([getItem], [JSON.parse] or the
    spread of what was parsed), by the writing of ["orders"], or by the
    writing of ["last_order_token"].  The exception carries a message. *)
Inductive StorageFault :=
| NoFault
| ReadThrows (message : string)
| SetOrdersThrows (message : string)
| SetTokenThrows (message : string).

(** Everything outside the component that [handleSubmit] can touch: the
    notifications shown, the rows sent to the order store, and the two
    [localStorage] keys (["orders"] holds an array, absent = [None]). *)
Record World := mkWorld {
  toasts : list Toast;
  inserted : list OrderRow;
  stored_orders : option (list SavedOrder);
  last_order_token : option string
}.

Definition toast (t : Toast) (w : World) : World :=
  mkWorld (toasts w ++ [t]) (inserted w) (stored_orders w) (last_order_token w).

Definition insertRow (fd : FormData) : OrderRow :=
  mkOrderRow (name fd) (foodType fd) (packs fd) (orderType fd)
             (if deliverToMe fd then "delivery" else "pickup")
             (deliverToMe fd)
             (if deliverToMe fd then Some (deliveryAddress fd) else None)
             (pickupLocation fd) (paymentMethod fd)
             (subtotal fd) (rushFee fd) (deliveryFee fd) (total fd)
             "pending" "awaiting confirmation".

(** The first validation guard that fires, as the toast it shows. *)
Definition validationError (st : State) : option Toast :=
  let fd := formData st in
  if negb (agreedToTerms st) then
    Some (mkToast "Agreement Required"
            "You must agree to the terms and conditions to place an order." true)
  else if falsy (trim (name fd)) then
    Some (mkToast "Missing information" "Please enter your name." true)
  else if falsy (foodType fd) then
    Some (mkToast "Missing information" "Please select a food type." true)
  else if falsy (orderType fd) then
    Some (mkToast "Missing information" "Please select an order type." true)
  else if deliverToMe fd && falsy (trim (deliveryAddress fd)) then
    Some (mkToast "Delivery address required"
            "Please enter your delivery address." true)
  else None.

Definition set_submit (st : State) (submitting success : bool)
    (oid token : string) : State :=
  mkState submitting success oid token (agreedToTerms st) (formData st)
          (availableOrderTypes st) (isWeekend st).

(** The notification of the [catch] block (lines 240-247):
    [error.message || "There was an error placing your order. ..."]. *)
Definition orderFailed (message : string) : Toast :=
  mkToast "Order failed"
          (if falsy message
           then "There was an error placing your order. Please try again."
           else message) true.

(** [handleSubmit].  [store] is the order store's answer to the insert,
    [storage] what the browser's storage does after it, and [nowISO] the
    value of [new Date().toISOString()].  Whatever is thrown inside the
    [try] - the store's error or an exception of the storage - ends in the
    [catch] block, after [setOrderId] and [setTrackingToken] in the second
    case. *)
Definition handleSubmit (store : OrderRow -> InsertResult)
    (storage : StorageFault) (nowISO : string)
    (st : State) (w : World) : State * World :=
  match validationError st with
  | Some t => (st, toast t w)
  | None =>
      let fd := formData st in
      let row := insertRow fd in
      let w1 := mkWorld (toasts w) (inserted w ++ [row])
                        (stored_orders w) (last_order_token w) in
      match store row with
      | InsertError message =>
          (set_submit st false (isSuccess st) (orderId st) (trackingToken st),
           toast (orderFailed message) w1)
      | InsertOk oid token =>
          let orderData :=
            mkSavedOrder oid token (name fd) (foodType fd) "pending" nowISO in
          let existingOrders :=
            match stored_orders w1 with Some l => l | None => [] end in
          let caught := set_submit st false (isSuccess st) oid token in
          match storage with
          | ReadThrows message => (caught, toast (orderFailed message) w1)
          | SetOrdersThrows message => (caught, toast (orderFailed message) w1)
          | SetTokenThrows message =>
              (caught,
               toast (orderFailed message)
                     (mkWorld (toasts w1) (inserted w1)
                              (Some (orderData :: existingOrders))
                              (last_order_token w1)))
          | NoFault =>
              let w2 := mkWorld (toasts w1) (inserted w1)
                                (Some (orderData :: existingOrders))
                                (Some token) in
              (set_submit st false true oid token,
               toast (mkToast "Order confirmed! 🎉"
                        "Your order has been placed successfully. Save your tracking token to check status later!"
                        false) w2)
          end
      end
  end.

(** *** What the form renders next to its fields (lines 446-738)

    The form keeps no per-field error state.  Of the texts it renders
    conditionally, the only one about a missing input is the reminder
    under the submit button, shown whenever the terms are not agreed. *)
Inductive Field :=
| NameField | FoodTypeField | OrderTypeField | DeliveryAddressField | TermsField.

Definition inlineMessages (st : State) : list (Field * string) :=
  if negb (agreedToTerms st)
  then [(TermsField,
         "You must agree to the terms and conditions to place your order.")]
  else [].

End OrderForm.

(** ** JavaScript objects used as maps, and [Array.prototype.sort]

    An object is the list of its own properties in creation order.
    [Object.entries] does not enumerate in that order alone: property names
    that are array indices (canonical decimal numerals below 2^32 - 1) come
    first, in ascending numeric order, and the other names follow in
    creation order (ECMA-262, OrdinaryOwnPropertyKeys).

    Lookups through the prototype chain are not embedded: [get] of a name
    that the object does not own answers [None] ([undefined]), which is
    what JavaScript does for every name except the member names of
    [Object.prototype] ([constructor], [toString], [__proto__] and the
    like, listed in [inherited]). *)

Module JSObject.

Section Obj.

Context {V : Type}.

Definition Obj := list (string * V).

Fixpoint get (o : Obj) (k : string) : option V :=
  match o with
  | [] => None
  | (k', v) :: o' => if (k' =? k)%string then Some v else get o' k
  end.

(** Assignment [o[k] = v]: an existing property keeps its place, a new one
    is created last. *)
Fixpoint set (o : Obj) (k : string) (v : V) : Obj :=
  match o with
  | [] => [(k, v)]
  | (k', v') :: o' =>
      if (k' =? k)%string then (k', v) :: o' else (k', v') :: set o' k v
  end.

Definition is_digit (c : ascii) : bool :=
  let n := nat_of_ascii c in Nat.leb 48 n && Nat.leb n 57.

Fixpoint digits_value (s : string) (acc : N) : option N :=
  match s with
  | EmptyString => Some acc
  | String c s' =>
      if is_digit c
      then digits_value s' (acc * 10 + (N.of_nat (nat_of_ascii c) - 48))%N
      else None
  end.

(** The array index a property name denotes, if any: ["0"], or digits
    without a leading zero, with a value of at most 2^32 - 2. *)
Definition array_index (s : string) : option N :=
  match s with
  | EmptyString => None
  | String c s' =>
      if (c =? "0")%char && negb (s' =? "")%string then None
      else match digits_value s 0 with
           | Some n => if (n <? 4294967295)%N then Some n else None
           | None => None
           end
  end.

Fixpoint insert_index (n : N) (kv : string * V)
    (l : list (N * (string * V))) : list (N * (string * V)) :=
  match l with
  | [] => [(n, kv)]
  | (m, kv') :: l' =>
      if (n <=? m)%N then (n, kv) :: l else (m, kv') :: insert_index n kv l'
  end.

Definition index_entries (o : Obj) : list (N * (string * V)) :=
  fold_right (fun kv acc =>
                match array_index (fst kv) with
                | Some n => insert_index n kv acc
                | None => acc
                end) [] o.

Definition named_entries (o : Obj) : list (string * V) :=
  filter (fun kv => match array_index (fst kv) with
                    | Some _ => false
                    | None => true
                    end) o.

Definition entries (o : Obj) : list (string * V) :=
  map snd (index_entries o) ++ named_entries o.

End Obj.

Arguments Obj V : clear implicits.


End JSObject.

Module JSArray.

Section Sort.

Context {A : Type}.
Variable comparefn : A -> A -> Z.

(** [x] goes in front of the first element it does not compare greater
    than. *)
Fixpoint sort_insert (x : A) (l : list A) : list A :=
  match l with
  | [] => [x]
  | y :: l' => if comparefn x y <=? 0 then x :: l else y :: sort_insert x l'
  end.

(** [Array.prototype.sort(comparefn)]: a stable sort (ECMA-262 since 2019),
    here by insertion from the right. *)
Definition sort (l : list A) : list A := fold_right sort_insert [] l.

End Sort.

Section Find.

Context {A : Type}.

(** In-place update of the first element satisfying [p] (the object that
    [Array.prototype.find] returns, mutated through that reference). *)
Fixpoint update_first (p : A -> bool) (f : A -> A) (l : list A) : list A :=
  match l with
  | [] => []
  | x :: l' => if p x then f x :: l' else x :: update_first p f l'
  end.

End Find.

End JSArray.

(** ** JavaScript numbers that are not integers: binary64

    The quotient of two numbers is the double nearest to the exact
    quotient, [NaN] for 0 / 0 and an infinity for any other division by
    zero (IEEE 754, as specified by [SpecFloat] of the Standard
    Library). *)

Module JSDouble.

Definition prec : Z := 53.
Definition emax : Z := 1024.

(** The literal [0]. *)
Definition zero : spec_float := S754_zero false.

(** The double of an integer (the integer itself up to 2^53). *)
Definition ofInteger (n : Z) : spec_float := binary_normalize prec emax n 0 false.

(** [x / y]. *)
Definition div (x y : spec_float) : spec_float := SFdiv prec emax x y.

End JSDouble.

(** ** The vendor dashboard ([src/components/DashboardContent.tsx]) *)

Module Dashboard.

Import JSDate JSString.

Record OrderData := mkOrder {
  order_id : string;
  created_at : string;
  customer_name : string;
  food_type : string;
  number_of_packs : Z;
  order_type : string;
  delivery_method : string;
  delivery_address : option string;
  total_amount : Z;
  order_status : string;
  payment_status : string
}.

Record FoodStat := mkFoodStat {
  count : Z;
  revenue : Z
}.

Record TopFoodItem := mkTopFoodItem {
  item_name : string;
  item_count : Z;
  item_revenue : Z
}.

Record DayRevenue := mkDayRevenue {
  day : string;
  day_revenue : Z;
  day_orders : Z
}.

Record AnalyticsData := mkAnalytics {
  pickupCount : Z;
  deliveryCount : Z;
  totalRevenue : Z;
  avgOrderValue : spec_float;
  topFoodItems : list TopFoodItem;
  revenueByDay : list DayRevenue
}.

Definition foodTypeLabels : JSObject.Obj string :=
  [ ("fried-rice", "Check Check Fried Rice");
    ("noodles-chicken", "Super Loaded Noodles (With Chicken)");
    ("noodles-no-chicken", "Super Loaded Noodles (No Chicken)") ].

(** *** Date range of the order query (lines 143-190) *)

Record DateRange := mkDateRange {
  range_start : string;
  range_end : string
}.

Definition getDateRangeFilter (now : Date)
    (dateRange customStartDate customEndDate : string) : DateRange :=
  if (dateRange =? "today")%string then
    mkDateRange (format_yyyy_MM_dd now) (format_yyyy_MM_dd now)
  else if (dateRange =? "week")%string then
    mkDateRange (format_yyyy_MM_dd (startOfWeek now 1))
                (format_yyyy_MM_dd (endOfWeek now 1))
  else if (dateRange =? "month")%string then
    let firstDay := new_Date (getFullYear now) (getMonth now) 1 in
    let lastDay := new_Date (getFullYear now) (getMonth now + 1) 0 in
    mkDateRange (format_yyyy_MM_dd firstDay) (format_yyyy_MM_dd lastDay)
  else if (dateRange =? "custom")%string then
    mkDateRange customStartDate customEndDate
  else
    mkDateRange (format_yyyy_MM_dd (startOfWeek now 1))
                (format_yyyy_MM_dd (endOfWeek now 1)).

(** The query [fetchOrders] sends: [select('*')] on [orders], newest
    first, with the two bounds on [created_at] when they are applied. *)
Record OrdersQuery := mkQuery {
  gte_created_at : option string;
  lte_created_at : option string
}.

Definition ordersQuery (now : Date)
    (dateRange customStartDate customEndDate : string) : OrdersQuery :=
  let r := getDateRangeFilter now dateRange customStartDate customEndDate in
  if negb (dateRange =? "all")%string
  then mkQuery (Some (range_start r ++ "T00:00:00")%string)
               (Some (range_end r ++ "T23:59:59")%string)
  else mkQuery None None.

(** *** Analytics (lines 233-282) *)

(** [foodTypeLabels[order.food_type] || order.food_type]. *)
Definition foodName (order : OrderData) : string :=
  match JSObject.get foodTypeLabels (food_type order) with
  | Some l => if falsy l then food_type order else l
  | None => food_type order
  end.

(** One step of the [foodStats] reduction. *)
Definition foodStatsStep (acc : JSObject.Obj FoodStat) (order : OrderData)
    : JSObject.Obj FoodStat :=
  let foodName := foodName order in
  let acc1 := match JSObject.get acc foodName with
              | None => JSObject.set acc foodName (mkFoodStat 0 0)
              | Some _ => acc
              end in
  match JSObject.get acc1 foodName with
  | Some s =>
      JSObject.set acc1 foodName
        (mkFoodStat (count s + number_of_packs order)
                    (revenue s + total_amount order))
  | None => acc1
  end.

Definition foodStats (orderData : list OrderData) : JSObject.Obj FoodStat :=
  fold_left foodStatsStep orderData [].

Definition computeTopFoodItems (orderData : list OrderData) : list TopFoodItem :=
  firstn 5
    (JSArray.sort (fun a b => item_count b - item_count a)
       (map (fun e => mkTopFoodItem (fst e) (count (snd e)) (revenue (snd e)))
            (JSObject.entries (foodStats orderData)))).

(** One step of the [revenueByDay] reduction, for an order whose day
    abbreviation is [d]. *)
Definition revenueStep (acc : list DayRevenue) (d : string)
    (order : OrderData) : list DayRevenue :=
  match find (fun e => (day e =? d)%string) acc with
  | Some _ =>
      JSArray.update_first (fun e => (day e =? d)%string)
        (fun e => mkDayRevenue (day e) (day_revenue e + total_amount order)
                               (day_orders e + 1)) acc
  | None => acc ++ [mkDayRevenue d (total_amount order) 1]
  end.

Definition daysOfWeek : list string :=
  ["Mon"; "Tue"; "Wed"; "Thu"; "Fri"; "Sat"; "Sun"].

Definition completeRevenueByDay (revenueByDay : list DayRevenue)
    : list DayRevenue :=
  map (fun d =>
         match find (fun e => (day e =? d)%string) revenueByDay with
         | Some existing => existing
         | None => mkDayRevenue d 0 0
         end) daysOfWeek.

(** [orderData.length > 0 ? totalRevenue / orderData.length : 0]. *)
Definition computeAvgOrderValue (totalRevenue : Z) (n : nat) : spec_float :=
  if (0 <? n)%nat
  then JSDouble.div (JSDouble.ofInteger totalRevenue)
                    (JSDouble.ofInteger (Z.of_nat n))
  else JSDouble.zero.

Section Analytics.

(** date-fns [parseISO] followed by the host's conversion to local time:
    the local day of the timestamp, or [None] for an Invalid Date (on
    which [format] throws a RangeError). *)
Variable parseISO : string -> option Date.

Fixpoint reduceRevenueByDay (acc : list DayRevenue) (orderData : list OrderData)
    : option (list DayRevenue) :=
  match orderData with
  | [] => Some acc
  | order :: rest =>
      match parseISO (created_at order) with
      | None => None
      | Some t => reduceRevenueByDay (revenueStep acc (format_EEE t) order) rest
      end
  end.

(** [calculateAnalytics]: the value handed to [setAnalytics], or [None]
    when the function throws. *)
Definition calculateAnalytics (orderData : list OrderData)
    : option AnalyticsData :=
  let pickupCount :=
    Z.of_nat (List.length (filter (fun o => (delivery_method o =? "pickup")%string)
                             orderData)) in
  let deliveryCount :=
    Z.of_nat (List.length (filter (fun o => (delivery_method o =? "delivery")%string)
                             orderData)) in
  let totalRevenue :=
    fold_left (fun sum o => sum + total_amount o) orderData 0 in
  let avgOrderValue := computeAvgOrderValue totalRevenue (List.length orderData) in
  let topFoodItems := computeTopFoodItems orderData in
  match reduceRevenueByDay [] orderData with
  | None => None
  | Some revenueByDay =>
      Some (mkAnalytics pickupCount deliveryCount totalRevenue avgOrderValue
              topFoodItems (completeRevenueByDay revenueByDay))
  end.

End Analytics.

(** *** Order actions (lines 291-358 and 843-904) *)

Inductive ActionType :=
| confirmPayment | markPreparing | markReady | markDelivered | cancelOrder.

(** The buttons of an order row, in the order of the markup. *)
Definition offeredActions (order : OrderData) : list ActionType :=
  (if (payment_status order =? "awaiting confirmation")%string
   then [confirmPayment] else [])
  ++ (if (payment_status order =? "confirmed paid")%string
         && (order_status order =? "pending")%string
      then [markPreparing] else [])
  ++ (if (order_status order =? "preparing")%string then [markReady] else [])
  ++ (if (order_status order =? "ready")%string then [markDelivered] else []).

Record Updates := mkUpdates {
  upd_payment_status : option string;
  upd_order_status : option string
}.

Record Toast := mkToast {
  title : string;
  description : string;
  destructive : bool
}.

(** A call to the order store. *)
Inductive Call :=
| SelectOrders (q : OrdersQuery)
| UpdateOrder (id : string) (updates : Updates).

(** The order store as the dashboard sees it: the answer to a query
    ([None] for an error) and whether an update succeeds. *)
Record Store := mkStore {
  select : OrdersQuery -> option (list OrderData);
  update : string -> Updates -> bool
}.

Record State := mkState {
  orders : list OrderData;
  analytics : AnalyticsData;
  loading : bool;
  dateRange : string;
  customStartDate : string;
  customEndDate : string;
  selectedOrder : option OrderData;
  actionType : option ActionType
}.

Record World := mkWorld {
  toasts : list Toast;
  calls : list Call
}.

Definition toast (t : Toast) (w : World) : World :=
  mkWorld (toasts w ++ [t]) (calls w).

Definition call (c : Call) (w : World) : World :=
  mkWorld (toasts w) (calls w ++ [c]).

Definition initialAnalytics : AnalyticsData :=
  mkAnalytics 0 0 0 JSDouble.zero [] [].

Definition initialState : State :=
  mkState [] initialAnalytics true "week" "" "" None None.

(** The [switch] of [handleOrderAction]: the update and the success
    message of an action, [None] for the branch that returns early. *)
Definition actionUpdates (a : ActionType) : option (Updates * string) :=
  match a with
  | confirmPayment =>
      Some (mkUpdates (Some "confirmed paid") None, "Payment confirmed")
  | markPreparing =>
      Some (mkUpdates None (Some "preparing"), "Order marked as preparing")
  | markReady =>
      Some (mkUpdates None (Some "ready"), "Order marked as ready")
  | markDelivered =>
      Some (mkUpdates None (Some "delivered"), "Order marked as delivered")
  | cancelOrder => None
  end.

Section Handlers.

Variable parseISO : string -> option Date.
Variable store : Store.
Variable now : Date.

Definition fetchOrders (st : State) (w : World) : State * World :=
  let q := ordersQuery now (dateRange st) (customStartDate st)
                       (customEndDate st) in
  let w1 := call (SelectOrders q) w in
  match select store q with
  | None =>
      (mkState (orders st) (analytics st) false (dateRange st)
               (customStartDate st) (customEndDate st)
               (selectedOrder st) (actionType st),
       toast (mkToast "Error" "Failed to load orders" true) w1)
  | Some data =>
      match calculateAnalytics parseISO data with
      | Some a =>
          (mkState data a false (dateRange st) (customStartDate st)
                   (customEndDate st) (selectedOrder st) (actionType st), w1)
      | None =>
          (mkState data (analytics st) false (dateRange st)
                   (customStartDate st) (customEndDate st)
                   (selectedOrder st) (actionType st),
           toast (mkToast "Error" "Failed to load orders" true) w1)
      end
  end.

Definition handleOrderAction (st : State) (w : World) : State * World :=
  match selectedOrder st, actionType st with
  | Some order, Some a =>
      match actionUpdates a with
      | None =>
          (st, toast (mkToast "Error"
                        "Cancel feature not implemented in database" true) w)
      | Some (updates, message) =>
          let w1 := call (UpdateOrder (order_id order) updates) w in
          if update store (order_id order) updates then
            let w2 := toast (mkToast "Success" message false) w1 in
            let (st', w3) := fetchOrders st w2 in
            (mkState (orders st') (analytics st') (loading st')
                     (dateRange st') (customStartDate st') (customEndDate st')
                     None None, w3)
          else
            (st, toast (mkToast "Error" "Failed to update order" true) w1)
      end
  | _, _ => (st, w)
  end.

End Handlers.

End Dashboard.

(** ** The other dashboard ([src/pages/Dashboard.tsx])

    Its [calculateAnalytics] and [getDateRangeFilter] are the same text as
    in [DashboardContent.tsx]; its order actions differ. *)

Module DashboardPage.

Record OrderData := mkOrder {
  id : string;
  created_at : string;
  customer_name : string;
  food_type : string;
  number_of_packs : Z;
  order_type : string;
  delivery_method : string;
  delivery_address : option string;
  pickup_location : option string;
  subtotal : Z;
  rush_fee : Z;
  delivery_fee : Z;
  total_amount : Z;
  order_status : string;
  payment_status : string;
  tracking_token : string;
  notes : option string
}.

Inductive ActionType := confirmPayment | markDelivered | cancelOrder.

Definition actionUpdates (a : ActionType) : Dashboard.Updates * string :=
  match a with
  | confirmPayment =>
      (Dashboard.mkUpdates (Some "paid") (Some "preparing"),
       "Payment confirmed and order moved to preparation")
  | markDelivered =>
      (Dashboard.mkUpdates None (Some "delivered"), "Order marked as delivered")
  | cancelOrder =>
      (Dashboard.mkUpdates None (Some "cancelled"), "Order cancelled")
  end.

(** The buttons of an order row (lines 790-837). *)
Definition offeredActions (order : OrderData) : list ActionType :=
  (if (payment_status order =? "awaiting_confirmation")%string
   then [confirmPayment] else [])
  ++ (if (order_status order =? "ready")%string
         && (payment_status order =? "paid")%string
      then [markDelivered] else [])
  ++ (if existsb (String.eqb (order_status order)) ["pending"; "preparing"]
      then [cancelOrder] else []).

Record State := mkState {
  orders : list OrderData;
  selectedOrder : option OrderData;
  actionType : option ActionType
}.

Section Handlers.

(** Whether the store accepts an update, and [fetchOrders] (the reload of
    the list and of the analytics, which catches its own errors). *)
Variable update : string -> Dashboard.Updates -> bool.
Variable fetchOrders : State -> Dashboard.World -> State * Dashboard.World.

Definition handleOrderAction (st : State) (w : Dashboard.World)
    : State * Dashboard.World :=
  match selectedOrder st, actionType st with
  | Some order, Some a =>
      let (updates, message) := actionUpdates a in
      let w1 := Dashboard.call (Dashboard.UpdateOrder (id order) updates) w in
      if update (id order) updates then
        fetchOrders st
          (Dashboard.toast (Dashboard.mkToast "Success" message false) w1)
      else
        (st, Dashboard.toast
               (Dashboard.mkToast "Error" "Failed to update order" true) w1)
  | _, _ => (st, w)
  end.

End Handlers.

End DashboardPage.

(** ** More of the order form: the other handlers of
    [src/components/OrderForm.tsx] *)

Module OrderFormUI.

Import JSString OrderForm.

Definition set_formData (st : State) (fd : FormData) : State :=
  mkState (isSubmitting st) (isSuccess st) (orderId st) (trackingToken st)
          (agreedToTerms st) fd (availableOrderTypes st) (isWeekend st).

(** [onChange] of the name input (line 486) and [onValueChange] of the
    food select (line 496). *)
Definition onNameChange (v : string) (st : State) : State :=
  let prev := formData st in
  set_formData st
    (mkFormData v (foodType prev) (packs prev) (orderType prev)
                (pickupLocation prev) (deliverToMe prev)
                (deliveryAddress prev) (paymentMethod prev)).

Definition onFoodTypeChange (v : string) (st : State) : State :=
  let prev := formData st in
  set_formData st
    (mkFormData (name prev) v (packs prev) (orderType prev)
                (pickupLocation prev) (deliverToMe prev)
                (deliveryAddress prev) (paymentMethod prev)).

(** [onChange] of the delivery checkbox (lines 593-599): unticking it
    empties the address. *)
Definition onDeliverChange (checked : bool) (st : State) : State :=
  let prev := formData st in
  set_formData st
    (mkFormData (name prev) (foodType prev) (packs prev) (orderType prev)
                (pickupLocation prev) checked
                (if checked then deliveryAddress prev else "")
                (paymentMethod prev)).

(** [onChange] of the address input (lines 628-630). *)
Definition onAddressChange (v : string) (st : State) : State :=
  let prev := formData st in
  set_formData st
    (mkFormData (name prev) (foodType prev) (packs prev) (orderType prev)
                (pickupLocation prev) (deliverToMe prev) v
                (paymentMethod prev)).

(** [onAgree] of the terms checkbox (line 697). *)
Definition setAgreedToTerms (agreed : bool) (st : State) : State :=
  mkState (isSubmitting st) (isSuccess st) (orderId st) (trackingToken st)
          agreed (formData st) (availableOrderTypes st) (isWeekend st).

(** [resetForm] (lines 251-266). *)
Definition resetForm (st : State) : State :=
  mkState (isSubmitting st) false "" "" false
          (mkFormData "" "" 1 (if isWeekend st then "same-day" else "pre-order")
                      "Brampton" false "" "e-transfer")
          (availableOrderTypes st) (isWeekend st).

(** The [disabled] attributes of the two pack buttons (lines 520, 540) and
    of the submit button (line 706). *)
Definition minusDisabled (st : State) : bool := packs (formData st) <=? 1.

Definition plusDisabled (st : State) : bool := 20 <=? packs (formData st).

Definition submitDisabled (st : State) : bool :=
  isSubmitting st || isSuccess st || (total (formData st) =? 0)
  || negb (agreedToTerms st).

End OrderFormUI.

(** ** A session of the order form: its handlers as events *)

Module FormSession.

Import JSDate OrderForm OrderFormUI.

(** What the markup lets a visitor do.  The food select offers the
    catalog values only (lines 502-506), the two pack buttons call
    [handlePacksChange] with -1 and 1 (lines 519, 539), and the order
    type is displayed but cannot be edited (lines 549-568). *)
Inductive Event :=
| Mount (today : Date)
| NameChanged (v : string)
| FoodTypeChanged (v : string)
| PacksChanged (delta : Z)
| DeliverChanged (checked : bool)
| AddressChanged (v : string)
| Agreed (agreed : bool)
| Submit (store : OrderRow -> InsertResult) (storage : StorageFault)
         (nowISO : string)
| Reset.

(** The form is rendered, and can be submitted, only while the success
    view does not replace it (line 273). *)
Definition offered (st : State) (ev : Event) : Prop :=
  match ev with
  | FoodTypeChanged v => In v (map value foodTypes)
  | PacksChanged delta => delta = -1 \/ delta = 1
  | Submit _ _ _ => isSuccess st = false
  | _ => True
  end.

Definition fire (ev : Event) (sw : State * World) : State * World :=
  let (st, w) := sw in
  match ev with
  | Mount today => (mountEffect today st, w)
  | NameChanged v => (onNameChange v st, w)
  | FoodTypeChanged v => (onFoodTypeChange v st, w)
  | PacksChanged delta => (handlePacksChange delta st, w)
  | DeliverChanged checked => (onDeliverChange checked st, w)
  | AddressChanged v => (onAddressChange v st, w)
  | Agreed agreed => (setAgreedToTerms agreed st, w)
  | Submit store storage nowISO => handleSubmit store storage nowISO st w
  | Reset => (resetForm st, w)
  end.

(** The states and worlds a session can reach from a fresh form. *)
Inductive reachable (w0 : World) : State * World -> Prop :=
| reachable_start : reachable w0 (initialState, w0)
| reachable_fire ev sw :
    reachable w0 sw -> offered (fst sw) ev -> reachable w0 (fire ev sw).

(** A sequence of events, fired in order. *)
Definition run (evs : list Event) (sw : State * World) : State * World :=
  fold_left (fun sw ev => fire ev sw) evs sw.

Definition isMount (ev : Event) : bool :=
  match ev with
  | Mount _ => true
  | _ => false
  end.

(** A row as the form is meant to produce it. *)
Definition wellFormedRow (r : OrderRow) : Prop :=
  (exists f, In f foodTypes /\ food_type r = value f
             /\ row_subtotal r = price f * number_of_packs r)
  /\ 1 <= number_of_packs r <= 20
  /\ ((order_type r = "same-day" /\ rush_fee r = 5)
      \/ (order_type r = "pre-order" /\ rush_fee r = 0))
  /\ ((deliver_to_me r = true /\ delivery_method r = "delivery"
       /\ delivery_fee r = 8
       /\ exists a, delivery_address r = Some a /\ JSString.trim a <> "")
      \/ (deliver_to_me r = false /\ delivery_method r = "pickup"
          /\ delivery_fee r = 0 /\ delivery_address r = None))
  /\ JSString.trim (customer_name r) <> ""
  /\ total_amount r = row_subtotal r + rush_fee r + delivery_fee r
  /\ 20 <= total_amount r <= 513.

End FormSession.

(** ** More of the dashboard: selecting and dismissing an action
    ([src/components/DashboardContent.tsx]) *)

Module DashboardUI.

Import Dashboard.

(** [onClick] of an action button of an order row (lines 850-898):
    [setSelectedOrder(order); setActionType(a)]. *)
Definition clickAction (order : OrderData) (a : ActionType) (st : State)
    : State :=
  mkState (orders st) (analytics st) (loading st) (dateRange st)
          (customStartDate st) (customEndDate st) (Some order) (Some a).

(** The Cancel button of a dialog and the closing of a dialog
    (lines 1104-1109, 1154-1159 and the like). *)
Definition dismiss (st : State) : State :=
  mkState (orders st) (analytics st) (loading st) (dateRange st)
          (customStartDate st) (customEndDate st) None None.

(** The choice of a date range or of a custom bound (lines 524, 546, 553);
    the effect of lines 285-288 then reloads the orders. *)
Definition setRange (mode customStart customEnd : string) (st : State)
    : State :=
  mkState (orders st) (analytics st) (loading st) mode customStart customEnd
          (selectedOrder st) (actionType st).

(** What the markup lets the vendor do.  [Confirm] is the confirming
    button of a dialog, which calls [handleOrderAction]; [Refresh] the
    refresh button and the first load, which call [fetchOrders].  Each
    call meets the store in whatever state it is in. *)
Inductive Event :=
| Click (order : OrderData) (a : ActionType)
| Dismiss
| Confirm (store : Store)
| Refresh (store : Store)
| RangeChanged (mode customStart customEnd : string) (store : Store).

Definition offered (st : State) (ev : Event) : Prop :=
  match ev with
  | Click order a => In order (orders st) /\ In a (offeredActions order)
  | _ => True
  end.

Section Session.

Variable parseISO : string -> option JSDate.Date.
Variable now : JSDate.Date.

Definition fire (ev : Event) (sw : State * World) : State * World :=
  let (st, w) := sw in
  match ev with
  | Click order a => (clickAction order a st, w)
  | Dismiss => (dismiss st, w)
  | Confirm store => handleOrderAction parseISO store now st w
  | Refresh store => fetchOrders parseISO store now st w
  | RangeChanged mode cs ce store =>
      fetchOrders parseISO store now (setRange mode cs ce st) w
  end.

(** A session from the first render, together with the orders the store
    has listed in the course of it (the lists put on display after each
    event, one after the other). *)
Inductive session (w0 : World) : list OrderData -> State * World -> Prop :=
| session_start : session w0 [] (initialState, w0)
| session_fire ev listed sw :
    session w0 listed sw -> offered (fst sw) ev ->
    session w0 (listed ++ orders (fst (fire ev sw))) (fire ev sw).

End Session.

(** The order store applying an update to a row: the columns named in the
    update take their new value. *)
Definition applyUpdates (u : Updates) (o : OrderData) : OrderData :=
  mkOrder (order_id o) (created_at o) (customer_name o) (food_type o)
          (number_of_packs o) (order_type o) (delivery_method o)
          (delivery_address o) (total_amount o)
          (match upd_order_status u with
           | Some s => s
           | None => order_status o
           end)
          (match upd_payment_status u with
           | Some s => s
           | None => payment_status o
           end).


Definition storedRowPage (id created token : string)
    (r : OrderForm.OrderRow) : DashboardPage.OrderData :=
  DashboardPage.mkOrder id created (OrderForm.customer_name r)
    (OrderForm.food_type r) (OrderForm.number_of_packs r)
    (OrderForm.order_type r) (OrderForm.delivery_method r)
    (OrderForm.delivery_address r) (Some (OrderForm.pickup_location r))
    (OrderForm.row_subtotal r) (OrderForm.rush_fee r)
    (OrderForm.delivery_fee r) (OrderForm.total_amount r)
    (OrderForm.order_status r) (OrderForm.payment_status r) token None.

(** The life of an order under the actions the dashboard offers for it. *)
Inductive lifecycle (o0 : OrderData) : OrderData -> Prop :=
| lifecycle_start : lifecycle o0 o0
| lifecycle_step o a u message :
    lifecycle o0 o -> In a (offeredActions o) ->
    actionUpdates a = Some (u, message) ->
    lifecycle o0 (applyUpdates u o).

End DashboardUI.

(** The same for the dashboard of [src/pages/Dashboard.tsx]. *)

Module DashboardPageUI.

Import DashboardPage.

Definition applyUpdates (u : Dashboard.Updates) (o : OrderData) : OrderData :=
  mkOrder (id o) (created_at o) (customer_name o) (food_type o)
          (number_of_packs o) (order_type o) (delivery_method o)
          (delivery_address o) (pickup_location o) (subtotal o) (rush_fee o)
          (delivery_fee o) (total_amount o)
          (match Dashboard.upd_order_status u with
           | Some s => s
           | None => order_status o
           end)
          (match Dashboard.upd_payment_status u with
           | Some s => s
           | None => payment_status o
           end)
          (tracking_token o) (notes o).

Inductive lifecycle (o0 : OrderData) : OrderData -> Prop :=
| lifecycle_start : lifecycle o0 o0
| lifecycle_step o a :
    lifecycle o0 o -> In a (offeredActions o) ->
    lifecycle o0 (applyUpdates (fst (actionUpdates a)) o).

End DashboardPageUI.

(** ** JavaScript numbers: [parseInt] and [toString]

    A number that is an integer is kept as that integer.  The doubles
    contain every integer of magnitude up to 2^53; a larger integer is
    replaced by the nearest double (ties to even), and beyond the largest
    double by an infinity.  [None] is a number that is not finite: [NaN]
    or an infinity. *)

Module JSNumber.

Import JSString.

(** The double nearest to the integer [n]. *)
Definition roundToDouble (n : Z) : option Z :=
  let a := Z.abs n in
  if a <=? 2 ^ 53 then Some n
  else
    let e := Z.log2 a - 52 in
    let q := a / 2 ^ e in
    let r := a mod 2 ^ e in
    let half := 2 ^ (e - 1) in
    let q' := if r <? half then q
              else if half <? r then q + 1
              else if Z.even q then q else q + 1 in
    let v := q' * 2 ^ e in
    if v <? 2 ^ 1024 then Some (Z.sgn n * v) else None.

(** The value of a digit of the given radix. *)
Definition digit_of (radix : Z) (c : ascii) : option Z :=
  let n := Z.of_nat (nat_of_ascii c) in
  let v := if (48 <=? n) && (n <=? 57) then Some (n - 48)
           else if (97 <=? n) && (n <=? 122) then Some (n - 87)
           else if (65 <=? n) && (n <=? 90) then Some (n - 55)
           else None in
  match v with
  | Some d => if d <? radix then Some d else None
  | None => None
  end.

(** The longest prefix of digits, read in the radix; [None] when it is
    empty. *)
Fixpoint read_int (radix : Z) (s : string) (acc : option Z) : option Z :=
  match s with
  | EmptyString => acc
  | String c s' =>
      match digit_of radix c with
      | Some d =>
          read_int radix s'
            (Some (match acc with
                   | Some a => a * radix + d
                   | None => d
                   end))
      | None => acc
      end
  end.

(** [parseInt(s)] without a radix (ECMA-262): leading white space is
    skipped, a sign is read, ["0x"] or ["0X"] selects radix 16, the
    digits up to the first other character are read, and the integer
    they denote is converted to a number; without a digit the result is
    [NaN]. *)
Definition parseInt (s : string) : option Z :=
  let S := trimStart s in
  let '(sign, S1) :=
    match S with
    | String c r =>
        if (c =? "-")%char then (-1, r)
        else if (c =? "+")%char then (1, r)
        else (1, S)
    | EmptyString => (1, S)
    end in
  let '(radix, S2) :=
    match S1 with
    | String c0 (String c1 r) =>
        if (c0 =? "0")%char && ((c1 =? "x")%char || (c1 =? "X")%char)
        then (16, r) else (10, S1)
    | _ => (10, S1)
    end in
  match read_int radix S2 None with
  | Some n => roundToDouble (sign * n)
  | None => None
  end.

(** [n.toString()] of an integer (of magnitude below 10^21, beyond which
    JavaScript prints an exponent). *)
Definition toString (n : Z) : string :=
  if n <? 0 then String "-" (JSDate.decimal (- n)) else JSDate.decimal n.

End JSNumber.

(** ** The slot ranges of the vendor dashboard
    ([src/components/DashboardContent.tsx], lines 128-136, 213-230,
    361-447, 928-1090) *)

Module DashboardSlots.

Import JSDate.

Record SlotData := mkSlot {
  id : string;
  start_date : string;
  end_date : string;
  daily_slots : Z;
  is_active : bool;
  created_at : string
}.

Record SlotForm := mkSlotForm {
  startDate : string;
  endDate : string;
  dailySlots : string;
  isActive : bool
}.

(** The columns written by an insert or an update. *)
Record SlotValues := mkValues {
  val_start_date : string;
  val_end_date : string;
  val_daily_slots : option Z;
  val_is_active : bool
}.

Inductive Call :=
| SelectSlots
| UpdateSlot (slotId : string) (values : SlotValues)
| InsertSlot (values : SlotValues)
| DeleteSlot (slotId : string).

(** The answer to the select: [data] (possibly [null]) or an error. *)
Inductive SlotsAnswer :=
| Rows (data : option (list SlotData))
| SlotsError.

(** The store as the handlers see it: the answer to the select and whether
    a write (insert, update, delete) succeeds. *)
Record Store := mkStore {
  select : SlotsAnswer;
  write_ok : bool
}.

Record State := mkState {
  slots : list SlotData;
  isSlotModalOpen : bool;
  selectedSlot : option SlotData;
  slotForm : SlotForm
}.

Record World := mkWorld {
  toasts : list Dashboard.Toast;
  calls : list Call
}.

Definition toast (t : Dashboard.Toast) (w : World) : World :=
  mkWorld (toasts w ++ [t]) (calls w).

Definition call (c : Call) (w : World) : World :=
  mkWorld (toasts w) (calls w ++ [c]).

Definition defaultSlotForm : SlotForm := mkSlotForm "" "" "20" true.

Definition initialState : State := mkState [] false None defaultSlotForm.

Definition setSlots (l : list SlotData) (st : State) : State :=
  mkState l (isSlotModalOpen st) (selectedSlot st) (slotForm st).

Definition setSlotForm (f : SlotForm) (st : State) : State :=
  mkState (slots st) (isSlotModalOpen st) (selectedSlot st) f.

Definition setIsSlotModalOpen (b : bool) (st : State) : State :=
  mkState (slots st) b (selectedSlot st) (slotForm st).

(** *** [fetchSlots] (lines 213-230) *)

Definition fetchSlots (store : Store) (st : State) (w : World)
    : State * World :=
  let w1 := call SelectSlots w in
  match select store with
  | Rows data =>
      (setSlots (match data with
                 | Some l => l
                 | None => []
                 end) st, w1)
  | SlotsError =>
      (st, toast (Dashboard.mkToast "Error" "Failed to load slots" true) w1)
  end.

(** *** [handleSlotSubmit] (lines 361-413)

    [fetchSlots()] is started without being awaited; the state it sets
    ([slots]) is disjoint from what the handler sets after it, so the
    order of the two does not show in the result. *)

Definition slotValues (f : SlotForm) : SlotValues :=
  mkValues (startDate f) (endDate f) (JSNumber.parseInt (dailySlots f))
           (isActive f).

Definition slotSaved (store : Store) (st : State) (w : World)
    : State * World :=
  let (st1, w1) := fetchSlots store st w in
  (mkState (slots st1) false None defaultSlotForm, w1).

Definition slotSaveFailed (st : State) (w : World) : State * World :=
  (st, toast (Dashboard.mkToast "Error" "Failed to save slot range" true) w).

Definition handleSlotSubmit (store : Store) (st : State) (w : World)
    : State * World :=
  match selectedSlot st with
  | Some s =>
      let w1 := call (UpdateSlot (id s) (slotValues (slotForm st))) w in
      if write_ok store
      then slotSaved store st
             (toast (Dashboard.mkToast "Success"
                       "Slot range updated successfully" false) w1)
      else slotSaveFailed st w1
  | None =>
      let w1 := call (InsertSlot (slotValues (slotForm st))) w in
      if write_ok store
      then slotSaved store st
             (toast (Dashboard.mkToast "Success"
                       "Slot range created successfully" false) w1)
      else slotSaveFailed st w1
  end.

(** *** [handleDeleteSlot] (lines 416-439) *)

Definition handleDeleteSlot (store : Store) (slotId : string) (st : State)
    (w : World) : State * World :=
  let w1 := call (DeleteSlot slotId) w in
  if write_ok store
  then fetchSlots store st
         (toast (Dashboard.mkToast "Success"
                   "Slot range deleted successfully" false) w1)
  else (st, toast (Dashboard.mkToast "Error"
                     "Failed to delete slot range" true) w1).

(** *** The dialog (lines 928-1006, 1060-1086) *)

(** "+ Add Slot Range", which is also the trigger that opens the dialog.
    [addDays(d, 7)] is the seventh day after [d]. *)
Definition addSlotClicked (today : Date) (st : State) : State :=
  mkState (slots st) true None
          (mkSlotForm (format_yyyy_MM_dd today)
                      (format_yyyy_MM_dd (today + 7)) "20" true).

(** "Edit" on a slot range. *)
Definition editSlotClicked (slot : SlotData) (st : State) : State :=
  mkState (slots st) true (Some slot)
          (mkSlotForm (start_date slot) (end_date slot)
                      (JSNumber.toString (daily_slots slot))
                      (is_active slot)).

Definition onStartDateChange (v : string) (st : State) : State :=
  let f := slotForm st in
  setSlotForm (mkSlotForm v (endDate f) (dailySlots f) (isActive f)) st.

Definition onEndDateChange (v : string) (st : State) : State :=
  let f := slotForm st in
  setSlotForm (mkSlotForm (startDate f) v (dailySlots f) (isActive f)) st.

Definition onDailySlotsChange (v : string) (st : State) : State :=
  let f := slotForm st in
  setSlotForm (mkSlotForm (startDate f) (endDate f) v (isActive f)) st.

Definition onIsActiveChange (b : bool) (st : State) : State :=
  let f := slotForm st in
  setSlotForm (mkSlotForm (startDate f) (endDate f) (dailySlots f) b) st.

(** *** [getDaysInSlotRange] (lines 442-447) and the capacity shown
    (line 1048)

    Both dates are local midnights, for which [differenceInDays] is the
    difference of the day numbers; an Invalid Date gives [NaN]. *)

Section Days.

Variable parseISO : string -> option Date.

Definition getDaysInSlotRange (slot : SlotData) : option Z :=
  match parseISO (start_date slot), parseISO (end_date slot) with
  | Some start, Some end_ => Some (end_ - start + 1)
  | _, _ => None
  end.

Definition totalSlots (slot : SlotData) : option Z :=
  match getDaysInSlotRange slot with
  | Some daysCount => Some (daily_slots slot * daysCount)
  | None => None
  end.

End Days.

End DashboardSlots.

(** ** The order tracking page ([ViewOrder], unnamed/part_000) *)

Module ViewOrder.

Import JSString.

(** *** The status table (lines 24-49)

    The [icon] of an entry is a component; it is kept by its name. *)



(** *** Component state, store and browser storage (lines 62-67) *)

(** The columns of an [orders] row that [searchOrder] and the status
    display read. *)
Record Order := mkOrder {
  order_id : string;
  tracking_token : string;
  customer_name : string;
  food_type : string;
  order_status : string;
  created_at : string
}.

(** An entry of the ["recent_orders"] array. *)
Record OrderSummary := mkSummary {
  sum_order_id : string;
  sum_tracking_token : string;
  sum_customer_name : string;
  sum_food_type : string;
  sum_status : string;
  sum_created_at : string
}.

(** What the awaited query gives: the row, an error object of the store,
    or a rejection (the [catch] branch). *)
Inductive Response :=
| Found (data : Order)
| Refused (code message : string)
| Thrown.

(** What the browser's storage does in the accesses that follow
    [setOrder(data)] (lines 103-114): nothing unusual, or an exception
    thrown by the reading of ["recent_orders"] ([getItem], [JSON.parse],
    [filter]) or by its writing. *)
Inductive StorageFault :=
| NoFault
| ReadThrows
| WriteThrows.

Record Toast := mkToast {
  title : string;
  description : string;
  destructive : bool
}.

Record State := mkState {
  trackingToken : string;
  order : option Order;
  loading : bool;
  error : string
}.

(** The notifications shown, the values of [tracking_token] the store was
    asked for, and the ["recent_orders"] key of [localStorage] (absent
    reads as the empty array). *)
Record World := mkWorld {
  toasts : list Toast;
  queries : list string;
  recent_orders : list OrderSummary
}.

Definition initialState : State := mkState "" None false "".

Definition toast (t : Toast) (w : World) : World :=
  mkWorld (toasts w ++ [t]) (queries w) (recent_orders w).

Definition query (token : string) (w : World) : World :=
  mkWorld (toasts w) (queries w ++ [token]) (recent_orders w).

Definition setItem_recent_orders (l : list OrderSummary) (w : World) : World :=
  mkWorld (toasts w) (queries w) l.

Definition setTrackingToken (v : string) (st : State) : State :=
  mkState v (order st) (loading st) (error st).

(** *** [searchOrder] (lines 69-127) *)

Definition orderSummary (data : Order) : OrderSummary :=
  mkSummary (order_id data) (tracking_token data) (customer_name data)
            (food_type data) (order_status data) (created_at data).

(** Whatever is thrown inside the [try] ends in the [catch] block
    (lines 121-123), which sets the error text; an exception of the
    storage is thrown after [setOrder(data)], so the order stays on
    display.  [finally] ends the loading. *)
Definition searchOrder (store : string -> Response) (storage : StorageFault)
    (st : State) (w : World) : State * World :=
  if falsy (trim (trackingToken st)) then
    (mkState (trackingToken st) (order st) (loading st)
             "Please enter your tracking token",
     toast (mkToast "Missing token" "Please enter your tracking token" true) w)
  else
    let token := trim (trackingToken st) in
    let w1 := query token w in
    match store token with
    | Refused code message =>
        let e := if (code =? "PGRST116")%string
                 then "Order not found. Please check your tracking token."
                 else ("Error fetching order: " ++ message)%string in
        (mkState (trackingToken st) None false e, w1)
    | Found data =>
        match storage with
        | NoFault =>
            let recentOrders := recent_orders w1 in
            let updatedRecent :=
              orderSummary data
              :: filter (fun o => negb (sum_tracking_token o
                                        =? tracking_token data)%string)
                        recentOrders in
            (mkState (trackingToken st) (Some data) false "",
             toast (mkToast "Order found!" "Tracking your order now" false)
                   (setItem_recent_orders updatedRecent w1))
        | ReadThrows | WriteThrows =>
            (mkState (trackingToken st) (Some data) false
                     "Failed to fetch order. Please try again.", w1)
        end
    | Thrown =>
        (mkState (trackingToken st) None false
                 "Failed to fetch order. Please try again.", w1)
    end.

(** [disabled] of the "Track Order" button (line 237). *)
Definition trackDisabled (st : State) : bool :=
  loading st || falsy (trim (trackingToken st)).

(** *** The status display (lines 270-355)

    [statusConfig[order.order_status]] is [undefined] for a status the
    table does not own, and reading [.color] or [.step] of it throws; for a
    member name of [Object.prototype] the lookup gives an object without
    [icon], which React refuses to render.  [None] is the failed render. *)




(** *** Sessions of the page *)

(** Typing in the field, the "Track Order" button and the Enter key
    (lines 154-158, which call [searchOrder] whatever the field holds). *)
Inductive Event :=
| TokenChanged (v : string)
| ClickTrack (store : string -> Response) (storage : StorageFault)
| PressEnter (store : string -> Response) (storage : StorageFault).

Definition offered (st : State) (ev : Event) : Prop :=
  match ev with
  | ClickTrack _ _ => trackDisabled st = false
  | _ => True
  end.

Definition fire (ev : Event) (sw : State * World) : State * World :=
  let (st, w) := sw in
  match ev with
  | TokenChanged v => (setTrackingToken v st, w)
  | ClickTrack store storage => searchOrder store storage st w
  | PressEnter store storage => searchOrder store storage st w
  end.

Inductive reachable (w0 : World) : State * World -> Prop :=
| reachable_start : reachable w0 (initialState, w0)
| reachable_fire ev sw :
    reachable w0 sw -> offered (fst sw) ev -> reachable w0 (fire ev sw).

End ViewOrder.

(** ** Auxiliary definitions used to state the properties *)

Module CalendarAux.

Import JSDate.

(** First day of the March-based year [yoe] within its era. *)
Definition year_start (yoe : Z) : Z := 365 * yoe + yoe / 4 - yoe / 100.

(** Day number of the first of the month numbered [12 * year + month]. *)
Definition month_start (n : Z) : Z := MakeDay 0 n 1.

(** The tables of ECMA-262 against which the era computation is checked:
    DayFromYear, InLeapYear (as 0 or 1) and the day within the year on
    which each month begins. *)
Definition DayFromYear (y : Z) : Z :=
  365 * (y - 1970) + (y - 1969) / 4 - (y - 1901) / 100 + (y - 1601) / 400.

Definition InLeapYear (y : Z) : Z :=
  if (y mod 4 =? 0) && (negb (y mod 100 =? 0) || (y mod 400 =? 0))
  then 1 else 0.

Definition monthOffset (m leap : Z) : Z :=
  nth (Z.to_nat m)
      [0; 31; 59 + leap; 90 + leap; 120 + leap; 151 + leap; 181 + leap;
       212 + leap; 243 + leap; 273 + leap; 304 + leap; 334 + leap] 0.

(** An instance of [parseISO] for the examples: a host whose local time is
    UTC, and timestamps that begin with [yyyy-MM-dd]; a date that does not
    exist ([2024-02-30]) is an Invalid Date. *)
Definition digit_value (c : ascii) : option Z :=
  let n := nat_of_ascii c in
  if Nat.leb 48 n && Nat.leb n 57 then Some (Z.of_nat n - 48) else None.

Fixpoint read_digits (k : nat) (acc : Z) (s : string) : option (Z * string) :=
  match k with
  | O => Some (acc, s)
  | S k' =>
      match s with
      | EmptyString => None
      | String c s' =>
          match digit_value c with
          | Some v => read_digits k' (acc * 10 + v) s'
          | None => None
          end
      end
  end.

Definition read_dash (s : string) : option string :=
  match s with
  | String c s' => if (c =? "-")%char then Some s' else None
  | EmptyString => None
  end.

Definition parseISO_utc (s : string) : option Date :=
  match read_digits 4 0 s with
  | Some (y, s1) =>
      match read_dash s1 with
      | Some s2 =>
          match read_digits 2 0 s2 with
          | Some (m, s3) =>
              match read_dash s3 with
              | Some s4 =>
                  match read_digits 2 0 s4 with
                  | Some (d, _) =>
                      let t := MakeDay y (m - 1) d in
                      if (getFullYear t =? y) && (getMonth t =? m - 1)
                         && (getDate t =? d)
                      then Some t else None
                  | None => None
                  end
              | None => None
              end
          | None => None
          end
      | None => None
      end
  | None => None
  end.

End CalendarAux.

Module AnalyticsSpec.

Import JSDate Dashboard.












Section ByDay.

Variable parseISO : string -> option Date.




Definition validTimestamps (orderData : list OrderData) : Prop :=
  Forall (fun o => parseISO (created_at o) <> None) orderData.

End ByDay.

Definition sumAmounts (orderData : list OrderData) : Z :=
  fold_right (fun o s => total_amount o + s) 0 orderData.

(** The amounts stay within the integers that doubles hold exactly
    (magnitude below 2^53) however they are added up, and the list is no
    longer than a JavaScript array can be. *)
Definition safeAmounts (orderData : list OrderData) : Prop :=
  fold_right (fun o s => Z.abs (total_amount o) + s) 0 orderData
  <= 9007199254740991
  /\ Z.of_nat (List.length orderData) < 4294967296.


Definition sampleOrder (id created food : string) (n amount : Z)
    (method : string) : OrderData :=
  mkOrder id created "Ama" food n "pre-order" method None amount
          "pending" "awaiting confirmation".

End AnalyticsSpec.

Module SubmitSpec.

Import JSString OrderForm.

(** A required input is missing. *)
Definition missingInput (st : State) : Prop :=
  agreedToTerms st = false
  \/ trim (name (formData st)) = ""
  \/ foodType (formData st) = ""
  \/ orderType (formData st) = ""
  \/ (deliverToMe (formData st) = true
      /\ trim (deliveryAddress (formData st)) = "").

(** The field a failing guard of [handleSubmit] is about. *)
Definition offendingField (st : State) : option Field :=
  let fd := formData st in
  if negb (agreedToTerms st) then Some TermsField
  else if falsy (trim (name fd)) then Some NameField
  else if falsy (foodType fd) then Some FoodTypeField
  else if falsy (orderType fd) then Some OrderTypeField
  else if deliverToMe fd && falsy (trim (deliveryAddress fd))
       then Some DeliveryAddressField
  else None.


(** The failing guard of [handleSubmit] is reported next to its field in
    the form rendered from the state [st'] after the submission. *)
Definition reportedInline (st st' : State) : Prop :=
  exists f msg, offendingField st = Some f /\ In (f, msg) (inlineMessages st').

Definition sampleForm : FormData :=
  mkFormData "Ama" "fried-rice" 2 "same-day" "Brampton" true "12 Main St"
             "e-transfer".

Definition sampleState : State :=
  mkState false false "" "" true sampleForm [] true.

Definition blankNameState : State :=
  mkState false false "" "" true
          (mkFormData "   " "fried-rice" 2 "same-day" "Brampton" false ""
                      "e-transfer") [] true.

Definition emptyWorld : World := mkWorld [] [] None None.

Definition acceptingStore (_ : OrderRow) : InsertResult :=
  InsertOk "order-1" "token-1".

End SubmitSpec.

Module TrackingSpec.

Import ViewOrder.

Definition sampleOrder : Order :=
  mkOrder "ORD-1" "tok-1" "Ama" "fried-rice" "preparing"
          "2024-01-06T10:15:00".

(** A store that knows one order. *)
Definition sampleStore (token : string) : Response :=
  if (token =? "tok-1")%string then Found sampleOrder
  else Refused "PGRST116" "no rows".

End TrackingSpec.

(** * Properties *)

(** ** The calendar *)

Module CalendarFacts.

Import JSDate CalendarAux.

Ltac euclid := Z.to_euclidean_division_equations; lia.

Ltac split_tests :=
  repeat match goal with
  | |- context [if ?a <? ?b then _ else _] => destruct (Z.ltb_spec a b)
  | |- context [if ?a <=? ?b then _ else _] => destruct (Z.leb_spec a b)
  end.

Lemma yoe_bounds doe :
  0 <= doe < 146097 ->
  0 <= yoe_of_doe doe <= 399 /\ 0 <= doy_of_doe doe <= 365.
Proof.
  intros H. unfold doy_of_doe, yoe_of_doe. cbv zeta. euclid.
Qed.

Lemma yoe_next doe :
  0 <= doe < 146097 ->
  (yoe_of_doe doe < 399 /\ doe < year_start (yoe_of_doe doe + 1))
  \/ yoe_of_doe doe = 399.
Proof.
  intros H. unfold yoe_of_doe, year_start. euclid.
Qed.

Lemma mp_bounds doy :
  0 <= doy <= 365 ->
  0 <= mp_of_doy doy <= 11 /\ 1 <= dom_of_doy doy <= 31.
Proof.
  intros H. unfold dom_of_doy, mp_of_doy. euclid.
Qed.

Lemma mp_next doy :
  0 <= doy <= 365 -> doy < (153 * (mp_of_doy doy + 1) + 2) / 5.
Proof.
  intros H. unfold mp_of_doy. euclid.
Qed.

Lemma doe_range d : 0 <= (d + epoch_shift) mod days_per_era < 146097.
Proof. unfold days_per_era. apply Z.mod_pos_bound. lia. Qed.

Lemma getMonth_range d : 0 <= getMonth d <= 11.
Proof.
  unfold getMonth. cbv zeta.
  pose proof (doe_range d) as Hd.
  pose proof (yoe_bounds _ Hd) as [_ Hy].
  pose proof (mp_bounds _ Hy) as [Hm _].
  split_tests; lia.
Qed.

Lemma getDate_range d : 1 <= getDate d <= 31.
Proof.
  unfold getDate.
  pose proof (doe_range d) as Hd.
  pose proof (yoe_bounds _ Hd) as [_ Hy].
  apply (mp_bounds _ Hy).
Qed.

Lemma getDay_range d : 0 <= getDay d <= 6.
Proof. unfold getDay. euclid. Qed.

(** Names the era, the day of the era and the fields derived from it, and
    leaves their linear relations as hypotheses. *)
Ltac open_day d :=
  let Hd := fresh "Hd" in
  let Hy := fresh "Hy" in
  let Hdoy := fresh "Hdoy" in
  let Hnext := fresh "Hnext" in
  let Hmp := fresh "Hmp" in
  let Hdom := fresh "Hdom" in
  let Hmpn := fresh "Hmpn" in
  let Hdec := fresh "Hdec" in
  let Heq := fresh "Heq" in
  pose proof (doe_range d) as Hd;
  pose proof (yoe_bounds _ Hd) as [Hy Hdoy];
  pose proof (yoe_next _ Hd) as Hnext;
  pose proof (mp_bounds _ Hdoy) as [Hmp Hdom];
  pose proof (mp_next _ Hdoy) as Hmpn;
  unfold year_start, dom_of_doy in *;
  set (doe := (d + epoch_shift) mod days_per_era) in *;
  assert (Hdec : d + epoch_shift
                 = (d + epoch_shift) / days_per_era * days_per_era + doe)
    by (subst doe; unfold days_per_era;
        pose proof (Z.div_mod (d + epoch_shift) 146097); lia);
  set (era := (d + epoch_shift) / days_per_era) in *;
  assert (Heq : doe = 365 * yoe_of_doe doe + yoe_of_doe doe / 4
                      - yoe_of_doe doe / 100 + doy_of_doe doe)
    by (unfold doy_of_doe; cbv zeta; lia);
  set (yoe := yoe_of_doe doe) in *;
  set (doy := doy_of_doe doe) in *;
  set (mp := mp_of_doy doy) in *;
  clearbody mp doy yoe era doe;
  unfold days_per_era, epoch_shift in *.

(** [MakeDay] undoes the field accessors. *)
Lemma MakeDay_getters d dt :
  MakeDay (getFullYear d) (getMonth d) dt = d + (dt - getDate d).
Proof.
  pose proof (getMonth_range d) as Hm.
  unfold MakeDay. cbv zeta.
  rewrite (Z.div_small (getMonth d) 12), (Z.mod_small (getMonth d) 12),
    Z.add_0_r by lia.
  clear Hm.
  unfold day_of_month_start, getFullYear, getDate, getMonth. cbv zeta.
  open_day d.
  split_tests; euclid.
Qed.

(** A day lies before the first of the following month. *)
Lemma MakeDay_next d : d < MakeDay (getFullYear d) (getMonth d + 1) 1.
Proof.
  unfold MakeDay, day_of_month_start, getFullYear, getMonth. cbv zeta.
  open_day d.
  assert (Hcase : mp <= 8 \/ mp = 9 \/ mp = 10 \/ mp = 11) by lia.
  destruct Hcase as [Hc|[Hc|[Hc|Hc]]].
  - destruct (Z.ltb_spec mp 10); [|lia].
    destruct (Z.leb_spec (mp + 2) 1); [lia|].
    rewrite (Z.div_small (mp + 2 + 1) 12), (Z.mod_small (mp + 2 + 1) 12) by lia.
    destruct (Z.leb_spec (mp + 2 + 1) 1); [lia|].
    euclid.
  - subst mp. split_tests; euclid.
  - subst mp. split_tests; euclid.
  - subst mp. split_tests; euclid.
Qed.

Lemma MakeDay_month_start y m dt :
  MakeDay y m dt = month_start (12 * y + m) + dt - 1.
Proof.
  unfold month_start, MakeDay. cbv zeta.
  replace (12 * y + m) with (m + y * 12) by lia.
  rewrite Z.div_add, Z.mod_add by lia.
  replace (0 + (m / 12 + y)) with (y + m / 12) by lia. lia.
Qed.

Lemma month_start_step n : month_start n < month_start (n + 1).
Proof.
  unfold month_start, MakeDay, day_of_month_start. cbv zeta.
  unfold days_per_era, epoch_shift.
  rewrite !Z.add_0_l.
  assert (Hm : 0 <= n mod 12 < 12) by (apply Z.mod_pos_bound; lia).
  assert (Hd : n = 12 * (n / 12) + n mod 12) by (apply Z.div_mod; lia).
  assert (Hcase : n mod 12 <= 10 \/ n mod 12 = 11) by lia.
  destruct Hcase as [Hc|Hc].
  - replace ((n + 1) / 12) with (n / 12) by euclid.
    replace ((n + 1) mod 12) with (n mod 12 + 1) by euclid.
    set (y := n / 12) in *. set (m := n mod 12) in *. clearbody y m. clear Hd.
    split_tests; euclid.
  - replace ((n + 1) / 12) with (n / 12 + 1) by euclid.
    replace ((n + 1) mod 12) with 0 by euclid.
    rewrite Hc.
    set (y := n / 12) in *. clearbody y. clear Hd Hc Hm.
    split_tests; euclid.
Qed.

Lemma month_start_mono n k : 0 <= k -> month_start n <= month_start (n + k).
Proof.
  intros Hk. revert k Hk.
  apply (natlike_ind (fun k => month_start n <= month_start (n + k))).
  - rewrite Z.add_0_r. lia.
  - intros k Hk IH. pose proof (month_start_step (n + k)).
    replace (n + Z.succ k) with (n + k + 1) by lia. lia.
Qed.

(** The month a day belongs to, as an interval of month starts. *)
Lemma month_interval d :
  month_start (12 * getFullYear d + getMonth d) = d - getDate d + 1
  /\ d < month_start (12 * getFullYear d + getMonth d + 1).
Proof.
  pose proof (MakeDay_getters d 1) as H1.
  pose proof (MakeDay_next d) as H2.
  rewrite MakeDay_month_start in H1, H2.
  replace (12 * getFullYear d + (getMonth d + 1))
    with (12 * getFullYear d + getMonth d + 1) in H2 by lia.
  lia.
Qed.

(** The accessors on any day between two consecutive month starts. *)
Lemma getters_in_month n t :
  month_start n <= t < month_start (n + 1) ->
  12 * getFullYear t + getMonth t = n
  /\ getDate t = t - month_start n + 1.
Proof.
  intros [Hlo Hhi].
  destruct (month_interval t) as [Hs He].
  pose proof (getDate_range t) as Hdt.
  set (N := 12 * getFullYear t + getMonth t) in *.
  assert (HN : N = n).
  { destruct (Z.lt_trichotomy N n) as [Hlt|[Heq|Hgt]]; [|exact Heq|].
    - pose proof (month_start_mono (N + 1) (n - (N + 1)) ltac:(lia)) as Hm.
      replace (N + 1 + (n - (N + 1))) with n in Hm by lia. lia.
    - pose proof (month_start_mono (n + 1) (N - (n + 1)) ltac:(lia)) as Hm.
      replace (n + 1 + (N - (n + 1))) with N in Hm by lia. lia. }
  split; [exact HN|]. rewrite <- HN. lia.
Qed.

Lemma getters_MakeDay y m :
  0 <= m <= 11 ->
  getFullYear (MakeDay y m 1) = y /\ getMonth (MakeDay y m 1) = m
  /\ getDate (MakeDay y m 1) = 1.
Proof.
  intros Hm. rewrite MakeDay_month_start.
  replace (month_start (12 * y + m) + 1 - 1) with (month_start (12 * y + m))
    by lia.
  pose proof (month_start_step (12 * y + m)) as Hstep.
  destruct (getters_in_month (12 * y + m) (month_start (12 * y + m))
              ltac:(lia)) as [HN HD].
  pose proof (getMonth_range (month_start (12 * y + m))) as Hr.
  repeat split; lia.
Qed.

(** The first of a month is where ECMA-262 puts it. *)
Lemma MakeDay_ecma y m :
  0 <= m <= 11 ->
  MakeDay y m 1 = DayFromYear y + monthOffset m (InLeapYear y).
Proof.
  intros Hm.
  unfold MakeDay. cbv zeta.
  rewrite (Z.div_small m 12), (Z.mod_small m 12), Z.add_0_r by lia.
  unfold day_of_month_start, DayFromYear, InLeapYear, days_per_era,
    epoch_shift. cbv zeta.
  assert (Hc : m = 0 \/ m = 1 \/ m = 2 \/ m = 3 \/ m = 4 \/ m = 5 \/ m = 6
               \/ m = 7 \/ m = 8 \/ m = 9 \/ m = 10 \/ m = 11) by lia.
  destruct (Z.eqb_spec (y mod 4) 0) as [L4|L4];
    destruct (Z.eqb_spec (y mod 100) 0) as [L100|L100];
    destruct (Z.eqb_spec (y mod 400) 0) as [L400|L400]; cbn [andb orb negb];
  destruct Hc as [E|[E|[E|[E|[E|[E|[E|[E|[E|[E|[E|E]]]]]]]]]]]; subst m;
    unfold monthOffset;
    match goal with
    | |- context [nth ?n ?l ?d] =>
        let v := eval cbv [nth Z.to_nat Pos.to_nat Pos.iter_op Nat.add]
                 in (nth n l d) in
        change (nth n l d) with v
    end;
    split_tests; try lia; euclid.
Qed.

(** [getFullYear] is YearFromTime: the year whose first day is the last
    one not after [d]. *)
Lemma getFullYear_ecma d :
  DayFromYear (getFullYear d) <= d < DayFromYear (getFullYear d + 1).
Proof.
  destruct (month_interval d) as [Hs He].
  pose proof (getMonth_range d) as Hm.
  pose proof (getDate_range d) as Hd.
  pose proof (MakeDay_ecma (getFullYear d) 0 ltac:(lia)) as H0.
  pose proof (MakeDay_ecma (getFullYear d + 1) 0 ltac:(lia)) as H1.
  rewrite MakeDay_month_start in H0, H1.
  unfold monthOffset in H0, H1. simpl nth in H0, H1.
  pose proof (month_start_mono (12 * getFullYear d + 0) (getMonth d)
                ltac:(lia)) as M0.
  pose proof (month_start_mono (12 * getFullYear d + getMonth d + 1)
                (11 - getMonth d) ltac:(lia)) as M1.
  replace (12 * getFullYear d + 0 + getMonth d)
    with (12 * getFullYear d + getMonth d) in M0 by lia.
  replace (12 * getFullYear d + getMonth d + 1 + (11 - getMonth d))
    with (12 * (getFullYear d + 1) + 0) in M1 by lia.
  lia.
Qed.

Lemma setDate_shift d k : setDate d (getDate d + k) = d + k.
Proof. unfold setDate. rewrite MakeDay_getters. lia. Qed.

Lemma startOfWeek_monday d :
  startOfWeek d 1 = d - (getDay d + 6) mod 7.
Proof.
  unfold startOfWeek. cbv zeta.
  replace (getDate d - ((if getDay d <? 1 then 7 else 0) + getDay d - 1))
    with (getDate d + - ((if getDay d <? 1 then 7 else 0) + getDay d - 1))
    by lia.
  rewrite setDate_shift.
  pose proof (getDay_range d).
  split_tests; euclid.
Qed.

Lemma endOfWeek_sunday d :
  endOfWeek d 1 = d - (getDay d + 6) mod 7 + 6.
Proof.
  unfold endOfWeek. cbv zeta.
  rewrite setDate_shift.
  pose proof (getDay_range d).
  split_tests; euclid.
Qed.

(** The day names are those of [getDay]. *)
Lemma format_EEE_getDay d :
  (getDay d = 0 /\ format_EEE d = "Sun") \/ (getDay d = 1 /\ format_EEE d = "Mon")
  \/ (getDay d = 2 /\ format_EEE d = "Tue") \/ (getDay d = 3 /\ format_EEE d = "Wed")
  \/ (getDay d = 4 /\ format_EEE d = "Thu") \/ (getDay d = 5 /\ format_EEE d = "Fri")
  \/ (getDay d = 6 /\ format_EEE d = "Sat").
Proof.
  unfold format_EEE. pose proof (getDay_range d) as H.
  assert (Hc : getDay d = 0 \/ getDay d = 1 \/ getDay d = 2 \/ getDay d = 3
               \/ getDay d = 4 \/ getDay d = 5 \/ getDay d = 6) by lia.
  destruct Hc as [E|[E|[E|[E|[E|[E|E]]]]]]; rewrite E; simpl; tauto.
Qed.

(** 2024-01-06 was a Saturday, 2024-01-09 a Tuesday, 2026-11-03 a Tuesday. *)
Example known_days :
  (format_yyyy_MM_dd 19728, format_EEE 19728) = ("2024-01-06", "Sat")
  /\ (format_yyyy_MM_dd 19731, format_EEE 19731) = ("2024-01-09", "Tue")
  /\ (format_yyyy_MM_dd 20760, format_EEE 20760) = ("2026-11-03", "Tue")
  /\ parseISO_utc "2024-01-06T10:15:00+00:00" = Some 19728
  /\ parseISO_utc "2024-02-30" = None.
Proof. vm_compute. repeat split; reflexivity. Qed.

End CalendarFacts.

(** ** Order types offered by the order form *)

Module OrderTypeFacts.

Import JSDate CalendarFacts OrderForm.

Lemma weekend_names today :
  weekend today = true <-> (format_EEE today = "Sat" \/ format_EEE today = "Sun").
Proof.
  unfold weekend. cbv zeta. rewrite orb_true_iff, !Z.eqb_eq.
  destruct (format_EEE_getDay today)
    as [[E N]|[[E N]|[[E N]|[[E N]|[[E N]|[[E N]|[E N]]]]]]];
    rewrite E, N; split; intros [H|H]; try discriminate H; auto.
Qed.

(** C5.  For every calendar day the order types the form offers after its
    mount effect are a function of that day alone, whatever the state
    before: on a Saturday or Sunday exactly the one type ["same-day"]
    (which is also the preselected type), on every other day exactly the
    one type ["pre-order"]. *)
Theorem orderTypes_by_weekday (today : Date) (st : State) :
  ((format_EEE today = "Sat" \/ format_EEE today = "Sun") ->
     map type_value (availableOrderTypes (mountEffect today st)) = ["same-day"]
     /\ orderType (formData (mountEffect today st)) = "same-day")
  /\ (~ (format_EEE today = "Sat" \/ format_EEE today = "Sun") ->
     map type_value (availableOrderTypes (mountEffect today st)) = ["pre-order"]
     /\ orderType (formData (mountEffect today st)) = "pre-order").
Proof.
  pose proof (weekend_names today) as Hw.
  unfold mountEffect, orderTypesFor, defaultTypeFor. simpl.
  destruct (weekend today); split; intros H.
  - split; reflexivity.
  - exfalso. apply H, Hw. reflexivity.
  - apply Hw in H. discriminate H.
  - split; reflexivity.
Qed.

Lemma orderTypes_by_weekday_witness :
  (format_EEE 19728 = "Sat" \/ format_EEE 19728 = "Sun")
  /\ map type_value (availableOrderTypes (mountEffect 19728 initialState))
     = ["same-day"]
  /\ ~ (format_EEE 19731 = "Sat" \/ format_EEE 19731 = "Sun")
  /\ map type_value (availableOrderTypes (mountEffect 19731 initialState))
     = ["pre-order"].
Proof.
  assert (Hsat : format_EEE 19728 = "Sat" \/ format_EEE 19728 = "Sun")
    by (left; reflexivity).
  assert (Htue : ~ (format_EEE 19731 = "Sat" \/ format_EEE 19731 = "Sun"))
    by (intros [H|H]; vm_compute in H; discriminate H).
  split; [exact Hsat|]. split.
  - exact (proj1 (proj1 (orderTypes_by_weekday 19728 initialState) Hsat)).
  - split; [exact Htue|].
    exact (proj1 (proj2 (orderTypes_by_weekday 19731 initialState) Htue)).
Defined.

(** On the known Saturday 2024-01-06 and the known Tuesday 2024-01-09. *)
Example orderTypes_known_days :
  orderTypesFor (MakeDay 2024 0 6) = [mkOrderType "same-day" "Same Day (+$5 rush fee)"]
  /\ orderTypesFor (MakeDay 2024 0 9) = [mkOrderType "pre-order" "Pre-order"].
Proof. split; reflexivity. Qed.

End OrderTypeFacts.

(** ** Date range of the order query *)

Module DateRangeFacts.

Import JSDate CalendarAux CalendarFacts Dashboard.

Lemma new_Date_MakeDay y m dt :
  ~ (0 <= y <= 99) -> new_Date y m dt = MakeDay y m dt.
Proof.
  intros H. unfold new_Date. cbv zeta.
  destruct (Z.leb_spec 0 y), (Z.leb_spec y 99); simpl; try reflexivity. lia.
Qed.

Lemma week_bounds now :
  let monday := startOfWeek now 1 in
  let sunday := endOfWeek now 1 in
  format_EEE monday = "Mon" /\ format_EEE sunday = "Sun"
  /\ sunday = monday + 6 /\ monday <= now <= sunday.
Proof.
  cbv zeta. rewrite startOfWeek_monday, endOfWeek_sunday.
  set (monday := now - (getDay now + 6) mod 7).
  assert (Hm : getDay monday = 1) by (subst monday; unfold getDay; euclid).
  assert (Hs : getDay (monday + 6) = 0) by (subst monday; unfold getDay; euclid).
  assert (Hr : monday <= now <= monday + 6) by (subst monday; euclid).
  repeat split; try lia.
  - destruct (format_EEE_getDay monday)
      as [[E N]|[[E N]|[[E N]|[[E N]|[[E N]|[[E N]|[E N]]]]]]]; try lia; exact N.
  - destruct (format_EEE_getDay (monday + 6))
      as [[E N]|[[E N]|[[E N]|[[E N]|[[E N]|[[E N]|[E N]]]]]]]; try lia; exact N.
Qed.

Lemma month_bounds now :
  let first := MakeDay (getFullYear now) (getMonth now) 1 in
  let last := MakeDay (getFullYear now) (getMonth now + 1) 0 in
  getFullYear first = getFullYear now /\ getMonth first = getMonth now
  /\ getDate first = 1
  /\ getFullYear last = getFullYear now /\ getMonth last = getMonth now
  /\ getDate (last + 1) = 1
  /\ first <= now <= last.
Proof.
  cbv zeta.
  pose proof (getMonth_range now) as Hm.
  destruct (getters_MakeDay (getFullYear now) (getMonth now) Hm) as (F1 & F2 & F3).
  destruct (month_interval now) as [Hs He].
  pose proof (getDate_range now) as Hd.
  rewrite !MakeDay_month_start in *.
  set (n := 12 * getFullYear now + getMonth now) in *.
  replace (12 * getFullYear now + (getMonth now + 1)) with (n + 1) by lia.
  pose proof (month_start_step n) as Hstep.
  pose proof (month_start_step (n + 1)) as Hstep'.
  destruct (getters_in_month n (month_start (n + 1) + 0 - 1) ltac:(lia))
    as [L1 L2].
  destruct (getters_in_month (n + 1) (month_start (n + 1) + 0 - 1 + 1)
              ltac:(lia)) as [N1 N2].
  pose proof (getMonth_range (month_start (n + 1) + 0 - 1)) as Hr.
  repeat split; try assumption; try lia.
Qed.

(** C6.  Date-range resolution, for every current day [now] and every
    pair of custom bounds:
    - ["today"] gives [today, today];
    - ["week"] gives the Monday and the Sunday of the week of [now];
    - ["month"] gives the first and the last day of the month of [now]
      (for a year outside 0..99, which [new Date(y, m, d)] reads as
      1900 + y);
    - ["custom"] gives the supplied bounds;
    - with ["all"] the order query carries no bound on [created_at], and
      with each of the other four modes it carries both bounds of the
      resolved range. *)
Theorem getDateRangeFilter_modes (now : Date)
    (customStartDate customEndDate : string) :
  getDateRangeFilter now "today" customStartDate customEndDate
    = mkDateRange (format_yyyy_MM_dd now) (format_yyyy_MM_dd now)
  /\ (exists monday sunday,
        getDateRangeFilter now "week" customStartDate customEndDate
          = mkDateRange (format_yyyy_MM_dd monday) (format_yyyy_MM_dd sunday)
        /\ format_EEE monday = "Mon" /\ format_EEE sunday = "Sun"
        /\ sunday = monday + 6 /\ monday <= now <= sunday)
  /\ (~ (0 <= getFullYear now <= 99) ->
      exists first last,
        getDateRangeFilter now "month" customStartDate customEndDate
          = mkDateRange (format_yyyy_MM_dd first) (format_yyyy_MM_dd last)
        /\ getFullYear first = getFullYear now /\ getMonth first = getMonth now
        /\ getDate first = 1
        /\ getFullYear last = getFullYear now /\ getMonth last = getMonth now
        /\ getDate (last + 1) = 1
        /\ first <= now <= last)
  /\ getDateRangeFilter now "custom" customStartDate customEndDate
       = mkDateRange customStartDate customEndDate
  /\ ordersQuery now "all" customStartDate customEndDate = mkQuery None None
  /\ (forall mode, In mode ["today"; "week"; "month"; "custom"] ->
        let r := getDateRangeFilter now mode customStartDate customEndDate in
        ordersQuery now mode customStartDate customEndDate
          = mkQuery (Some (range_start r ++ "T00:00:00")%string)
                    (Some (range_end r ++ "T23:59:59")%string)).
Proof.
  split; [reflexivity|]. split; [|split; [|split; [|split]]].
  - exists (startOfWeek now 1), (endOfWeek now 1).
    split; [reflexivity|]. apply week_bounds.
  - intros Hy.
    exists (MakeDay (getFullYear now) (getMonth now) 1),
           (MakeDay (getFullYear now) (getMonth now + 1) 0).
    split; [|apply month_bounds].
    unfold getDateRangeFilter. simpl.
    rewrite !new_Date_MakeDay by exact Hy. reflexivity.
  - reflexivity.
  - reflexivity.
  - intros mode Hin. simpl in Hin.
    destruct Hin as [<-|[<-|[<-|[<-|[]]]]]; reflexivity.
Qed.

Lemma getDateRangeFilter_modes_witness :
  ~ (0 <= getFullYear 20760 <= 99)
  /\ exists first last,
       getDateRangeFilter 20760 "month" "2026-01-01" "2026-01-31"
         = mkDateRange (format_yyyy_MM_dd first) (format_yyyy_MM_dd last)
       /\ getDate first = 1 /\ getDate (last + 1) = 1
       /\ first <= 20760 <= last.
Proof.
  assert (H : ~ (0 <= getFullYear 20760 <= 99))
    by (vm_compute; intros [_ H]; apply H; reflexivity).
  split; [exact H|].
  destruct (getDateRangeFilter_modes 20760 "2026-01-01" "2026-01-31")
    as (_ & _ & Hmonth & _).
  destruct (Hmonth H) as (first & last & E & _ & _ & D1 & _ & _ & D2 & R).
  exists first, last. repeat split; try assumption; apply R.
Defined.

(** On 2026-11-03 (a Tuesday). *)
Example getDateRangeFilter_sample :
  getDateRangeFilter 20760 "week" "" "" = mkDateRange "2026-11-02" "2026-11-08"
  /\ getDateRangeFilter 20760 "month" "" "" = mkDateRange "2026-11-01" "2026-11-30"
  /\ getDateRangeFilter (MakeDay 2024 1 10) "month" "" ""
     = mkDateRange "2024-02-01" "2024-02-29"
  /\ ordersQuery 20760 "today" "" ""
     = mkQuery (Some "2026-11-03T00:00:00") (Some "2026-11-03T23:59:59").
Proof. vm_compute. repeat split; reflexivity. Qed.

End DateRangeFacts.

(** ** The price breakdown *)

Module PricingFacts.

Import OrderForm.

Lemma selectedFood_matches fd f :
  In f foodTypes -> value f = foodType fd -> selectedFood fd = Some f.
Proof.
  intros Hin Hv. unfold selectedFood. rewrite <- Hv.
  simpl in Hin. destruct Hin as [<-|[<-|[<-|[]]]]; reflexivity.
Qed.

Lemma selectedFood_none fd :
  (forall f, In f foodTypes -> value f <> foodType fd) -> selectedFood fd = None.
Proof.
  intros H. unfold selectedFood.
  destruct (find _ foodTypes) as [f|] eqn:E; [|reflexivity].
  apply find_some in E as [Hin Hv].
  apply String.eqb_eq in Hv. exfalso. exact (H f Hin Hv).
Qed.

(** C1.  For every order request the breakdown computed against the
    catalog satisfies: the unit price is the price of the catalog item
    whose identifier is the selected one, and 0 when no item has that
    identifier; subtotal = unit price * packs; the rush fee is 5 for the
    order type ["same-day"] and 0 otherwise; the delivery fee is 8 when
    the delivery flag is set and 0 otherwise; total = subtotal + rush fee
    + delivery fee. *)
Theorem price_breakdown (fd : FormData) :
  (forall f, In f foodTypes -> value f = foodType fd ->
     basePricePerPack fd = price f)
  /\ ((forall f, In f foodTypes -> value f <> foodType fd) ->
     basePricePerPack fd = 0)
  /\ subtotal fd = basePricePerPack fd * packs fd
  /\ (orderType fd = "same-day" -> rushFee fd = 5)
  /\ (orderType fd <> "same-day" -> rushFee fd = 0)
  /\ (deliverToMe fd = true -> deliveryFee fd = 8)
  /\ (deliverToMe fd = false -> deliveryFee fd = 0)
  /\ total fd = subtotal fd + rushFee fd + deliveryFee fd.
Proof.
  repeat split.
  - intros f Hin Hv. unfold basePricePerPack.
    rewrite (selectedFood_matches fd f Hin Hv). reflexivity.
  - intros H. unfold basePricePerPack. rewrite (selectedFood_none fd H).
    reflexivity.
  - intros H. unfold rushFee. rewrite H. reflexivity.
  - intros H. unfold rushFee.
    destruct (String.eqb_spec (orderType fd) "same-day"); [contradiction|reflexivity].
  - intros H. unfold deliveryFee. rewrite H. reflexivity.
  - intros H. unfold deliveryFee. rewrite H. reflexivity.
Qed.

Lemma price_breakdown_witness :
  let fd := mkFormData "Ama" "noodles-no-chicken" 3 "same-day" "Brampton"
                       false "" "e-transfer" in
  let f := mkFoodType "noodles-no-chicken" "Super Loaded Noodles (No Chicken)"
                      20 in
  In f foodTypes /\ value f = foodType fd /\ orderType fd = "same-day"
  /\ basePricePerPack fd = 20 /\ rushFee fd = 5.
Proof.
  cbv zeta.
  set (fd := mkFormData "Ama" "noodles-no-chicken" 3 "same-day" "Brampton"
                        false "" "e-transfer").
  set (f := mkFoodType "noodles-no-chicken"
                       "Super Loaded Noodles (No Chicken)" 20).
  assert (Hin : In f foodTypes) by (right; right; left; reflexivity).
  assert (Hv : value f = foodType fd) by reflexivity.
  assert (Ho : orderType fd = "same-day") by reflexivity.
  destruct (price_breakdown fd) as (Hp & _ & _ & Hr & _).
  split; [exact Hin|]. split; [exact Hv|]. split; [exact Ho|]. split.
  - exact (Hp f Hin Hv).
  - exact (Hr Ho).
Defined.

Lemma catalog_size : List.length foodTypes = 3%nat.
Proof. reflexivity. Qed.

(** The two end-to-end scenarios of the specification. *)
Example three_packs_preorder :
  let fd := mkFormData "Ama" "noodles-no-chicken" 3 "pre-order" "Brampton"
                       false "" "e-transfer" in
  (subtotal fd, rushFee fd, deliveryFee fd, total fd) = (60, 0, 0, 60).
Proof. reflexivity. Qed.

Example two_packs_same_day_delivered :
  let fd := mkFormData "Ama" "fried-rice" 2 "same-day" "Brampton"
                       true "12 Main St" "e-transfer" in
  (subtotal fd, rushFee fd, deliveryFee fd, total fd) = (50, 5, 8, 63).
Proof. reflexivity. Qed.

(** The pack counter stays within 1..20. *)
Lemma handlePacksChange_range delta st :
  1 <= packs (formData (handlePacksChange delta st)) <= 20.
Proof. simpl. lia. Qed.

End PricingFacts.

(** ** Submission of the order form *)

Module SubmitFacts.

Import JSString OrderForm SubmitSpec.

Lemma falsy_iff s : falsy s = true <-> s = "".
Proof. unfold falsy. apply String.eqb_eq. Qed.

Lemma validationError_iff st :
  missingInput st <-> exists t, validationError st = Some t.
Proof.
  unfold missingInput, validationError. cbv zeta.
  destruct (agreedToTerms st); simpl.
  2: { split; [eauto|auto]. }
  destruct (falsy (trim (name (formData st)))) eqn:E1.
  { apply falsy_iff in E1. split; [eauto|auto]. }
  destruct (falsy (foodType (formData st))) eqn:E2.
  { apply falsy_iff in E2. split; [eauto|auto]. }
  destruct (falsy (orderType (formData st))) eqn:E3.
  { apply falsy_iff in E3. split; [eauto|auto]. }
  destruct (deliverToMe (formData st)) eqn:E4; simpl.
  - destruct (falsy (trim (deliveryAddress (formData st)))) eqn:E5.
    + apply falsy_iff in E5. split; [eauto|auto 6].
    + split.
      * intros [H|[H|[H|[H|[_ H]]]]]; try discriminate H;
          apply falsy_iff in H; congruence.
      * intros [t H]. discriminate H.
  - split.
    + intros [H|[H|[H|[H|[H _]]]]]; try discriminate H;
        apply falsy_iff in H; congruence.
    + intros [t H]. discriminate H.
Qed.

Lemma validationError_destructive st t :
  validationError st = Some t -> destructive t = true.
Proof.
  unfold validationError. cbv zeta.
  repeat match goal with
         | |- context [if ?b then _ else _] => destruct b
         end; intros H; inversion H; reflexivity.
Qed.

(** A name made of white space of any kind is blank: here an ideographic
    space (U+3000) between a no-break space and a tab. *)
Example unicode_blank_name_refused :
  validationError
    (mkState false false "" "" true
       (mkFormData " 　	" "fried-rice" 2 "same-day" "Brampton" false ""
                   "e-transfer") [] true)
  = Some (mkToast "Missing information" "Please enter your name." true)
  /\ trim "　Ama " = "Ama".
Proof. vm_compute. split; reflexivity. Qed.

(** C8 as stated fails: with the terms agreed and a blank name the
    submission is refused with a notification, but the form rendered
    afterwards shows no message next to the name field. *)
Lemma blank_name_not_reported_inline :
  missingInput blankNameState
  /\ ~ reportedInline blankNameState
         (fst (handleSubmit acceptingStore NoFault "2026-11-03T12:00:00.000Z"
                 blankNameState emptyWorld)).
Proof.
  split.
  - right. left. reflexivity.
  - intros (f & msg & _ & Hin). simpl in Hin. exact Hin.
Qed.

(** C8 (amended).  For every submission in which a required input is
    missing (terms not agreed, blank name, no food type, no order type, or
    delivery with a blank address) the handler stops at the first failing
    guard, before the insert: it shows one destructive notification and
    changes nothing else - the component state is the same, no row is sent
    to the order store, the local storage is untouched.  Next to the
    fields nothing is reported: the only message the form renders is the
    reminder about the terms, and only while they are not agreed. *)
Theorem handleSubmit_validation_aborts
    (store : OrderRow -> InsertResult) (storage : StorageFault)
    (nowISO : string)
    (st : State) (w : World) :
  missingInput st ->
  exists t,
    handleSubmit store storage nowISO st w = (st, toast t w)
    /\ destructive t = true
    /\ toasts (toast t w) = toasts w ++ [t]
    /\ inserted (toast t w) = inserted w
    /\ stored_orders (toast t w) = stored_orders w
    /\ last_order_token (toast t w) = last_order_token w
    /\ (forall f msg, In (f, msg) (inlineMessages st) ->
          f = TermsField /\ agreedToTerms st = false).
Proof.
  intros Hmiss. apply validationError_iff in Hmiss as [t Ht].
  exists t. unfold handleSubmit. rewrite Ht.
  repeat split.
  - exact (validationError_destructive st t Ht).
  - unfold inlineMessages in H. destruct (agreedToTerms st); simpl in H.
    + contradiction.
    + destruct H as [H|[]]. inversion H. reflexivity.
  - unfold inlineMessages in H. destruct (agreedToTerms st); simpl in H.
    + contradiction.
    + reflexivity.
Qed.

Lemma handleSubmit_validation_aborts_witness :
  missingInput blankNameState
  /\ exists t,
       handleSubmit acceptingStore NoFault "2026-11-03T12:00:00.000Z"
         blankNameState emptyWorld = (blankNameState, toast t emptyWorld)
       /\ destructive t = true.
Proof.
  assert (H : missingInput blankNameState) by (right; left; reflexivity).
  split; [exact H|].
  destruct (handleSubmit_validation_aborts acceptingStore NoFault
              "2026-11-03T12:00:00.000Z" blankNameState emptyWorld H)
    as (t & E & D & _).
  exists t. split; assumption.
Defined.

(** C9.  Every row the submission sends to the order store is in the
    initial state - order status ["pending"], payment status
    ["awaiting confirmation"] - and carries the breakdown computed from
    the form at that moment, so that its total is its subtotal plus its
    rush fee plus its delivery fee; and a submission that passes the
    guards sends exactly one such row. *)
Theorem handleSubmit_inserts_initial_row
    (store : OrderRow -> InsertResult) (storage : StorageFault)
    (nowISO : string)
    (st : State) (w : World) :
  (~ missingInput st ->
     inserted (snd (handleSubmit store storage nowISO st w))
       = inserted w ++ [insertRow (formData st)])
  /\ (forall r, In r (inserted (snd (handleSubmit store storage nowISO st w))) ->
        In r (inserted w)
        \/ (order_status r = "pending"
            /\ payment_status r = "awaiting confirmation"
            /\ row_subtotal r = subtotal (formData st)
            /\ rush_fee r = rushFee (formData st)
            /\ delivery_fee r = deliveryFee (formData st)
            /\ total_amount r = total (formData st)
            /\ total_amount r = row_subtotal r + rush_fee r + delivery_fee r)).
Proof.
  assert (Hcases :
            inserted (snd (handleSubmit store storage nowISO st w)) = inserted w
            \/ (validationError st = None
                /\ inserted (snd (handleSubmit store storage nowISO st w))
                   = inserted w ++ [insertRow (formData st)])).
  { unfold handleSubmit.
    destruct (validationError st) as [t|]; [left; reflexivity|right].
    split; [reflexivity|].
    destruct (store (insertRow (formData st)));
      [destruct storage|]; reflexivity. }
  split.
  - intros Hok. destruct Hcases as [_|[_ E]]; [|exact E].
    unfold handleSubmit.
    destruct (validationError st) as [t|] eqn:Ev.
    + exfalso. apply Hok, validationError_iff. eauto.
    + destruct (store (insertRow (formData st)));
      [destruct storage|]; reflexivity.
  - intros r Hin. destruct Hcases as [E|[_ E]]; rewrite E in Hin.
    + left. exact Hin.
    + apply in_app_or in Hin as [Hin|[<-|[]]]; [left; exact Hin|right].
      repeat split.
Qed.

Lemma handleSubmit_inserts_initial_row_witness :
  ~ missingInput sampleState
  /\ inserted (snd (handleSubmit acceptingStore NoFault "2026-11-03T12:00:00.000Z"
                      sampleState emptyWorld))
     = [insertRow sampleForm].
Proof.
  assert (H : ~ missingInput sampleState).
  { intros [H|[H|[H|[H|[_ H]]]]]; vm_compute in H; discriminate H. }
  split; [exact H|].
  exact (proj1 (handleSubmit_inserts_initial_row acceptingStore NoFault
                  "2026-11-03T12:00:00.000Z" sampleState emptyWorld) H).
Defined.

(** A complete form: one row, 2 x 25 + 5 + 8 = 63. *)
Example handleSubmit_sample :
  let '(st', w') := handleSubmit acceptingStore NoFault "2026-11-03T12:00:00.000Z"
                      sampleState emptyWorld in
  isSuccess st' = true /\ trackingToken st' = "token-1"
  /\ map total_amount (inserted w') = [63]
  /\ map order_status (inserted w') = ["pending"]
  /\ last_order_token w' = Some "token-1".
Proof. vm_compute. repeat split; reflexivity. Qed.

End SubmitFacts.

(** ** Order actions of the dashboard *)

Module ActionFacts.

Import Dashboard AnalyticsSpec.

Ltac string_cases :=
  repeat match goal with
         | |- context [(?a =? ?b)%string] => destruct (String.eqb_spec a b)
         end.

(** C7.  The buttons offered for an order depend only on its payment
    status and order status: "confirm payment" is offered exactly when the
    payment status is ["awaiting confirmation"]; "start preparing" exactly
    when the payment status is ["confirmed paid"] and the order status is
    ["pending"]; "mark ready" exactly when the order status is
    ["preparing"]; "mark delivered" exactly when the order status is
    ["ready"].  In particular confirm-payment is not offered once the
    payment is confirmed, mark-delivered is not offered unless the order
    is ready, and no button offers a cancellation. *)
Theorem offeredActions_by_state (order other : OrderData) :
  (In confirmPayment (offeredActions order)
     <-> payment_status order = "awaiting confirmation")
  /\ (In markPreparing (offeredActions order)
     <-> payment_status order = "confirmed paid"
         /\ order_status order = "pending")
  /\ (In markReady (offeredActions order) <-> order_status order = "preparing")
  /\ (In markDelivered (offeredActions order) <-> order_status order = "ready")
  /\ ~ In cancelOrder (offeredActions order)
  /\ (payment_status order = "confirmed paid" ->
      ~ In confirmPayment (offeredActions order))
  /\ (order_status order <> "ready" ->
      ~ In markDelivered (offeredActions order))
  /\ (payment_status other = payment_status order ->
      order_status other = order_status order ->
      offeredActions other = offeredActions order).
Proof.
  assert (Hsame : payment_status other = payment_status order ->
                  order_status other = order_status order ->
                  offeredActions other = offeredActions order).
  { intros H1 H2. unfold offeredActions. rewrite H1, H2. reflexivity. }
  unfold offeredActions in *.
  destruct (String.eqb_spec (payment_status order) "awaiting confirmation") as [P1|P1];
    destruct (String.eqb_spec (payment_status order) "confirmed paid") as [P2|P2];
    destruct (String.eqb_spec (order_status order) "pending") as [S1|S1];
    destruct (String.eqb_spec (order_status order) "preparing") as [S2|S2];
    destruct (String.eqb_spec (order_status order) "ready") as [S3|S3];
    try congruence; simpl;
    repeat split; try exact Hsame; try assumption; try congruence;
      intuition (try discriminate; try congruence).
Qed.

Example offeredActions_lifecycle :
  let o p s := mkOrder "o1" "2026-11-03T10:00:00" "Ama" "fried-rice" 2
                       "pre-order" "pickup" None 50 s p in
  offeredActions (o "awaiting confirmation" "pending") = [confirmPayment]
  /\ offeredActions (o "confirmed paid" "pending") = [markPreparing]
  /\ offeredActions (o "confirmed paid" "preparing") = [markReady]
  /\ offeredActions (o "confirmed paid" "ready") = [markDelivered]
  /\ offeredActions (o "confirmed paid" "delivered") = [].
Proof. repeat split. Qed.

Section Handler.

Variable parseISO : string -> option JSDate.Date.
Variable store : Store.
Variable now : JSDate.Date.

Lemma fetchOrders_calls st w :
  exists q, calls (snd (fetchOrders parseISO store now st w))
            = calls w ++ [SelectOrders q].
Proof.
  unfold fetchOrders. cbv zeta.
  eexists.
  destruct (select store _) as [data|]; [|reflexivity].
  destruct (calculateAnalytics parseISO data); reflexivity.
Qed.

Lemma handleOrderAction_calls st w c :
  In c (calls (snd (handleOrderAction parseISO store now st w))) ->
  In c (calls w)
  \/ (exists q, c = SelectOrders q)
  \/ (exists order a updates message,
        selectedOrder st = Some order /\ actionType st = Some a
        /\ actionUpdates a = Some (updates, message)
        /\ c = UpdateOrder (order_id order) updates).
Proof.
  unfold handleOrderAction.
  destruct (selectedOrder st) as [order|]; [|auto].
  destruct (actionType st) as [a|]; [|auto].
  destruct (actionUpdates a) as [[updates message]|] eqn:Ea; [|auto].
  destruct (update store (order_id order) updates).
  - destruct (fetchOrders parseISO store now st _) as [st' w3] eqn:Ef.
    pose proof (fetchOrders_calls st
                  (toast (mkToast "Success" message false)
                     (call (UpdateOrder (order_id order) updates) w)))
      as [q Hq].
    rewrite Ef in Hq. simpl in Hq. simpl. rewrite Hq.
    rewrite !in_app_iff. simpl.
    intros [[H|[H|[]]]|[H|[]]]; subst; eauto 10.
  - simpl. rewrite in_app_iff. simpl.
    intros [H|[H|[]]]; subst; eauto 10.
Qed.

End Handler.

(** C10 as stated fails on its last clause: the dashboard of
    [src/pages/Dashboard.tsx] answers the action [cancelOrder] with an
    update that sets the order status to ["cancelled"]. *)
Lemma page_cancelOrder_updates :
  let order := DashboardPage.mkOrder "o1" "2026-11-03T10:00:00" "Ama"
                 "fried-rice" 2 "pre-order" "pickup" None None 50 0 0 50
                 "pending" "awaiting_confirmation" "token-1" None in
  let st := DashboardPage.mkState [order] (Some order)
              (Some DashboardPage.cancelOrder) in
  calls (snd (DashboardPage.handleOrderAction (fun _ _ => true)
                (fun st w => (st, w)) st (mkWorld [] [])))
  = [UpdateOrder "o1" (mkUpdates None (Some "cancelled"))].
Proof. reflexivity. Qed.

(** The buttons of the other dashboard follow other conditions: it offers
    the cancellation of a pending order, and the delivery of a ready
    order only once it is paid. *)
Example page_offeredActions :
  let o p s := DashboardPage.mkOrder "o1" "2026-11-03T10:00:00" "Ama"
                 "fried-rice" 2 "pre-order" "pickup" None None 50 0 0 50
                 s p "token-1" None in
  DashboardPage.offeredActions (o "awaiting_confirmation" "pending")
    = [DashboardPage.confirmPayment; DashboardPage.cancelOrder]
  /\ DashboardPage.offeredActions (o "awaiting_confirmation" "ready")
     = [DashboardPage.confirmPayment]
  /\ DashboardPage.offeredActions (o "paid" "ready")
     = [DashboardPage.markDelivered].
Proof. repeat split. Qed.

(** C10 (amended).  In the dashboard of [DashboardContent.tsx], for every
    selected order the action [cancelOrder] performs no call to the order
    store: the handler shows the error notification and returns, leaving
    the list of orders, the selected order and the pending action as they
    were; and no update this handler ever sends sets an order status to
    ["cancelled"].  (The dashboard of [pages/Dashboard.tsx] does send such
    an update.) *)
Theorem cancelOrder_is_refused (parseISO : string -> option JSDate.Date)
    (store : Store) (now : JSDate.Date) (st : State) (w : World) :
  (forall order, selectedOrder st = Some order ->
     actionType st = Some cancelOrder ->
     handleOrderAction parseISO store now st w
       = (st, toast (mkToast "Error"
                       "Cancel feature not implemented in database" true) w)
     /\ calls (snd (handleOrderAction parseISO store now st w)) = calls w)
  /\ (forall id updates,
        In (UpdateOrder id updates)
           (calls (snd (handleOrderAction parseISO store now st w))) ->
        In (UpdateOrder id updates) (calls w)
        \/ upd_order_status updates <> Some "cancelled").
Proof.
  split.
  - intros order Hs Ha. unfold handleOrderAction. rewrite Hs, Ha.
    split; reflexivity.
  - intros id updates Hin.
    apply handleOrderAction_calls in Hin
      as [Hin|[[q Hq]|(order & a & u & m & _ & _ & Hu & Hc)]].
    + left. exact Hin.
    + discriminate Hq.
    + right. inversion Hc; subst.
      destruct a; inversion Hu; subst; simpl; discriminate.
Qed.

Lemma cancelOrder_is_refused_witness :
  let order := sampleOrder "o1" "2026-11-03T10:00:00" "fried-rice" 2 50
                           "pickup" in
  let st := mkState [order] initialAnalytics false "week" "" ""
                    (Some order) (Some cancelOrder) in
  let store := mkStore (fun _ => Some [order]) (fun _ _ => true) in
  selectedOrder st = Some order /\ actionType st = Some cancelOrder
  /\ calls (snd (handleOrderAction CalendarAux.parseISO_utc store 20760 st
                   (mkWorld [] []))) = [].
Proof.
  cbv zeta.
  set (order := sampleOrder "o1" "2026-11-03T10:00:00" "fried-rice" 2 50
                            "pickup").
  set (st := mkState [order] initialAnalytics false "week" "" ""
                     (Some order) (Some cancelOrder)).
  set (store := mkStore (fun _ => Some [order]) (fun _ _ => true)).
  assert (Hs : selectedOrder st = Some order) by reflexivity.
  assert (Ha : actionType st = Some cancelOrder) by reflexivity.
  split; [exact Hs|]. split; [exact Ha|].
  exact (proj2 (proj1 (cancelOrder_is_refused CalendarAux.parseISO_utc store
                         20760 st (mkWorld [] [])) order Hs Ha)).
Defined.

Example cancelOrder_sample :
  let order := mkOrder "o1" "2026-11-03T10:00:00" "Ama" "fried-rice" 2
                       "pre-order" "pickup" None 50 "pending"
                       "awaiting confirmation" in
  let st := mkState [order] initialAnalytics false "week" "" ""
                    (Some order) (Some cancelOrder) in
  let store := mkStore (fun _ => Some [order]) (fun _ _ => true) in
  handleOrderAction CalendarAux.parseISO_utc store 20760 st (mkWorld [] [])
  = (st, mkWorld [mkToast "Error" "Cancel feature not implemented in database"
                          true] []).
Proof. reflexivity. Qed.

Example markReady_sample :
  let order := mkOrder "o1" "2026-11-03T10:00:00" "Ama" "fried-rice" 2
                       "pre-order" "pickup" None 50 "preparing"
                       "confirmed paid" in
  let st := mkState [order] initialAnalytics false "all" "" ""
                    (Some order) (Some markReady) in
  let store := mkStore (fun _ => Some [order]) (fun _ _ => true) in
  let '(st', w') := handleOrderAction CalendarAux.parseISO_utc store 20760
                      st (mkWorld [] []) in
  calls w' = [UpdateOrder "o1" (mkUpdates None (Some "ready"));
              SelectOrders (mkQuery None None)]
  /\ selectedOrder st' = None /\ actionType st' = None
  /\ map title (toasts w') = ["Success"].
Proof. vm_compute. repeat split; reflexivity. Qed.

End ActionFacts.

(** ** Analytics: totals, average and the revenue of each weekday *)

Module RevenueFacts.

Import JSDate CalendarAux Dashboard AnalyticsSpec.

Section Find.

Context {A : Type}.




End Find.



Section ByDay.

Variable parseISO : string -> option Date.

Lemma reduceRevenueByDay_valid orderData : forall acc,
  validTimestamps parseISO orderData ->
  exists acc', reduceRevenueByDay parseISO acc orderData = Some acc'.
Proof.
  induction orderData as [|o rest IH]; intros acc Hv; simpl.
  - eauto.
  - inversion Hv as [|? ? Ho Hrest]; subst.
    destruct (parseISO (created_at o)) as [t|]; [|contradiction].
    apply IH. exact Hrest.
Qed.


Lemma fold_left_sum orderData : forall z,
  fold_left (fun sum o => sum + total_amount o) orderData z
  = z + sumAmounts orderData.
Proof.
  induction orderData as [|o rest IH]; intros z; simpl.
  - lia.
  - rewrite IH. lia.
Qed.



(** C4.  Aggregating the empty list gives zero counts, zero revenue, a
    zero average, no top item and the seven-day series with zero revenue
    and zero orders.  The zero average comes from the guard: for zero
    orders the average is the literal 0, whereas the division itself
    would give [NaN] or an infinity, never 0.  For every non-empty list
    (with well-formed creation timestamps and amounts that doubles add up
    exactly) the total revenue is the sum of the total amounts and the
    average is the quotient of the total revenue by the number of orders,
    as the division of doubles gives it. *)
Theorem calculateAnalytics_empty_and_average :
  calculateAnalytics parseISO []
  = Some (mkAnalytics 0 0 0 JSDouble.zero []
            [ mkDayRevenue "Mon" 0 0; mkDayRevenue "Tue" 0 0;
              mkDayRevenue "Wed" 0 0; mkDayRevenue "Thu" 0 0;
              mkDayRevenue "Fri" 0 0; mkDayRevenue "Sat" 0 0;
              mkDayRevenue "Sun" 0 0 ])
  /\ (forall total,
        computeAvgOrderValue total 0 = JSDouble.zero
        /\ JSDouble.div (JSDouble.ofInteger total) (JSDouble.ofInteger 0)
           <> JSDouble.zero)
  /\ (forall orderData,
        orderData <> [] -> validTimestamps parseISO orderData ->
        safeAmounts orderData ->
        exists a,
          calculateAnalytics parseISO orderData = Some a
          /\ totalRevenue a = sumAmounts orderData
          /\ avgOrderValue a
             = JSDouble.div
                 (JSDouble.ofInteger (totalRevenue a))
                 (JSDouble.ofInteger (Z.of_nat (List.length orderData)))).
Proof.
  split; [reflexivity|]. split.
  { intros total. split; [reflexivity|].
    unfold JSDouble.div.
    change (JSDouble.ofInteger 0) with (S754_zero false).
    destruct (JSDouble.ofInteger total); simpl; discriminate. }
  intros orderData Hne Hv _.
  destruct (reduceRevenueByDay_valid orderData [] Hv) as [acc' Hacc].
  unfold calculateAnalytics. cbv zeta. rewrite Hacc.
  eexists. split; [reflexivity|].
  cbn [totalRevenue avgOrderValue].
  split; [rewrite fold_left_sum; lia|].
  unfold computeAvgOrderValue.
  destruct orderData as [|o rest]; [contradiction|]. reflexivity.
Qed.

End ByDay.


Lemma calculateAnalytics_empty_and_average_witness :
  let orderData :=
    [ sampleOrder "o1" "2024-01-06T10:15:00" "fried-rice" 2 50 "pickup";
      sampleOrder "o2" "2024-01-09T18:00:00" "noodles-chicken" 1 33 "delivery";
      sampleOrder "o3" "2024-01-13T09:30:00" "noodles-no-chicken" 1 17
                  "pickup" ] in
  orderData <> [] /\ validTimestamps parseISO_utc orderData
  /\ safeAmounts orderData
  /\ exists a, calculateAnalytics parseISO_utc orderData = Some a
               /\ totalRevenue a = 100
               /\ avgOrderValue a
                  = JSDouble.div (JSDouble.ofInteger (totalRevenue a))
                                 (JSDouble.ofInteger 3).
Proof.
  cbv zeta.
  set (orderData :=
         [ sampleOrder "o1" "2024-01-06T10:15:00" "fried-rice" 2 50 "pickup";
           sampleOrder "o2" "2024-01-09T18:00:00" "noodles-chicken" 1 33
                       "delivery";
           sampleOrder "o3" "2024-01-13T09:30:00" "noodles-no-chicken" 1 17
                       "pickup" ]).
  assert (Hne : orderData <> []) by discriminate.
  assert (Hv : validTimestamps parseISO_utc orderData)
    by (repeat constructor; vm_compute; discriminate).
  assert (Hs : safeAmounts orderData)
    by (split; vm_compute; [discriminate|reflexivity]).
  split; [exact Hne|]. split; [exact Hv|]. split; [exact Hs|].
  destruct (proj2 (proj2 (calculateAnalytics_empty_and_average parseISO_utc))
              orderData Hne Hv Hs) as (a & E & T & A).
  exists a. repeat split; assumption.
Defined.

(** 100 / 3 is the double 33.333333333333336 (4691249611844267 / 2^47),
    and 50 / 2 is 25. *)
Example avgOrderValue_samples :
  computeAvgOrderValue 100 3 = S754_finite false 4691249611844267 (-47)
  /\ computeAvgOrderValue 50 2 = JSDouble.ofInteger 25
  /\ computeAvgOrderValue 100 0 = JSDouble.zero
  /\ JSDouble.div (JSDouble.ofInteger 100) (JSDouble.ofInteger 0)
     = S754_infinity false
  /\ JSDouble.div (JSDouble.ofInteger 0) (JSDouble.ofInteger 0) = S754_nan.
Proof. vm_compute. repeat split; reflexivity. Qed.

(** Three orders, two of them on a Saturday. *)
Example calculateAnalytics_sample :
  let orderData :=
    [ sampleOrder "o1" "2024-01-06T10:15:00" "fried-rice" 2 50 "pickup";
      sampleOrder "o2" "2024-01-09T18:00:00" "noodles-chicken" 1 33 "delivery";
      sampleOrder "o3" "2024-01-13T09:30:00" "fried-rice" 1 25 "pickup" ] in
  option_map (fun a => (pickupCount a, deliveryCount a, totalRevenue a,
                        revenueByDay a))
             (calculateAnalytics parseISO_utc orderData)
  = Some (2, 1, 108,
          [ mkDayRevenue "Mon" 0 0; mkDayRevenue "Tue" 33 1;
            mkDayRevenue "Wed" 0 0; mkDayRevenue "Thu" 0 0;
            mkDayRevenue "Fri" 0 0; mkDayRevenue "Sat" 75 2;
            mkDayRevenue "Sun" 0 0 ]).
Proof. vm_compute. reflexivity. Qed.

(** A single pickup order of 25. *)
Example calculateAnalytics_single :
  option_map (fun a => (pickupCount a, deliveryCount a, totalRevenue a,
                        avgOrderValue a))
             (calculateAnalytics parseISO_utc
                [sampleOrder "o1" "2024-01-06T10:15:00" "fried-rice" 1 25 "pickup"])
  = Some (1, 0, 25, JSDouble.ofInteger 25).
Proof. vm_compute. reflexivity. Qed.

End RevenueFacts.

(** ** Analytics: the top food items *)

Module TopItemsFacts.

Import Dashboard AnalyticsSpec.

(** *** Objects whose names are not array indices *)

Section Objects.

Context {V : Type}.











End Objects.

(** *** Names in first-encounter order *)





(** *** Sums of a group *)







(** *** Display names *)




(** *** The sort *)














(** Four packs first, then the two single packs in the order met. *)
Example computeTopFoodItems_sample :
  computeTopFoodItems
    [ sampleOrder "o1" "2024-01-06T10:15:00" "noodles-chicken" 1 25 "pickup";
      sampleOrder "o2" "2024-01-09T18:00:00" "fried-rice" 1 33 "delivery";
      sampleOrder "o3" "2024-01-13T09:30:00" "jollof" 4 80 "pickup";
      sampleOrder "o4" "2024-01-13T09:45:00" "fried-rice" 0 0 "pickup" ]
  = [ mkTopFoodItem "jollof" 4 80;
      mkTopFoodItem "Super Loaded Noodles (With Chicken)" 1 25;
      mkTopFoodItem "Check Check Fried Rice" 1 33 ].
Proof. vm_compute. reflexivity. Qed.

End TopItemsFacts.

(** ** The order form beyond the price and the guards *)

Module OrderFormFacts.

Import JSString OrderForm OrderFormUI FormSession SubmitSpec.

(** X1.  [handlePacksChange] clamps: whatever the count and the step, the
    new count lies in 1..20; it is the old count plus the step when that
    sum lies in 1..20, 1 when the sum is smaller and 20 when it is
    larger; and nothing else of the state changes. *)
Theorem handlePacksChange_clamps (delta : Z) (st : State) :
  let st' := handlePacksChange delta st in
  1 <= packs (formData st') <= 20
  /\ (1 <= packs (formData st) + delta <= 20 ->
      packs (formData st') = packs (formData st) + delta)
  /\ (packs (formData st) + delta < 1 -> packs (formData st') = 1)
  /\ (20 < packs (formData st) + delta -> packs (formData st') = 20)
  /\ (let fd' := formData st' in
      (name fd', foodType fd', orderType fd', pickupLocation fd',
       deliverToMe fd', deliveryAddress fd', paymentMethod fd'))
     = (let fd := formData st in
        (name fd, foodType fd, orderType fd, pickupLocation fd,
         deliverToMe fd, deliveryAddress fd, paymentMethod fd))
  /\ (isSubmitting st', isSuccess st', orderId st', trackingToken st',
      agreedToTerms st', availableOrderTypes st', isWeekend st')
     = (isSubmitting st, isSuccess st, orderId st, trackingToken st,
        agreedToTerms st, availableOrderTypes st, isWeekend st).
Proof.
  cbv zeta. simpl. repeat split; try lia; intros; lia.
Qed.

Lemma handlePacksChange_clamps_witness :
  packs (formData (handlePacksChange (-1) sampleState)) + -1 < 1
  /\ packs (formData (handlePacksChange (-1)
                        (handlePacksChange (-1) sampleState))) = 1.
Proof.
  assert (H : packs (formData (handlePacksChange (-1) sampleState)) + -1 < 1)
    by (simpl; lia).
  split; [exact H|].
  exact (proj1 (proj2 (proj2 (handlePacksChange_clamps (-1)
                                (handlePacksChange (-1) sampleState)))) H).
Defined.

(** What the guards of [handleSubmit] establish. *)
Lemma guards_passed st :
  validationError st = None ->
  agreedToTerms st = true
  /\ trim (name (formData st)) <> ""
  /\ foodType (formData st) <> ""
  /\ orderType (formData st) <> ""
  /\ (deliverToMe (formData st) = true ->
      trim (deliveryAddress (formData st)) <> "").
Proof.
  intros Hv.
  assert (Hn : ~ missingInput st).
  { intros Hm. apply SubmitFacts.validationError_iff in Hm as [t Ht].
    rewrite Ht in Hv. discriminate Hv. }
  unfold missingInput in Hn.
  repeat split.
  - destruct (agreedToTerms st); [reflexivity|]. exfalso. apply Hn. auto.
  - intros H. apply Hn. auto.
  - intros H. apply Hn. auto.
  - intros H. apply Hn. auto.
  - intros Hd H. apply Hn. auto 6.
Qed.

Lemma handleSubmit_inserted store storage nowISO st w :
  inserted (snd (handleSubmit store storage nowISO st w))
  = match validationError st with
    | Some _ => inserted w
    | None => inserted w ++ [insertRow (formData st)]
    end.
Proof.
  unfold handleSubmit. destruct (validationError st); [reflexivity|].
  destruct (store (insertRow (formData st))); [destruct storage|];
    reflexivity.
Qed.

Lemma handleSubmit_formData store storage nowISO st w :
  formData (fst (handleSubmit store storage nowISO st w)) = formData st.
Proof.
  unfold handleSubmit. destruct (validationError st); [reflexivity|].
  destruct (store (insertRow (formData st))); [destruct storage|];
    reflexivity.
Qed.

Lemma catalog_prices f : In f foodTypes -> 20 <= price f <= 25.
Proof.
  intros H. simpl in H. destruct H as [<-|[<-|[<-|[]]]]; simpl; lia.
Qed.

Lemma insertRow_well_formed st :
  validationError st = None ->
  1 <= packs (formData st) <= 20 ->
  In (foodType (formData st)) (map value foodTypes) ->
  orderType (formData st) = "same-day" \/ orderType (formData st) = "pre-order" ->
  wellFormedRow (insertRow (formData st)).
Proof.
  intros Hv Hp Hf Ho.
  destruct (guards_passed st Hv) as (_ & Hname & _ & _ & Haddr).
  apply in_map_iff in Hf as (f & Hfv & Hfin).
  pose proof (PricingFacts.selectedFood_matches (formData st) f Hfin Hfv) as Hsel.
  pose proof (catalog_prices f Hfin) as Hprice.
  assert (Hsub : subtotal (formData st) = price f * packs (formData st)).
  { unfold subtotal, basePricePerPack. rewrite Hsel. reflexivity. }
  assert (Hrush : 0 <= rushFee (formData st) <= 5).
  { unfold rushFee. destruct (orderType (formData st) =? "same-day")%string; lia. }
  assert (Hdel : 0 <= deliveryFee (formData st) <= 8).
  { unfold deliveryFee. destruct (deliverToMe (formData st)); lia. }
  unfold wellFormedRow. simpl.
  split; [exists f; repeat split; [exact Hfin|symmetry; exact Hfv|exact Hsub]|].
  split; [exact Hp|].
  split.
  { unfold rushFee. destruct Ho as [Ho|Ho]; rewrite Ho; simpl; auto. }
  split.
  { unfold deliveryFee. destruct (deliverToMe (formData st)) eqn:Ed.
    - left. repeat split. exists (deliveryAddress (formData st)).
      split; [reflexivity|apply Haddr; reflexivity].
    - right. repeat split. }
  split; [exact Hname|].
  split; [reflexivity|].
  unfold total. rewrite Hsub. nia.
Qed.

(** The invariant of a session. *)
Lemma session_invariant w0 sw :
  reachable w0 sw ->
  1 <= packs (formData (fst sw)) <= 20
  /\ (foodType (formData (fst sw)) = ""
      \/ In (foodType (formData (fst sw))) (map value foodTypes))
  /\ (orderType (formData (fst sw)) = ""
      \/ orderType (formData (fst sw)) = "same-day"
      \/ orderType (formData (fst sw)) = "pre-order")
  /\ (forall r, In r (inserted (snd sw)) ->
        In r (inserted w0) \/ wellFormedRow r).
Proof.
  induction 1 as [|ev [st w] Hr (Hp & Hf & Ho & Hrows) Hev].
  - simpl. repeat split; try lia; auto.
  - simpl in Hp, Hf, Ho, Hrows.
    destruct ev as [today|v|v|delta|checked|v|agreed|store storage nowISO|];
      simpl in Hev.
    + (* Mount *)
      simpl. repeat split; try lia; auto.
      unfold defaultTypeFor. destruct (weekend today); auto.
    + simpl. repeat split; try lia; auto.
    + (* FoodTypeChanged *)
      simpl. repeat split; try lia; auto.
    + simpl. repeat split; try lia; auto.
    + simpl. repeat split; try lia; auto.
    + simpl. repeat split; try lia; auto.
    + simpl. repeat split; try lia; auto.
    + (* Submit *)
      cbn [fire]. rewrite handleSubmit_formData.
      repeat split; try lia; auto.
      intros r Hin. rewrite handleSubmit_inserted in Hin.
      destruct (validationError st) eqn:Ev; [auto|].
      apply in_app_or in Hin as [Hin|[<-|[]]]; [auto|right].
      destruct (guards_passed st Ev) as (_ & _ & Hft & Hot & _).
      apply insertRow_well_formed; try assumption.
      * destruct Hf as [Hf|Hf]; [contradiction|exact Hf].
      * destruct Ho as [Ho|Ho]; [contradiction|exact Ho].
    + (* Reset *)
      simpl. repeat split; try lia; auto.
      destruct (isWeekend st); auto.
Qed.

(** X2.  Whatever a visitor does with the form - mounting it, typing,
    choosing a dish, pressing the pack buttons, ticking boxes, submitting,
    resetting, in any order and any number of times - every row the
    session sends to the order store is well formed: its food type is a
    catalog item and its subtotal that item's price times the packs, the
    packs lie in 1..20, the order type is ["same-day"] with a rush fee of
    5 or ["pre-order"] with none, delivery method, flag, address and fee
    agree, the name is not blank, and the total is the sum of the three
    amounts, between 20 and 513. *)
Theorem session_rows_well_formed (w0 : World) (st : State) (w : World) :
  reachable w0 (st, w) ->
  forall r, In r (inserted w) -> In r (inserted w0) \/ wellFormedRow r.
Proof.
  intros Hr. exact (proj2 (proj2 (proj2 (session_invariant w0 (st, w) Hr)))).
Qed.

Lemma session_rows_well_formed_witness :
  let sw := fire (Submit acceptingStore NoFault "2024-01-06T12:00:00.000Z")
              (fire (Agreed true)
                 (fire (PacksChanged 1)
                    (fire (FoodTypeChanged "noodles-chicken")
                       (fire (NameChanged "Ama")
                          (fire (Mount 19728) (initialState, emptyWorld)))))) in
  let r := mkOrderRow "Ama" "noodles-chicken" 2 "same-day" "pickup" false None
                      "Brampton" "e-transfer" 50 5 0 55 "pending"
                      "awaiting confirmation" in
  reachable emptyWorld sw /\ In r (inserted (snd sw)) /\ wellFormedRow r.
Proof.
  cbv zeta.
  set (sw := fire (Submit acceptingStore NoFault "2024-01-06T12:00:00.000Z") _).
  set (r := mkOrderRow _ _ _ _ _ _ _ _ _ _ _ _ _ _ _).
  assert (Hr : reachable emptyWorld sw).
  { subst sw. repeat (apply reachable_fire; [|simpl; auto]).
    apply reachable_start. }
  assert (Hin : In r (inserted (snd sw))) by (left; reflexivity).
  split; [exact Hr|]. split; [exact Hin|].
  destruct (session_rows_well_formed emptyWorld (fst sw) (snd sw)) with (r := r)
    as [H|H].
  - destruct sw. exact Hr.
  - exact Hin.
  - destruct H.
  - exact H.
Defined.

(** X3.  The amounts add up independently: with everything else equal,
    the order type ["same-day"] costs exactly 5 more than ["pre-order"],
    a ticked delivery box exactly 8 more than an unticked one, and one
    more pack exactly the unit price more. *)
Theorem fees_are_additive (st : State) (n : Z) :
  total (set_orderType (formData st) "same-day")
    = total (set_orderType (formData st) "pre-order") + 5
  /\ total (formData (onDeliverChange true st))
     = total (formData (onDeliverChange false st)) + 8
  /\ total (set_packs (formData st) (n + 1))
     = total (set_packs (formData st) n) + basePricePerPack (formData st).
Proof.
  unfold total, subtotal, rushFee, deliveryFee, basePricePerPack, selectedFood.
  simpl. repeat split; lia.
Qed.

(** X4.  Every run of [handleSubmit] shows exactly one notification,
    which is not destructive exactly when the guards passed, the store
    accepted the row and the browser's storage did not fail; it never
    leaves an idle form in the submitting state.  If a guard or the store
    refuses, the local storage, the order id, the token and the success
    flag are as before.  If the store accepts, the order id and the token
    are those of the store's answer; then, if the storage works, the
    success view is shown, the new entry is put in front of the earlier
    entries and the token is saved; and if the storage fails, the success
    view is not shown and the saved token is as before, the saved orders
    having gained the new entry only when the failure is the one of the
    writing of the token. *)
Theorem handleSubmit_outcome (store : OrderRow -> InsertResult)
    (storage : StorageFault) (nowISO : string) (st : State) (w : World) :
  let st' := fst (handleSubmit store storage nowISO st w) in
  let w' := snd (handleSubmit store storage nowISO st w) in
  let earlier := match stored_orders w with Some l => l | None => [] end in
  let saved oid token :=
    mkSavedOrder oid token (name (formData st)) (foodType (formData st))
                 "pending" nowISO in
  (exists t, toasts w' = toasts w ++ [t]
             /\ (destructive t = false
                 <-> validationError st = None /\ storage = NoFault
                     /\ exists oid token,
                          store (insertRow (formData st))
                          = InsertOk oid token))
  /\ (isSubmitting st = false -> isSubmitting st' = false)
  /\ (validationError st <> None
      \/ (exists message,
            store (insertRow (formData st)) = InsertError message) ->
      (stored_orders w', last_order_token w')
      = (stored_orders w, last_order_token w)
      /\ (isSuccess st', orderId st', trackingToken st')
         = (isSuccess st, orderId st, trackingToken st))
  /\ (forall oid token,
        validationError st = None ->
        store (insertRow (formData st)) = InsertOk oid token ->
        (orderId st', trackingToken st') = (oid, token)
        /\ (storage = NoFault ->
            isSuccess st' = true /\ last_order_token w' = Some token
            /\ stored_orders w' = Some (saved oid token :: earlier))
        /\ (storage <> NoFault ->
            isSuccess st' = isSuccess st
            /\ last_order_token w' = last_order_token w
            /\ ((exists message, storage = SetTokenThrows message) ->
                stored_orders w' = Some (saved oid token :: earlier))
            /\ ((forall message, storage <> SetTokenThrows message) ->
                stored_orders w' = stored_orders w))).
Proof.
  cbv zeta. unfold handleSubmit.
  destruct (validationError st) as [t|] eqn:Ev.
  - simpl. split; [|split; [auto|split]].
    + exists t. split; [reflexivity|].
      rewrite (SubmitFacts.validationError_destructive st t Ev).
      split; [discriminate|]. intros (H & _). discriminate H.
    + intros _. split; reflexivity.
    + intros oid token H. discriminate H.
  - destruct (store (insertRow (formData st))) as [oid token|message] eqn:Es.
    + destruct storage as [|m|m|m]; simpl.
      * split; [|split; [auto|split]].
        -- eexists. split; [reflexivity|]. simpl. split; [|reflexivity].
           intros _. repeat split. eauto.
        -- intros [H|[m H]]; [exfalso; apply H; reflexivity|discriminate H].
        -- intros oid' token' _ H. injection H as <- <-.
           split; [reflexivity|]. split; [intros _; repeat split|].
           intros H. exfalso. apply H. reflexivity.
      * split; [|split; [auto|split]].
        -- eexists. split; [reflexivity|]. simpl.
           split; [discriminate|]. intros (_ & H & _). discriminate H.
        -- intros [H|[m' H]]; [exfalso; apply H; reflexivity|discriminate H].
        -- intros oid' token' _ H. injection H as <- <-.
           split; [reflexivity|]. split; [intros H; discriminate H|].
           intros _. split; [reflexivity|]. split; [reflexivity|].
           split; [intros [m' H]; discriminate H|reflexivity].
      * split; [|split; [auto|split]].
        -- eexists. split; [reflexivity|]. simpl.
           split; [discriminate|]. intros (_ & H & _). discriminate H.
        -- intros [H|[m' H]]; [exfalso; apply H; reflexivity|discriminate H].
        -- intros oid' token' _ H. injection H as <- <-.
           split; [reflexivity|]. split; [intros H; discriminate H|].
           intros _. split; [reflexivity|]. split; [reflexivity|].
           split; [intros [m' H]; discriminate H|reflexivity].
      * split; [|split; [auto|split]].
        -- eexists. split; [reflexivity|]. simpl.
           split; [discriminate|]. intros (_ & H & _). discriminate H.
        -- intros [H|[m' H]]; [exfalso; apply H; reflexivity|discriminate H].
        -- intros oid' token' _ H. injection H as <- <-.
           split; [reflexivity|]. split; [intros H; discriminate H|].
           intros _. split; [reflexivity|]. split; [reflexivity|].
           split; [reflexivity|]. intros H. exfalso. apply (H m). reflexivity.
    + simpl. split; [|split; [auto|split]].
      * eexists. split; [reflexivity|]. simpl.
        split; [discriminate|]. intros (_ & _ & oid & token & H). discriminate H.
      * intros _. split; reflexivity.
      * intros oid token _ H. discriminate H.
Qed.

Lemma handleSubmit_outcome_witness :
  validationError sampleState = None
  /\ acceptingStore (insertRow (formData sampleState))
     = InsertOk "order-1" "token-1"
  /\ SetTokenThrows "QuotaExceededError" <> NoFault
  /\ (let st' := fst (handleSubmit acceptingStore
                        (SetTokenThrows "QuotaExceededError")
                        "2024-01-06T12:00:00.000Z" sampleState emptyWorld) in
      (orderId st', trackingToken st', isSuccess st')
      = ("order-1", "token-1", false)).
Proof.
  assert (Hv : validationError sampleState = None) by reflexivity.
  assert (Hs : acceptingStore (insertRow (formData sampleState))
               = InsertOk "order-1" "token-1") by reflexivity.
  assert (Hf : SetTokenThrows "QuotaExceededError" <> NoFault)
    by discriminate.
  split; [exact Hv|]. split; [exact Hs|]. split; [exact Hf|].
  destruct (proj2 (proj2 (proj2
              (handleSubmit_outcome acceptingStore
                 (SetTokenThrows "QuotaExceededError")
                 "2024-01-06T12:00:00.000Z" sampleState emptyWorld)))
              "order-1" "token-1" Hv Hs) as (E & _ & F).
  destruct (F Hf) as (S & _).
  pose proof (f_equal fst E) as E1. pose proof (f_equal snd E) as E2.
  cbn [fst snd] in E1, E2.
  cbv zeta. rewrite E1, E2, S. reflexivity.
Defined.

(** X5.  Throughout a session, whenever the success view is shown the
    tracking token and the order id it displays are those of the newest
    entry saved in the local storage, and the token is the saved
    [last_order_token]. *)
Theorem session_success_token (w0 : World) (st : State) (w : World) :
  reachable w0 (st, w) ->
  isSuccess st = true ->
  last_order_token w = Some (trackingToken st)
  /\ exists e rest,
       stored_orders w = Some (e :: rest)
       /\ saved_tracking_token e = trackingToken st
       /\ saved_order_id e = orderId st.
Proof.
  intros Hr. remember (st, w) as sw eqn:E. revert st w E.
  induction Hr as [|ev [st0 w0'] Hr IH Hev]; intros st w E Hs.
  - inversion E; subst. discriminate Hs.
  - specialize (IH st0 w0' eq_refl).
    destruct ev as [today|v|v|delta|checked|v|agreed|store storage nowISO|];
      simpl in E; try (inversion E; subst; simpl in Hs; exact (IH Hs)).
    + simpl in Hev. unfold handleSubmit in E.
      destruct (validationError st0) as [t|].
      * inversion E; subst. simpl. exact (IH Hs).
      * destruct (store (insertRow (formData st0))) as [oid token|message].
        -- destruct storage as [|m|m|m]; inversion E; subst; simpl in Hs;
             try congruence.
           simpl. split; [reflexivity|]. eexists. eexists. repeat split.
        -- inversion E; subst. simpl in *. exact (IH Hs).
    + inversion E; subst. simpl in Hs. discriminate Hs.
Qed.

Lemma session_success_token_witness :
  let sw := fire (Submit acceptingStore NoFault "2024-01-06T12:00:00.000Z")
              (fire (Agreed true)
                 (fire (FoodTypeChanged "noodles-chicken")
                    (fire (NameChanged "Ama")
                       (fire (Mount 19728) (initialState, emptyWorld))))) in
  reachable emptyWorld sw /\ isSuccess (fst sw) = true
  /\ last_order_token (snd sw) = Some (trackingToken (fst sw)).
Proof.
  cbv zeta.
  set (sw := fire (Submit acceptingStore NoFault "2024-01-06T12:00:00.000Z") _).
  assert (Hr : reachable emptyWorld (fst sw, snd sw)).
  { replace (fst sw, snd sw) with sw by (destruct sw; reflexivity).
    subst sw. repeat (apply reachable_fire; [|simpl; auto]).
    apply reachable_start. }
  assert (Hs : isSuccess (fst sw) = true) by reflexivity.
  split; [destruct sw; exact Hr|]. split; [exact Hs|].
  exact (proj1 (session_success_token emptyWorld (fst sw) (snd sw) Hr Hs)).
Defined.

Lemma fire_keeps_day ev sw :
  isMount ev = false ->
  isWeekend (fst (fire ev sw)) = isWeekend (fst sw)
  /\ availableOrderTypes (fst (fire ev sw)) = availableOrderTypes (fst sw).
Proof.
  destruct sw as [st w].
  destruct ev as [today|v|v|delta|checked|v|agreed|store storage nowISO|];
    intros H; try discriminate H; try (split; reflexivity).
  simpl. unfold handleSubmit.
  destruct (validationError st); [split; reflexivity|].
  destruct (store (insertRow (formData st))); [destruct storage|];
    split; reflexivity.
Qed.

Lemma run_keeps_day evs : forall sw,
  forallb (fun ev => negb (isMount ev)) evs = true ->
  isWeekend (fst (run evs sw)) = isWeekend (fst sw)
  /\ availableOrderTypes (fst (run evs sw)) = availableOrderTypes (fst sw).
Proof.
  induction evs as [|ev evs IH]; intros sw H.
  - split; reflexivity.
  - simpl in H. apply andb_prop in H as [Hev Hevs].
    apply negb_true_iff in Hev.
    destruct (IH (fire ev sw) Hevs) as [I1 I2].
    destruct (fire_keeps_day ev sw Hev) as [F1 F2].
    change (run (ev :: evs) sw) with (run evs (fire ev sw)).
    rewrite I1, I2, F1, F2. split; reflexivity.
Qed.

(** X6.  Once the form is mounted on a day, whatever is done with it
    afterwards, "Place Another Order" gives back the form as it was right
    after the mount: empty fields, one pack, the order type of that day
    preselected, the same order types on offer; the terms are unticked
    and the order id and token forgotten. *)
Theorem resetForm_restores_mounted_form (today : JSDate.Date)
    (evs : list Event) (w : World) :
  forallb (fun ev => negb (isMount ev)) evs = true ->
  let st := fst (run evs (mountEffect today initialState, w)) in
  formData (resetForm st) = formData (mountEffect today initialState)
  /\ availableOrderTypes (resetForm st) = orderTypesFor today
  /\ (isSuccess (resetForm st), agreedToTerms (resetForm st),
      orderId (resetForm st), trackingToken (resetForm st))
     = (false, false, "", "").
Proof.
  intros H. cbv zeta.
  destruct (run_keeps_day evs (mountEffect today initialState, w) H)
    as [H1 H2].
  unfold resetForm. simpl. rewrite H1, H2. simpl.
  unfold defaultTypeFor. destruct (weekend today); repeat split.
Qed.

Lemma resetForm_restores_mounted_form_witness :
  let evs := [NameChanged "Ama"; FoodTypeChanged "fried-rice"; Agreed true;
              Submit acceptingStore NoFault "2024-01-06T12:00:00.000Z"] in
  forallb (fun ev => negb (isMount ev)) evs = true
  /\ orderType (formData (resetForm
                  (fst (run evs (mountEffect 19728 initialState, emptyWorld)))))
     = "same-day".
Proof.
  cbv zeta.
  set (evs := [NameChanged "Ama"; FoodTypeChanged "fried-rice"; Agreed true;
               Submit acceptingStore NoFault "2024-01-06T12:00:00.000Z"]).
  assert (H : forallb (fun ev => negb (isMount ev)) evs = true) by reflexivity.
  split; [exact H|].
  rewrite (proj1 (resetForm_restores_mounted_form 19728 evs emptyWorld H)).
  reflexivity.
Defined.

Lemma falsy_false s : s <> "" -> falsy s = false.
Proof.
  intros H. unfold falsy. destruct (String.eqb_spec s ""); [contradiction|].
  reflexivity.
Qed.

(** X7.  Unticking the delivery box forgets the address: when the box is
    ticked again the address is empty, and a submission that passes all
    other guards is refused with "Delivery address required", nothing
    being sent to the store. *)
Theorem unticked_delivery_forgets_address
    (store : OrderRow -> InsertResult) (storage : StorageFault)
    (nowISO : string)
    (st : State) (w : World) :
  agreedToTerms st = true ->
  trim (name (formData st)) <> "" ->
  foodType (formData st) <> "" ->
  orderType (formData st) <> "" ->
  let st' := onDeliverChange true (onDeliverChange false st) in
  deliveryAddress (formData st') = ""
  /\ handleSubmit store storage nowISO st' w
     = (st', toast (mkToast "Delivery address required"
                      "Please enter your delivery address." true) w).
Proof.
  intros Ha Hn Hf Ho. cbv zeta. split; [reflexivity|].
  unfold handleSubmit, validationError. simpl.
  rewrite Ha, (falsy_false _ Hn), (falsy_false _ Hf), (falsy_false _ Ho).
  reflexivity.
Qed.

Lemma unticked_delivery_forgets_address_witness :
  agreedToTerms sampleState = true
  /\ trim (name (formData sampleState)) <> ""
  /\ foodType (formData sampleState) <> ""
  /\ orderType (formData sampleState) <> ""
  /\ inserted (snd (handleSubmit acceptingStore NoFault "2024-01-06T12:00:00.000Z"
                      (onDeliverChange true (onDeliverChange false sampleState))
                      emptyWorld)) = [].
Proof.
  assert (Ha : agreedToTerms sampleState = true) by reflexivity.
  assert (Hn : trim (name (formData sampleState)) <> "")
    by (vm_compute; discriminate).
  assert (Hf : foodType (formData sampleState) <> "") by discriminate.
  assert (Ho : orderType (formData sampleState) <> "") by discriminate.
  repeat (split; [assumption|]).
  rewrite (proj2 (unticked_delivery_forgets_address acceptingStore NoFault
                    "2024-01-06T12:00:00.000Z" sampleState emptyWorld
                    Ha Hn Hf Ho)).
  reflexivity.
Defined.

(** X8.  The submit button and the guards.  When the button is enabled
    the terms are agreed, no submission is running or done and the total
    is not zero, so a refusal by [handleSubmit] is never the one about the
    terms.  With a catalog dish, at least one pack, the terms agreed and
    an idle form the button is enabled; without a dish, with an order
    type other than ["same-day"] and no delivery, the total is zero and
    the button disabled. *)
Theorem submit_button_and_guards (st : State) :
  (submitDisabled st = false ->
     agreedToTerms st = true /\ isSubmitting st = false
     /\ isSuccess st = false /\ total (formData st) <> 0
     /\ forall t, validationError st = Some t ->
                  title t <> "Agreement Required")
  /\ (agreedToTerms st = true -> isSubmitting st = false ->
      isSuccess st = false -> 1 <= packs (formData st) ->
      In (foodType (formData st)) (map value foodTypes) ->
      submitDisabled st = false)
  /\ (selectedFood (formData st) = None ->
      orderType (formData st) <> "same-day" ->
      deliverToMe (formData st) = false ->
      submitDisabled st = true).
Proof.
  unfold submitDisabled. split; [|split].
  - intros H. apply orb_false_iff in H as [H Ha].
    apply orb_false_iff in H as [H Ht].
    apply orb_false_iff in H as [Hs1 Hs2].
    apply negb_false_iff in Ha. apply Z.eqb_neq in Ht.
    repeat split; try assumption.
    intros t Hv. unfold validationError in Hv. rewrite Ha in Hv. simpl in Hv.
    repeat match type of Hv with
           | (if ?b then _ else _) = _ => destruct b
           end; inversion Hv; subst; simpl; discriminate.
  - intros Ha Hs1 Hs2 Hp Hf. rewrite Ha, Hs1, Hs2. simpl.
    apply in_map_iff in Hf as (f & Hfv & Hfin).
    pose proof (PricingFacts.selectedFood_matches (formData st) f Hfin Hfv)
      as Hsel.
    pose proof (catalog_prices f Hfin) as Hprice.
    assert (Ht : total (formData st) <> 0).
    { unfold total, subtotal, basePricePerPack, rushFee, deliveryFee.
      rewrite Hsel.
      destruct (orderType (formData st) =? "same-day")%string;
        destruct (deliverToMe (formData st)); nia. }
    apply Z.eqb_neq in Ht. rewrite Ht. reflexivity.
  - intros Hsel Ho Hd.
    assert (Ht : total (formData st) = 0).
    { unfold total, subtotal, basePricePerPack, rushFee, deliveryFee.
      rewrite Hsel, Hd.
      destruct (String.eqb_spec (orderType (formData st)) "same-day");
        [contradiction|]. lia. }
    rewrite Ht. simpl. rewrite orb_true_r. reflexivity.
Qed.

Lemma submit_button_and_guards_witness :
  submitDisabled sampleState = false
  /\ total (formData sampleState) <> 0.
Proof.
  assert (H : submitDisabled sampleState = false) by reflexivity.
  split; [exact H|].
  exact (proj1 (proj2 (proj2 (proj2
           (proj1 (submit_button_and_guards sampleState) H))))).
Defined.

End OrderFormFacts.

(** ** The dashboard beyond the cancellation *)

Module DashboardFacts.

Import Dashboard DashboardUI AnalyticsSpec.

Lemma offeredActions_statuses o o' :
  order_status o' = order_status o -> payment_status o' = payment_status o ->
  offeredActions o' = offeredActions o.
Proof. intros H1 H2. unfold offeredActions. rewrite H1, H2. reflexivity. Qed.



(** X10.  The dashboard of [pages/Dashboard.tsx] cannot process an order
    sent by the order form: it spells the payment status
    ["awaiting_confirmation"], the form writes ["awaiting confirmation"],
    so "confirm payment" is never offered for such an order; the only
    action ever offered is the cancellation, and the order can reach no
    status but pending and cancelled - never paid, never delivered. *)
Theorem page_dashboard_cannot_confirm_form_orders
    (fd : OrderForm.FormData) (id created token : string) :
  let o0 := storedRowPage id created token (OrderForm.insertRow fd) in
  DashboardPage.offeredActions o0 = [DashboardPage.cancelOrder]
  /\ forall o, DashboardPageUI.lifecycle o0 o ->
       DashboardPage.payment_status o = "awaiting confirmation"
       /\ (DashboardPage.order_status o = "pending"
           \/ DashboardPage.order_status o = "cancelled")
       /\ ~ In DashboardPage.confirmPayment (DashboardPage.offeredActions o)
       /\ ~ In DashboardPage.markDelivered (DashboardPage.offeredActions o).
Proof.
  cbv zeta. split; [reflexivity|].
  assert (Hstates : forall o,
            DashboardPageUI.lifecycle
              (storedRowPage id created token (OrderForm.insertRow fd)) o ->
            DashboardPage.payment_status o = "awaiting confirmation"
            /\ (DashboardPage.order_status o = "pending"
                \/ DashboardPage.order_status o = "cancelled")).
  { induction 1 as [|o a Hl [IH1 IH2] Ha].
    - split; [reflexivity|left; reflexivity].
    - unfold DashboardPage.offeredActions in Ha. rewrite IH1 in Ha.
      destruct IH2 as [E|E]; rewrite E in Ha; simpl in Ha.
      + destruct Ha as [<-|[]]. simpl. split; [exact IH1|right; reflexivity].
      + destruct Ha. }
  intros o Hl. destruct (Hstates o Hl) as [H1 H2].
  split; [exact H1|]. split; [exact H2|].
  unfold DashboardPage.offeredActions. rewrite H1.
  destruct H2 as [E|E]; rewrite E; simpl; split; intros H;
    intuition discriminate.
Qed.

Lemma page_dashboard_cannot_confirm_form_orders_witness :
  let o0 := storedRowPage "o1" "2024-01-06T10:15:00" "token-1"
              (OrderForm.insertRow SubmitSpec.sampleForm) in
  let o := DashboardPageUI.applyUpdates
             (mkUpdates None (Some "cancelled")) o0 in
  DashboardPageUI.lifecycle o0 o
  /\ DashboardPage.payment_status o = "awaiting confirmation".
Proof.
  cbv zeta.
  set (o0 := storedRowPage "o1" "2024-01-06T10:15:00" "token-1"
               (OrderForm.insertRow SubmitSpec.sampleForm)).
  assert (Hl : DashboardPageUI.lifecycle o0
                 (DashboardPageUI.applyUpdates
                    (mkUpdates None (Some "cancelled")) o0)).
  { apply (DashboardPageUI.lifecycle_step o0 o0 DashboardPage.cancelOrder).
    - apply DashboardPageUI.lifecycle_start.
    - left. reflexivity. }
  split; [exact Hl|].
  exact (proj1 (proj2 (page_dashboard_cannot_confirm_form_orders
                         SubmitSpec.sampleForm "o1" "2024-01-06T10:15:00"
                         "token-1") _ Hl)).
Defined.

Section Session.

Variable parseISO : string -> option JSDate.Date.
Variable now : JSDate.Date.

Lemma fetchOrders_keeps st w store :
  let st' := fst (fetchOrders parseISO store now st w) in
  let w' := snd (fetchOrders parseISO store now st w) in
  (selectedOrder st', actionType st', dateRange st', customStartDate st',
   customEndDate st')
  = (selectedOrder st, actionType st, dateRange st, customStartDate st,
     customEndDate st)
  /\ loading st' = false
  /\ calls w'
     = calls w ++ [SelectOrders (ordersQuery now (dateRange st)
                                   (customStartDate st) (customEndDate st))]
  /\ (toasts w' = toasts w
      \/ toasts w' = toasts w ++ [mkToast "Error" "Failed to load orders" true]).
Proof.
  cbv zeta. unfold fetchOrders. cbv zeta.
  destruct (select store _) as [data|]; [|simpl; auto].
  destruct (calculateAnalytics parseISO data); simpl; auto.
Qed.

Lemma handleOrderAction_selection st w store :
  let st' := fst (handleOrderAction parseISO store now st w) in
  (selectedOrder st', actionType st') = (selectedOrder st, actionType st)
  \/ (selectedOrder st', actionType st') = (None, None).
Proof.
  cbv zeta. unfold handleOrderAction.
  destruct (selectedOrder st) as [order|] eqn:Es;
    [|simpl; rewrite Es; left; reflexivity].
  destruct (actionType st) as [a|] eqn:Ea;
    [|simpl; rewrite Es, Ea; left; reflexivity].
  destruct (actionUpdates a) as [[u m]|];
    [|simpl; rewrite Es, Ea; left; reflexivity].
  destruct (update store (order_id order) u);
    [|simpl; rewrite Es, Ea; left; reflexivity].
  destruct (fetchOrders parseISO store now st _). right. reflexivity.
Qed.

Lemma handleOrderAction_toasts st w store t :
  In t (toasts (snd (handleOrderAction parseISO store now st w))) ->
  In t (toasts w)
  \/ description t <> "Cancel feature not implemented in database"
  \/ actionType st = Some cancelOrder.
Proof.
  unfold handleOrderAction.
  destruct (selectedOrder st) as [order|]; [|auto].
  destruct (actionType st) as [a|]; [|auto].
  destruct (actionUpdates a) as [[u m]|] eqn:Ea.
  - assert (Hm : m <> "Cancel feature not implemented in database")
      by (destruct a; inversion Ea; subst; discriminate).
    destruct (update store (order_id order) u).
    + destruct (fetchOrders parseISO store now st _) as [st' w3] eqn:Ef.
      pose proof (fetchOrders_keeps st
                    (toast (mkToast "Success" m false)
                       (call (UpdateOrder (order_id order) u) w)) store)
        as (_ & _ & _ & Ht).
      rewrite Ef in Ht. simpl in Ht. simpl.
      destruct Ht as [Ht|Ht]; rewrite Ht; rewrite !in_app_iff; simpl;
        intros H; intuition (subst; simpl; auto; try (right; left; discriminate)).
    + simpl. rewrite in_app_iff. simpl.
      intros H; intuition (subst; simpl; auto; try (right; left; discriminate)).
  - destruct a; try discriminate Ea. auto.
Qed.

Lemma dashboard_session_listed (w0 : World) (listed : list OrderData)
    (sw : State * World) :
  session parseISO now w0 listed sw ->
  match selectedOrder (fst sw), actionType (fst sw) with
  | Some order, Some a => In order listed /\ In a (offeredActions order)
  | None, None => True
  | _, _ => False
  end
  /\ (forall id u, In (UpdateOrder id u) (calls (snd sw)) ->
        In (UpdateOrder id u) (calls w0)
        \/ exists order a message,
             In order listed /\ In a (offeredActions order)
             /\ actionUpdates a = Some (u, message)
             /\ id = order_id order)
  /\ (forall t, In t (toasts (snd sw)) ->
        In t (toasts w0)
        \/ description t <> "Cancel feature not implemented in database")
  /\ (forall order, In order (orders (fst sw)) -> In order listed).
Proof.
  assert (Hno : forall order, ~ In cancelOrder (offeredActions order)).
  { intros order. unfold offeredActions.
    repeat match goal with
           | |- context [if ?b then _ else _] => destruct b
           end; simpl; intuition discriminate. }
  induction 1 as [|ev listed [st0 w1] Hs (Ib & Ic & Id & Ie) Hev].
  - simpl. repeat split; auto.
  - simpl in Ib, Ic, Id, Ie, Hev.
    set (sw' := fire parseISO now ev (st0, w1)).
    assert (Hcalls : forall id u,
              In (UpdateOrder id u) (calls w1) ->
              In (UpdateOrder id u) (calls w0)
              \/ exists order a message,
                   In order (listed ++ orders (fst sw'))
                   /\ In a (offeredActions order)
                   /\ actionUpdates a = Some (u, message)
                   /\ id = order_id order).
    { intros id u Hin.
      destruct (Ic id u Hin) as [H|(order & a & m & H1 & H2 & H3 & H4)];
        [left; exact H|right].
      exists order, a, m. rewrite in_app_iff. auto. }
    assert (Hsel : forall st,
              (selectedOrder st, actionType st)
              = (selectedOrder st0, actionType st0)
              \/ (selectedOrder st, actionType st) = (None, None) ->
              match selectedOrder st, actionType st with
              | Some order, Some a =>
                  In order (listed ++ orders (fst sw'))
                  /\ In a (offeredActions order)
                  | None, None => True
              | _, _ => False
              end).
    { intros st [K|K]; injection K as K1 K2; rewrite K1, K2; [|exact I].
      destruct (selectedOrder st0) as [order|], (actionType st0) as [a|];
        try exact Ib.
      destruct Ib as [H1 H2]. split; [rewrite in_app_iff; auto|exact H2]. }
    assert (Hlast : forall order,
              In order (orders (fst sw')) ->
              In order (listed ++ orders (fst sw')))
      by (intros order H; rewrite in_app_iff; auto).
    subst sw'.
    split; [|split; [|split; [|exact Hlast]]].
    + (* the selection *)
      destruct ev as [order a| |store|store|mode cs ce store].
      * cbn [fire fst clickAction selectedOrder actionType].
        destruct Hev as [Ho Ha]. split; [|exact Ha].
        rewrite in_app_iff. left. exact (Ie order Ho).
      * exact I.
      * apply Hsel. exact (handleOrderAction_selection st0 w1 store).
      * apply Hsel. left.
        pose proof (fetchOrders_keeps st0 w1 store) as (Hk & _).
        injection Hk as K1 K2 _ _ _. cbn [fire]. rewrite K1, K2. reflexivity.
      * apply Hsel. left.
        pose proof (fetchOrders_keeps (setRange mode cs ce st0) w1 store)
          as (Hk & _).
        injection Hk as K1 K2 _ _ _. cbn [fire]. rewrite K1, K2. reflexivity.
    + (* the updates sent *)
      intros id u Hin.
      destruct ev as [order a| |store|store|mode cs ce store];
        cbn [fire snd] in Hin.
      * exact (Hcalls id u Hin).
      * exact (Hcalls id u Hin).
      * destruct (ActionFacts.handleOrderAction_calls parseISO store now st0
                    w1 _ Hin)
          as [H|[[q H]|(order & a & u' & m & H1 & H2 & H3 & H4)]].
        -- exact (Hcalls id u H).
        -- discriminate H.
        -- right. inversion H4; subst. rewrite H1, H2 in Ib.
           destruct Ib as [Hl Ha]. exists order, a, m.
           rewrite in_app_iff. auto.
      * pose proof (fetchOrders_keeps st0 w1 store) as (_ & _ & Hc & _).
        rewrite Hc in Hin.
        apply in_app_or in Hin as [Hin|[Hin|[]]];
          [exact (Hcalls id u Hin)|discriminate Hin].
      * pose proof (fetchOrders_keeps (setRange mode cs ce st0) w1 store)
          as (_ & _ & Hc & _).
        rewrite Hc in Hin.
        apply in_app_or in Hin as [Hin|[Hin|[]]];
          [exact (Hcalls id u Hin)|discriminate Hin].
    + (* the notifications *)
      intros t Hin.
      assert (Hfetch : forall store st1,
                In t (toasts (snd (fetchOrders parseISO store now st1 w1))) ->
                In t (toasts w0)
                \/ description t
                   <> "Cancel feature not implemented in database").
      { intros store st1 Ht.
        pose proof (fetchOrders_keeps st1 w1 store) as (_ & _ & _ & [K|K]);
          rewrite K in Ht; [exact (Id t Ht)|].
        apply in_app_or in Ht as [Ht|[<-|[]]]; [exact (Id t Ht)|].
        right. discriminate. }
      destruct ev as [order a| |store|store|mode cs ce store];
        cbn [fire snd] in Hin.
      * exact (Id t Hin).
      * exact (Id t Hin).
      * destruct (handleOrderAction_toasts st0 w1 store t Hin) as [H|[H|H]].
        -- exact (Id t H).
        -- right. exact H.
        -- exfalso. rewrite H in Ib.
           destruct (selectedOrder st0) as [order|]; [|exact Ib].
           exact (Hno order (proj2 Ib)).
      * exact (Hfetch store st0 Hin).
      * exact (Hfetch store (setRange mode cs ce st0) Hin).
Qed.

(** X11.  However the vendor uses the dashboard - pressing the action
    buttons of displayed orders, confirming or dismissing the dialogs,
    refreshing, changing the date range, with the store answering or
    failing as it may - the selected order is one the store listed during
    the session and the pending action is one that is offered for it,
    never the cancellation; every update sent to the store names an order
    the store listed during the session and is the update of an action
    that is offered for that order as it was listed; and the
    notification of the cancellation branch never appears: that branch
    of [handleOrderAction] cannot be reached from the page. *)
Theorem dashboard_session_invariant (w0 : World) (listed : list OrderData)
    (st : State) (w : World) :
  session parseISO now w0 listed (st, w) ->
  actionType st <> Some cancelOrder
  /\ match selectedOrder st, actionType st with
     | Some order, Some a => In order listed /\ In a (offeredActions order)
     | None, None => True
     | _, _ => False
     end
  /\ (forall id u, In (UpdateOrder id u) (calls w) ->
        In (UpdateOrder id u) (calls w0)
        \/ exists order a message,
             In order listed /\ In a (offeredActions order)
             /\ actionUpdates a = Some (u, message)
             /\ id = order_id order)
  /\ (forall t, In t (toasts w) ->
        In t (toasts w0)
        \/ description t <> "Cancel feature not implemented in database").
Proof.
  intros Hs.
  destruct (dashboard_session_listed w0 listed (st, w) Hs) as (Ib & Ic & Id & _).
  cbn [fst snd] in Ib, Ic, Id.
  split; [|split; [exact Ib|split; [exact Ic|exact Id]]].
  intros Ha. rewrite Ha in Ib.
  destruct (selectedOrder st) as [order|]; [|exact Ib].
  destruct Ib as [_ Hin]. revert Hin. unfold offeredActions.
  repeat match goal with
         | |- context [if ?b then _ else _] => destruct b
         end; simpl; intuition discriminate.
Qed.

Lemma reduceRevenueByDay_some_valid orderData : forall acc acc',
  reduceRevenueByDay parseISO acc orderData = Some acc' ->
  validTimestamps parseISO orderData.
Proof.
  induction orderData as [|o rest IH]; intros acc acc' H; simpl in H.
  - constructor.
  - destruct (parseISO (created_at o)) as [t|] eqn:Et; [|discriminate H].
    constructor; [rewrite Et; discriminate|exact (IH _ _ H)].
Qed.

Lemma calculateAnalytics_valid orderData :
  validTimestamps parseISO orderData
  <-> exists a, calculateAnalytics parseISO orderData = Some a.
Proof.
  unfold calculateAnalytics. cbv zeta. split.
  - intros Hv.
    destruct (RevenueFacts.reduceRevenueByDay_valid parseISO orderData [] Hv)
      as [acc' Hacc].
    rewrite Hacc. eauto.
  - intros [a Ha].
    destruct (reduceRevenueByDay parseISO [] orderData) as [acc'|] eqn:E;
      [|discriminate Ha].
    exact (reduceRevenueByDay_some_valid orderData [] acc' E).
Qed.

Lemma snoc_neq {A : Type} (l : list A) (x : A) : l ++ [x] <> l.
Proof.
  intros H. apply (f_equal (@List.length A)) in H.
  rewrite length_app in H. simpl in H. lia.
Qed.

(** X12.  [fetchOrders] never fails: it sends one query built from the
    current date range, always ends with [loading] off, and touches
    neither the selection nor the range.  It is silent exactly when the
    store answered and every creation timestamp of the answer parses;
    then orders and analytics are replaced together.  When the store
    fails, both are kept.  When the store answers but a timestamp does
    not parse, the order list is replaced while the analytics stay those
    of the previous list. *)
Theorem fetchOrders_outcome (store : Store) (st : State) (w : World) :
  let q := ordersQuery now (dateRange st) (customStartDate st)
                       (customEndDate st) in
  let st' := fst (fetchOrders parseISO store now st w) in
  let w' := snd (fetchOrders parseISO store now st w) in
  calls w' = calls w ++ [SelectOrders q]
  /\ loading st' = false
  /\ (selectedOrder st', actionType st', dateRange st', customStartDate st',
      customEndDate st')
     = (selectedOrder st, actionType st, dateRange st, customStartDate st,
        customEndDate st)
  /\ (toasts w' = toasts w
      <-> exists data, select store q = Some data
                       /\ validTimestamps parseISO data)
  /\ (select store q = None ->
      orders st' = orders st /\ analytics st' = analytics st)
  /\ (forall data, select store q = Some data ->
        orders st' = data
        /\ (validTimestamps parseISO data ->
            calculateAnalytics parseISO data = Some (analytics st'))
        /\ (~ validTimestamps parseISO data ->
            analytics st' = analytics st)).
Proof.
  cbv zeta.
  pose proof (fetchOrders_keeps st w store) as (Hk & Hl & Hc & _).
  split; [exact Hc|]. split; [exact Hl|]. split; [exact Hk|].
  unfold fetchOrders. cbv zeta.
  destruct (select store _) as [data|] eqn:Es.
  - destruct (calculateAnalytics parseISO data) as [a|] eqn:Ea; simpl.
    + assert (Hv : validTimestamps parseISO data)
        by (apply calculateAnalytics_valid; eauto).
      split; [split; [intros _; eauto|reflexivity]|].
      split; [discriminate|].
      intros data' Hd. inversion Hd; subst data'.
      split; [reflexivity|]. split; [intros _; exact Ea|contradiction].
    + assert (Hv : ~ validTimestamps parseISO data).
      { intros Hv. apply calculateAnalytics_valid in Hv as [a Ha].
        rewrite Ha in Ea. discriminate Ea. }
      split.
      { split.
        - intros H. exfalso. exact (snoc_neq _ _ H).
        - intros (data' & Hd & Hv'). inversion Hd; subst. contradiction. }
      split; [discriminate|].
      intros data' Hd. inversion Hd; subst data'.
      split; [reflexivity|]. split; [contradiction|reflexivity].
  - simpl. split.
    { split.
      - intros H. exfalso. exact (snoc_neq _ _ H).
      - intros (data' & Hd & _). discriminate Hd. }
    split; [split; reflexivity|]. intros data' Hd. discriminate Hd.
Qed.

(** X13.  [handleOrderAction] does nothing at all without a selected
    order or without a pending action.  Otherwise it sends one update,
    for the selected order, that sets exactly one of the two status
    columns.  If the store refuses it, the state is left as it was - the
    dialog stays open - and only an error is notified.  If the store
    accepts it, the orders are reloaded once, after the update, the
    success is notified, and the selection is cleared. *)
Theorem handleOrderAction_outcome (store : Store) (st : State) (w : World) :
  let st' := fst (handleOrderAction parseISO store now st w) in
  let w' := snd (handleOrderAction parseISO store now st w) in
  (selectedOrder st = None \/ actionType st = None -> (st', w') = (st, w))
  /\ (forall order a u message,
        selectedOrder st = Some order -> actionType st = Some a ->
        actionUpdates a = Some (u, message) ->
        (upd_payment_status u = None <-> upd_order_status u <> None)
        /\ (update store (order_id order) u = false ->
            st' = st
            /\ calls w' = calls w ++ [UpdateOrder (order_id order) u]
            /\ toasts w'
               = toasts w ++ [mkToast "Error" "Failed to update order" true])
        /\ (update store (order_id order) u = true ->
            (selectedOrder st', actionType st', loading st') = (None, None, false)
            /\ calls w'
               = calls w ++ [UpdateOrder (order_id order) u;
                             SelectOrders (ordersQuery now (dateRange st)
                                             (customStartDate st)
                                             (customEndDate st))]
            /\ In (mkToast "Success" message false) (toasts w')
            /\ orders st'
               = orders (fst (fetchOrders parseISO store now st w)))).
Proof.
  cbv zeta. split.
  - unfold handleOrderAction. intros [H|H]; rewrite H.
    + reflexivity.
    + destruct (selectedOrder st); reflexivity.
  - intros order a u message Hs Ha Hu.
    split.
    { destruct a; inversion Hu; subst; simpl; split; intros H;
        try discriminate; try reflexivity; try (exfalso; apply H; reflexivity). }
    unfold handleOrderAction. rewrite Hs, Ha, Hu.
    split; intros Hupd; rewrite Hupd.
    + repeat split.
    + set (w2 := toast (mkToast "Success" message false)
                   (call (UpdateOrder (order_id order) u) w)).
      pose proof (fetchOrders_keeps st w2 store) as (_ & Hl & Hc & Ht).
      assert (Ho : orders (fst (fetchOrders parseISO store now st w2))
                   = orders (fst (fetchOrders parseISO store now st w))).
      { unfold fetchOrders. cbv zeta.
        destruct (select store _) as [data|]; [|reflexivity].
        destruct (calculateAnalytics parseISO data); reflexivity. }
      destruct (fetchOrders parseISO store now st w2) as [st2 w3].
      simpl in *. rewrite Hl.
      split; [reflexivity|]. split.
      * rewrite Hc. rewrite <- app_assoc. reflexivity.
      * split; [|exact Ho].
        destruct Ht as [Ht|Ht]; rewrite Ht; rewrite !in_app_iff; simpl; auto.
Qed.

End Session.

Lemma dashboard_session_invariant_witness :
  let order := sampleOrder "o1" "2024-01-06T10:15:00" "fried-rice" 2 50
                           "pickup" in
  let store := mkStore (fun _ => Some [order]) (fun _ _ => true) in
  let sw1 := fire CalendarAux.parseISO_utc 19728 (Refresh store)
               (initialState, mkWorld [] []) in
  let sw2 := fire CalendarAux.parseISO_utc 19728 (Click order confirmPayment)
               sw1 in
  let sw3 := fire CalendarAux.parseISO_utc 19728 (Confirm store) sw2 in
  let listed := (([] ++ orders (fst sw1)) ++ orders (fst sw2))
                ++ orders (fst sw3) in
  session CalendarAux.parseISO_utc 19728 (mkWorld [] []) listed sw3
  /\ In (UpdateOrder "o1" (mkUpdates (Some "confirmed paid") None))
        (calls (snd sw3))
  /\ actionType (fst sw3) <> Some cancelOrder.
Proof.
  cbv zeta.
  set (order := sampleOrder "o1" "2024-01-06T10:15:00" "fried-rice" 2 50
                            "pickup").
  set (store := mkStore (fun _ => Some [order]) (fun _ _ => true)).
  set (sw1 := fire CalendarAux.parseISO_utc 19728 (Refresh store)
                (initialState, mkWorld [] [])).
  set (sw2 := fire CalendarAux.parseISO_utc 19728
                (Click order confirmPayment) sw1).
  set (sw3 := fire CalendarAux.parseISO_utc 19728 (Confirm store) sw2).
  assert (H1 : session CalendarAux.parseISO_utc 19728 (mkWorld [] [])
                 ([] ++ orders (fst sw1)) sw1).
  { apply session_fire; [apply session_start|exact I]. }
  assert (H2 : session CalendarAux.parseISO_utc 19728 (mkWorld [] [])
                 (([] ++ orders (fst sw1)) ++ orders (fst sw2)) sw2).
  { apply session_fire; [exact H1|]. split; left; reflexivity. }
  assert (H3 : session CalendarAux.parseISO_utc 19728 (mkWorld [] [])
                 ((([] ++ orders (fst sw1)) ++ orders (fst sw2))
                  ++ orders (fst sw3)) (fst sw3, snd sw3)).
  { replace (fst sw3, snd sw3) with sw3 by (destruct sw3; reflexivity).
    apply session_fire; [exact H2|exact I]. }
  split; [destruct sw3; exact H3|].
  split; [vm_compute; auto|].
  exact (proj1 (dashboard_session_invariant CalendarAux.parseISO_utc 19728
                  (mkWorld [] []) _ (fst sw3) (snd sw3) H3)).
Defined.

Lemma fetchOrders_outcome_witness :
  let order := sampleOrder "o1" "2024-01-06T10:15:00" "fried-rice" 2 50
                           "pickup" in
  let store := mkStore (fun _ => Some [order]) (fun _ _ => true) in
  let st' := fst (fetchOrders CalendarAux.parseISO_utc store 19728
                    initialState (mkWorld [] [])) in
  validTimestamps CalendarAux.parseISO_utc [order]
  /\ orders st' = [order]
  /\ calculateAnalytics CalendarAux.parseISO_utc [order]
     = Some (analytics st').
Proof.
  cbv zeta.
  set (order := sampleOrder "o1" "2024-01-06T10:15:00" "fried-rice" 2 50
                            "pickup").
  set (store := mkStore (fun _ => Some [order]) (fun _ _ => true)).
  assert (Hv : validTimestamps CalendarAux.parseISO_utc [order])
    by (repeat constructor; vm_compute; discriminate).
  split; [exact Hv|].
  destruct (proj2 (proj2 (proj2 (proj2 (proj2
              (fetchOrders_outcome CalendarAux.parseISO_utc 19728 store
                 initialState (mkWorld [] []))))))
              [order] eq_refl) as (Ho & Ha & _).
  split; [exact Ho|exact (Ha Hv)].
Defined.

Lemma handleOrderAction_outcome_witness :
  let order := mkOrder "o1" "2024-01-06T10:15:00" "Ama" "fried-rice" 2
                       "pre-order" "pickup" None 50 "preparing"
                       "confirmed paid" in
  let store := mkStore (fun _ => Some []) (fun _ _ => false) in
  let st := DashboardUI.clickAction order markReady initialState in
  update store (order_id order) (mkUpdates None (Some "ready")) = false
  /\ fst (handleOrderAction CalendarAux.parseISO_utc store 19728 st
            (mkWorld [] [])) = st.
Proof.
  cbv zeta.
  set (order := mkOrder "o1" "2024-01-06T10:15:00" "Ama" "fried-rice" 2
                        "pre-order" "pickup" None 50 "preparing"
                        "confirmed paid").
  set (store := mkStore (fun _ => Some []) (fun _ _ => false)).
  assert (Hu : update store (order_id order) (mkUpdates None (Some "ready"))
               = false) by reflexivity.
  split; [exact Hu|].
  exact (proj1 (proj1 (proj2 (proj2
           (handleOrderAction_outcome CalendarAux.parseISO_utc 19728 store
              (DashboardUI.clickAction order markReady initialState)
              (mkWorld [] []))
           order markReady (mkUpdates None (Some "ready"))
           "Order marked as ready" eq_refl eq_refl eq_refl)) Hu)).
Defined.

End DashboardFacts.

(** ** More on the analytics *)

Module AnalyticsFacts.

Import JSDate Dashboard AnalyticsSpec.

Section ByDay.

Variable parseISO : string -> option Date.




End ByDay.


(** *** Pickup and delivery counts *)

Lemma filter_pair_length {A : Type} (p q : A -> bool) (l : list A) :
  (forall x, p x = true -> q x = false) ->
  (List.length (filter p l) + List.length (filter q l) <= List.length l)%nat
  /\ ((List.length (filter p l) + List.length (filter q l))%nat = List.length l
      <-> Forall (fun x => p x = true \/ q x = true) l).
Proof.
  intros Hpq. induction l as [|x l [IH1 IH2]]; simpl.
  - split; [lia|]. split; [constructor|reflexivity].
  - destruct (p x) eqn:Ep.
    + rewrite (Hpq x Ep). simpl. split; [lia|]. split.
      * intros H. constructor; [auto|]. apply IH2. lia.
      * intros H. apply Forall_inv_tail in H. apply IH2 in H. lia.
    + destruct (q x) eqn:Eq; simpl.
      * split; [lia|]. split.
        -- intros H. constructor; [auto|]. apply IH2. lia.
        -- intros H. apply Forall_inv_tail in H. apply IH2 in H. lia.
      * split; [lia|]. split.
        -- intros H. lia.
        -- intros H. apply Forall_inv in H. destruct H; congruence.
Qed.

(** X15.  Pickup and delivery counts never exceed the number of orders
    together, and they add up to it exactly when every order's delivery
    method is ["pickup"] or ["delivery"]; an order with any other method
    is counted in neither. *)
Theorem pickup_and_delivery_counts (parseISO : string -> option Date)
    (orderData : list OrderData) :
  validTimestamps parseISO orderData ->
  exists a,
    calculateAnalytics parseISO orderData = Some a
    /\ 0 <= pickupCount a /\ 0 <= deliveryCount a
    /\ pickupCount a + deliveryCount a <= Z.of_nat (List.length orderData)
    /\ (pickupCount a + deliveryCount a = Z.of_nat (List.length orderData)
        <-> Forall (fun o => delivery_method o = "pickup"
                             \/ delivery_method o = "delivery") orderData).
Proof.
  intros Hv.
  destruct (RevenueFacts.reduceRevenueByDay_valid parseISO orderData [] Hv)
    as [acc' Hacc].
  unfold calculateAnalytics. cbv zeta. rewrite Hacc.
  eexists. split; [reflexivity|]. cbn [pickupCount deliveryCount].
  destruct (filter_pair_length
              (fun o => (delivery_method o =? "pickup")%string)
              (fun o => (delivery_method o =? "delivery")%string) orderData)
    as [Hle Heq].
  { intros o Ho. apply String.eqb_eq in Ho. rewrite Ho. reflexivity. }
  split; [lia|]. split; [lia|]. split; [lia|].
  split.
  - intros H. assert (H' : (List.length (filter (fun o => (delivery_method o =? "pickup")%string) orderData)
                            + List.length (filter (fun o => (delivery_method o =? "delivery")%string) orderData))%nat
                           = List.length orderData) by lia.
    apply Heq in H'. apply Forall_impl with (2 := H').
    intros o [Ho|Ho]; apply String.eqb_eq in Ho; auto.
  - intros H.
    assert (H' : Forall (fun o => (delivery_method o =? "pickup")%string = true
                                  \/ (delivery_method o =? "delivery")%string = true)
                        orderData).
    { apply Forall_impl with (2 := H).
      intros o [Ho|Ho]; rewrite Ho; auto. }
    apply Heq in H'. lia.
Qed.

Lemma pickup_and_delivery_counts_witness :
  let orderData :=
    [ sampleOrder "o1" "2024-01-06T10:15:00" "fried-rice" 2 50 "pickup";
      sampleOrder "o2" "2024-01-09T18:00:00" "noodles-chicken" 1 33 "courier" ] in
  validTimestamps CalendarAux.parseISO_utc orderData
  /\ exists a, calculateAnalytics CalendarAux.parseISO_utc orderData = Some a
               /\ pickupCount a + deliveryCount a <= 2.
Proof.
  cbv zeta.
  set (orderData :=
         [ sampleOrder "o1" "2024-01-06T10:15:00" "fried-rice" 2 50 "pickup";
           sampleOrder "o2" "2024-01-09T18:00:00" "noodles-chicken" 1 33
                       "courier" ]).
  assert (Hv : validTimestamps CalendarAux.parseISO_utc orderData)
    by (repeat constructor; vm_compute; discriminate).
  split; [exact Hv|].
  destruct (pickup_and_delivery_counts CalendarAux.parseISO_utc orderData Hv)
    as (a & E & _ & _ & L & _).
  exists a. split; [exact E|exact L].
Defined.

(** *** The top items for arbitrary names *)

Section Entries.

Context {V : Type}.



End Entries.





(** Names that are array indices are covered too. *)
Example topFoodItems_numeric_names :
  computeTopFoodItems
    [ sampleOrder "o1" "2024-01-06T10:15:00" "2" 1 20 "pickup";
      sampleOrder "o2" "2024-01-09T18:00:00" "jollof" 3 60 "pickup";
      sampleOrder "o3" "2024-01-09T18:00:00" "1" 1 25 "pickup" ]
  = [ mkTopFoodItem "jollof" 3 60; mkTopFoodItem "1" 1 25;
      mkTopFoodItem "2" 1 20 ].
Proof. vm_compute. reflexivity. Qed.

End AnalyticsFacts.

(** ** More on the date range *)

Module DateRangeMoreFacts.

Import JSDate CalendarAux CalendarFacts Dashboard.

Lemma month_length n : 28 <= month_start (n + 1) - month_start n <= 31.
Proof.
  unfold month_start, MakeDay, day_of_month_start. cbv zeta.
  unfold days_per_era, epoch_shift.
  rewrite !Z.add_0_l.
  assert (Hm : 0 <= n mod 12 < 12) by (apply Z.mod_pos_bound; lia).
  assert (Hd : n = 12 * (n / 12) + n mod 12) by (apply Z.div_mod; lia).
  assert (Hcase : n mod 12 <= 10 \/ n mod 12 = 11) by lia.
  destruct Hcase as [Hc|Hc].
  - replace ((n + 1) / 12) with (n / 12) by euclid.
    replace ((n + 1) mod 12) with (n mod 12 + 1) by euclid.
    set (y := n / 12) in *. set (m := n mod 12) in *. clearbody y m. clear Hd.
    split_tests; euclid.
  - replace ((n + 1) / 12) with (n / 12 + 1) by euclid.
    replace ((n + 1) mod 12) with 0 by euclid.
    rewrite Hc.
    set (y := n / 12) in *. clearbody y. clear Hd Hc Hm.
    split_tests; euclid.
Qed.

(** X17.  The resolved range depends on the current day only through its
    week or its month: every day between the Monday and the Sunday of the
    week of [now] resolves ["week"] to the same range, every day of the
    month of [now] resolves ["month"] to the same range (for a year
    outside 0..99), and that month range spans 28 to 31 days.  A mode
    that is none of ["today"], ["month"] and ["custom"] resolves to the
    week. *)
Theorem date_range_is_stable (now d : Date)
    (mode customStartDate customEndDate : string) :
  (mode <> "today" -> mode <> "month" -> mode <> "custom" ->
   getDateRangeFilter now mode customStartDate customEndDate
   = getDateRangeFilter now "week" customStartDate customEndDate)
  /\ (startOfWeek now 1 <= d <= endOfWeek now 1 ->
      getDateRangeFilter d "week" customStartDate customEndDate
      = getDateRangeFilter now "week" customStartDate customEndDate)
  /\ (~ (0 <= getFullYear now <= 99) ->
      let first := new_Date (getFullYear now) (getMonth now) 1 in
      let last := new_Date (getFullYear now) (getMonth now + 1) 0 in
      28 <= last - first + 1 <= 31
      /\ (first <= d <= last ->
          getDateRangeFilter d "month" customStartDate customEndDate
          = getDateRangeFilter now "month" customStartDate customEndDate)).
Proof.
  split; [|split].
  - intros H1 H2 H3. unfold getDateRangeFilter.
    destruct (String.eqb_spec mode "today"); [contradiction|].
    destruct (String.eqb_spec mode "week"); [subst; reflexivity|].
    destruct (String.eqb_spec mode "month"); [contradiction|].
    destruct (String.eqb_spec mode "custom"); [contradiction|].
    reflexivity.
  - rewrite startOfWeek_monday, endOfWeek_sunday. intros Hd.
    assert (E : startOfWeek d 1 = startOfWeek now 1).
    { rewrite !startOfWeek_monday. unfold getDay in *. euclid. }
    assert (E' : endOfWeek d 1 = endOfWeek now 1).
    { rewrite !endOfWeek_sunday. rewrite !startOfWeek_monday in E. lia. }
    unfold getDateRangeFilter. simpl. rewrite E, E'. reflexivity.
  - intros Hy. cbv zeta. rewrite !DateRangeFacts.new_Date_MakeDay by exact Hy.
    rewrite !MakeDay_month_start.
    set (n := 12 * getFullYear now + getMonth now).
    replace (12 * getFullYear now + (getMonth now + 1)) with (n + 1) by lia.
    pose proof (month_length n) as Hlen.
    split; [lia|]. intros Hd.
    destruct (getters_in_month n d ltac:(lia)) as [Hn _].
    pose proof (getMonth_range d) as Rd.
    pose proof (getMonth_range now) as Rn.
    assert (Ey : getFullYear d = getFullYear now) by (subst n; lia).
    assert (Em : getMonth d = getMonth now) by (subst n; lia).
    unfold getDateRangeFilter. simpl. rewrite Ey, Em. reflexivity.
Qed.

Lemma date_range_is_stable_witness :
  "all" <> "today" /\ "all" <> "month" /\ "all" <> "custom"
  /\ startOfWeek 20760 1 <= 20764 <= endOfWeek 20760 1
  /\ ~ (0 <= getFullYear 20760 <= 99)
  /\ getDateRangeFilter 20760 "all" "" "" = getDateRangeFilter 20760 "week" "" ""
  /\ getDateRangeFilter 20764 "week" "" "" = getDateRangeFilter 20760 "week" "" "".
Proof.
  assert (H1 : "all" <> "today") by discriminate.
  assert (H2 : "all" <> "month") by discriminate.
  assert (H3 : "all" <> "custom") by discriminate.
  assert (H4 : startOfWeek 20760 1 <= 20764 <= endOfWeek 20760 1)
    by (vm_compute; split; discriminate).
  assert (H5 : ~ (0 <= getFullYear 20760 <= 99))
    by (vm_compute; intros [_ H]; apply H; reflexivity).
  repeat (split; [assumption|]).
  split.
  - exact (proj1 (date_range_is_stable 20760 20764 "all" "" "") H1 H2 H3).
  - exact (proj1 (proj2 (date_range_is_stable 20760 20764 "all" "" "")) H4).
Defined.

End DateRangeMoreFacts.

(** ** The order tracking page *)

Module ViewOrderFacts.

Import JSString ViewOrder TrackingSpec.

Lemma falsy_empty s : falsy s = true <-> s = "".
Proof. unfold falsy. apply String.eqb_eq. Qed.

Lemma falsy_nonempty s : s <> "" -> falsy s = false.
Proof. intros H. unfold falsy. apply String.eqb_neq. exact H. Qed.

(** X18.  What one call of [searchOrder] does.  The field is never
    changed.  With a blank token nothing is asked of the store: the
    order shown, the loading flag and the recent searches stay, and one
    destructive notification is shown.  Otherwise exactly one query is
    made, for the trimmed token, and loading ends; an order is shown
    exactly when the store found one; the error text is empty, the
    recent searches change and a notification appears exactly when the
    store found one and the browser's storage did not fail - when it
    fails the order is shown together with an error text; and the "not
    found" text is shown exactly for the store's error code [PGRST116]. *)
Theorem searchOrder_outcome (store : string -> Response)
    (storage : StorageFault) (st : State) (w : World) :
  let token := trim (trackingToken st) in
  let st' := fst (searchOrder store storage st w) in
  let w' := snd (searchOrder store storage st w) in
  trackingToken st' = trackingToken st
  /\ (token = "" ->
      order st' = order st /\ loading st' = loading st
      /\ error st' <> ""
      /\ queries w' = queries w /\ recent_orders w' = recent_orders w
      /\ exists t, toasts w' = toasts w ++ [t] /\ destructive t = true)
  /\ (token <> "" ->
      queries w' = queries w ++ [token] /\ loading st' = false
      /\ (forall d, order st' = Some d <-> store token = Found d)
      /\ (error st' = ""
          <-> (exists d, store token = Found d) /\ storage = NoFault)
      /\ (forall d, store token = Found d -> storage = NoFault ->
            recent_orders w'
            = orderSummary d
              :: filter (fun o => negb (sum_tracking_token o
                                        =? tracking_token d)%string)
                        (recent_orders w)
            /\ exists t, toasts w' = toasts w ++ [t] /\ destructive t = false)
      /\ ((forall d, store token <> Found d) \/ storage <> NoFault ->
            recent_orders w' = recent_orders w /\ toasts w' = toasts w)
      /\ ((forall d, store token <> Found d) -> order st' = None)
      /\ (error st' = "Order not found. Please check your tracking token."
          <-> exists m, store token = Refused "PGRST116" m)).
Proof.
  cbv zeta. unfold searchOrder.
  destruct (falsy (trim (trackingToken st))) eqn:Ef.
  - apply falsy_empty in Ef. simpl.
    split; [reflexivity|]. split.
    + intros _. repeat split; try discriminate. eexists. split; reflexivity.
    + intros H. contradiction.
  - cbv zeta. split; [destruct (store _); [destruct storage|..]; reflexivity|].
    split.
    + intros H. rewrite H in Ef. discriminate Ef.
    + intros _.
      destruct (store (trim (trackingToken st))) as [d|code m|] eqn:Es.
      * assert (Hcommon :
                  forall P : Prop, P ->
                    (forall d', Some d = Some d' <-> Found d = Found d') /\ P).
        { intros P HP. split; [|exact HP].
          intros d'. split; intros H; congruence. }
        destruct storage; simpl;
          (split; [reflexivity|]); (split; [reflexivity|]);
          apply Hcommon.
        -- split; [split; [intros _; split; [exists d|]; reflexivity
                          |reflexivity]|].
           split.
           { intros d' H _. injection H as <-. split; [reflexivity|].
             eexists. split; reflexivity. }
           split.
           { intros [H|H]; exfalso; [apply (H d)|apply H]; reflexivity. }
           split; [intros H; exfalso; apply (H d); reflexivity|].
           split; [discriminate|intros [m H]; discriminate H].
        -- split; [split; [discriminate|intros [_ H]; discriminate H]|].
           split; [intros d' _ H; discriminate H|].
           split; [intros _; split; reflexivity|].
           split; [intros H; exfalso; apply (H d); reflexivity|].
           split; [discriminate|intros [m H]; discriminate H].
        -- split; [split; [discriminate|intros [_ H]; discriminate H]|].
           split; [intros d' _ H; discriminate H|].
           split; [intros _; split; reflexivity|].
           split; [intros H; exfalso; apply (H d); reflexivity|].
           split; [discriminate|intros [m H]; discriminate H].
      * simpl. split; [reflexivity|]. split; [reflexivity|]. split.
        { intros d'. split; intros H; discriminate H. }
        split.
        { split; [|intros [[d H] _]; discriminate H].
          destruct (code =? "PGRST116")%string; discriminate. }
        split; [intros d' H; discriminate H|].
        split; [intros _; split; reflexivity|].
        split; [reflexivity|].
        destruct (String.eqb_spec code "PGRST116") as [->|Hc].
        { split; [intros _; exists m; reflexivity|reflexivity]. }
        { split; [discriminate|]. intros [m' H]. congruence. }
      * simpl. split; [reflexivity|]. split; [reflexivity|]. split.
        { intros d'. split; intros H; discriminate H. }
        split.
        { split; [discriminate|intros [[d H] _]; discriminate H]. }
        split; [intros d' H; discriminate H|].
        split; [intros _; split; reflexivity|].
        split; [reflexivity|].
        split; [discriminate|intros [m H]; discriminate H].
Qed.

Lemma searchOrder_outcome_witness :
  let st := mkState "  tok-1 　" None false "" in
  let w := mkWorld [] [] [] in
  trim (trackingToken st) <> ""
  /\ queries (snd (searchOrder sampleStore WriteThrows st w)) = ["tok-1"]
  /\ loading (fst (searchOrder sampleStore WriteThrows st w)) = false.
Proof.
  cbv zeta.
  assert (H : trim (trackingToken (mkState "  tok-1 　" None false "")) <> "")
    by (vm_compute; discriminate).
  split; [exact H|].
  destruct (proj2 (proj2 (searchOrder_outcome sampleStore WriteThrows
                            (mkState "  tok-1 　" None false "")
                            (mkWorld [] [] []))) H) as (Q & L & _).
  split; [exact Q|exact L].
Defined.

(** *** The recent searches *)

Lemma NoDup_map_filter {A B : Type} (f : A -> B) (p : A -> bool) l :
  NoDup (map f l) -> NoDup (map f (filter p l)).
Proof.
  induction l as [|x l IH]; simpl; intros H; [constructor|].
  inversion H as [|? ? Hx Hl]; subst.
  destruct (p x); simpl; [|exact (IH Hl)].
  constructor; [|exact (IH Hl)].
  intros Hin. apply Hx. apply in_map_iff in Hin as (y & E & Hy).
  apply filter_In in Hy. apply in_map_iff. exists y. tauto.
Qed.

Lemma updatedRecent_NoDup d l :
  NoDup (map sum_tracking_token l) ->
  NoDup (map sum_tracking_token
           (orderSummary d
            :: filter (fun o => negb (sum_tracking_token o
                                      =? tracking_token d)%string) l)).
Proof.
  intros H. simpl. constructor; [|apply NoDup_map_filter; exact H].
  intros Hin. apply in_map_iff in Hin as (y & E & Hy).
  apply filter_In in Hy as [_ Hy]. rewrite E, String.eqb_refl in Hy.
  discriminate Hy.
Qed.

Lemma searchOrder_invariant store storage st w :
  NoDup (map sum_tracking_token (recent_orders w)) ->
  loading st = false ->
  (forall d, order st = Some d -> error st = "" ->
     exists rest, recent_orders w = orderSummary d :: rest) ->
  NoDup (map sum_tracking_token
           (recent_orders (snd (searchOrder store storage st w))))
  /\ loading (fst (searchOrder store storage st w)) = false
  /\ (forall d, order (fst (searchOrder store storage st w)) = Some d ->
        error (fst (searchOrder store storage st w)) = "" ->
        exists rest,
          recent_orders (snd (searchOrder store storage st w))
          = orderSummary d :: rest).
Proof.
  intros Hn Hl Ho. unfold searchOrder.
  destruct (falsy (trim (trackingToken st))).
  { simpl. split; [exact Hn|]. split; [exact Hl|].
    intros d _ H. discriminate H. }
  cbv zeta. destruct (store (trim (trackingToken st))) as [d|code m|];
    [destruct storage|..]; simpl.
  - split; [apply (updatedRecent_NoDup d _ Hn)|]. split; [reflexivity|].
    intros d' E _. injection E as <-. eexists. reflexivity.
  - split; [exact Hn|]. split; [reflexivity|]. intros d' _ E. discriminate E.
  - split; [exact Hn|]. split; [reflexivity|]. intros d' _ E. discriminate E.
  - split; [exact Hn|]. split; [reflexivity|]. intros d' E. discriminate E.
  - split; [exact Hn|]. split; [reflexivity|]. intros d' E. discriminate E.
Qed.

(** X19.  In every session of the tracking page (typing, the button, the
    Enter key, whatever the store answers and whether or not the
    browser's storage fails) that starts with recent searches of distinct
    tokens: the recent searches keep distinct tokens, the page is never
    left loading, and an order on display without an error text is the
    newest recent search.  The "Track Order" button, being disabled on a
    blank field, always sends a query for the trimmed token and never
    produces a destructive notification: the "Missing token" message can
    only come from the Enter key. *)
Theorem recent_orders_distinct (w0 : World) (sw : State * World) :
  NoDup (map sum_tracking_token (recent_orders w0)) ->
  reachable w0 sw ->
  NoDup (map sum_tracking_token (recent_orders (snd sw)))
  /\ loading (fst sw) = false
  /\ (forall d, order (fst sw) = Some d -> error (fst sw) = "" ->
        exists rest, recent_orders (snd sw) = orderSummary d :: rest)
  /\ (forall store storage, offered (fst sw) (ClickTrack store storage) ->
        queries (snd (fire (ClickTrack store storage) sw))
        = queries (snd sw) ++ [trim (trackingToken (fst sw))]
        /\ forall t, In t (toasts (snd (fire (ClickTrack store storage) sw))) ->
             In t (toasts (snd sw)) \/ destructive t = false).
Proof.
  intros H0 Hr.
  assert (Hinv : NoDup (map sum_tracking_token (recent_orders (snd sw)))
                 /\ loading (fst sw) = false
                 /\ (forall d, order (fst sw) = Some d -> error (fst sw) = "" ->
                       exists rest,
                         recent_orders (snd sw) = orderSummary d :: rest)).
  { induction Hr as [|ev [st w] Hr IH Hoff].
    - simpl. split; [exact H0|]. split; [reflexivity|]. discriminate.
    - simpl in IH. destruct IH as (I1 & I2 & I3).
      destruct ev as [v|store storage|store storage]; cbn [fire].
      + simpl. auto.
      + apply searchOrder_invariant; assumption.
      + apply searchOrder_invariant; assumption. }
  destruct Hinv as (I1 & I2 & I3).
  split; [exact I1|]. split; [exact I2|]. split; [exact I3|].
  destruct sw as [st w]. simpl in *. intros store storage Hoff.
  unfold trackDisabled in Hoff. rewrite I2 in Hoff. simpl in Hoff.
  unfold searchOrder. rewrite Hoff. cbv zeta.
  destruct (store (trim (trackingToken st))) as [d|code m|];
    [destruct storage|..]; simpl.
  - split; [reflexivity|]. intros t Ht. apply in_app_or in Ht as [Ht|[<-|[]]].
    + left. exact Ht.
    + right. reflexivity.
  - split; [reflexivity|]. auto.
  - split; [reflexivity|]. auto.
  - split; [reflexivity|]. auto.
  - split; [reflexivity|]. auto.
Qed.

Lemma recent_orders_distinct_witness :
  let w0 := mkWorld [] [] [orderSummary sampleOrder] in
  let sw := fire (PressEnter sampleStore NoFault)
              (fire (TokenChanged " tok-1") (initialState, w0)) in
  NoDup (map sum_tracking_token (recent_orders w0))
  /\ reachable w0 sw
  /\ NoDup (map sum_tracking_token (recent_orders (snd sw))).
Proof.
  cbv zeta.
  set (w0 := mkWorld [] [] [orderSummary sampleOrder]).
  assert (H0 : NoDup (map sum_tracking_token (recent_orders w0)))
    by (repeat constructor; simpl; tauto).
  assert (Hr : reachable w0
                 (fire (PressEnter sampleStore NoFault)
                    (fire (TokenChanged " tok-1") (initialState, w0)))).
  { apply reachable_fire; [|exact I].
    apply reachable_fire; [|exact I]. apply reachable_start. }
  split; [exact H0|]. split; [exact Hr|].
  exact (proj1 (recent_orders_distinct w0 _ H0 Hr)).
Defined.

Example searching_twice_keeps_one_entry :
  let w0 := mkWorld [] [] [] in
  let sw := fire (PressEnter sampleStore NoFault)
              (fire (PressEnter sampleStore NoFault)
                 (fire (TokenChanged "tok-1") (initialState, w0))) in
  recent_orders (snd sw) = [orderSummary sampleOrder]
  /\ queries (snd sw) = ["tok-1"; "tok-1"].
Proof. vm_compute. split; reflexivity. Qed.

(** A field that holds only an ideographic space is blank: the button is
    disabled and the Enter key asks nothing of the store. *)
Example ideographic_space_is_blank :
  let st := setTrackingToken "　" initialState in
  trackDisabled st = true
  /\ queries (snd (searchOrder sampleStore NoFault st (mkWorld [] [] []))) = [].
Proof. vm_compute. split; reflexivity. Qed.

End ViewOrderFacts.

(** ** The tracking page along the life of an order *)

Module TrackingLifecycleFacts.

Import Dashboard DashboardUI.




End TrackingLifecycleFacts.

(** ** The slot ranges *)

Module SlotFacts.

Import JSDate JSNumber DashboardSlots.

(** *** [parseInt] reads back what [toString] prints *)

Lemma read_int_acc (d : Decimal.uint) : forall p : positive,
  read_int 10 (NilEmpty.string_of_uint d) (Some (Z.pos p))
  = Some (Z.pos (Pos.of_uint_acc d p)).
Proof.
  induction d as [|d IH|d IH|d IH|d IH|d IH|d IH|d IH|d IH|d IH|d IH];
    intros p; [reflexivity|..];
    cbn [NilEmpty.string_of_uint read_int Pos.of_uint_acc];
    match goal with
    | |- context [digit_of 10 ?c] =>
        let v := eval vm_compute in (digit_of 10 c) in
        change (digit_of 10 c) with v
    end;
    cbv iota beta; rewrite <- IH; do 2 f_equal; lia.
Qed.

Lemma read_int_zero (d : Decimal.uint) :
  read_int 10 (NilEmpty.string_of_uint d) (Some 0)
  = Some (Z.of_N (N.of_uint d)).
Proof.
  unfold N.of_uint.
  induction d as [|d IH|d IH|d IH|d IH|d IH|d IH|d IH|d IH|d IH|d IH];
    [reflexivity|..];
    cbn [NilEmpty.string_of_uint read_int Pos.of_uint];
    match goal with
    | |- context [digit_of 10 ?c] =>
        let v := eval vm_compute in (digit_of 10 c) in
        change (digit_of 10 c) with v
    end;
    cbv iota beta; cbn [Z.mul Z.add Z.of_N]; [exact IH|..];
    apply read_int_acc.
Qed.

Lemma roundToDouble_safe (n : Z) :
  Z.abs n <= 9007199254740991 -> roundToDouble n = Some n.
Proof.
  intros H. unfold roundToDouble. cbv zeta.
  change (2 ^ 53) with 9007199254740992.
  destruct (Z.leb_spec (Z.abs n) 9007199254740992); [reflexivity|lia].
Qed.

(** A string that begins with a decimal digit or with a minus sign does
    not begin with white space. *)
Lemma trimStart_digit (c : ascii) (r : string) :
  (48 <=? nat_of_ascii c)%nat && (nat_of_ascii c <=? 57)%nat = true
  \/ c = "-"%char ->
  JSString.trimStart (String c r) = String c r.
Proof.
  intros Hc.
  assert (H1 : JSString.is_space c = false).
  { destruct Hc as [Hc| ->]; [|reflexivity].
    unfold JSString.is_space. cbv zeta.
    apply andb_true_iff in Hc as [Ha Hb].
    apply Nat.leb_le in Ha. apply Nat.leb_le in Hb.
    destruct (Nat.leb_spec 9 (nat_of_ascii c));
      destruct (Nat.leb_spec (nat_of_ascii c) 13);
      destruct (Nat.eqb_spec (nat_of_ascii c) 32); simpl; try reflexivity; lia. }
  assert (Hlead : forall k, (128 <= k)%nat ->
            Nat.eqb (nat_of_ascii c) k = false).
  { intros k Hk. apply Nat.eqb_neq.
    destruct Hc as [Hc| ->]; [|vm_compute; lia].
    apply andb_true_iff in Hc as [_ Hb]. apply Nat.leb_le in Hb. lia. }
  cbn [JSString.trimStart]. rewrite H1.
  destruct r as [|c2 r2]; [reflexivity|].
  unfold JSString.is_space2. rewrite (Hlead 194%nat) by lia. cbn [andb].
  destruct r2 as [|c3 r3]; [reflexivity|].
  unfold JSString.is_space3. cbv zeta.
  rewrite (Hlead 225%nat), (Hlead 226%nat), (Hlead 227%nat),
    (Hlead 239%nat) by lia.
  reflexivity.
Qed.

(** On a non-empty numeral, and on its negation. *)
Lemma parseInt_numeral (d : Decimal.uint) :
  d <> Decimal.Nil ->
  parseInt (NilEmpty.string_of_uint d)
  = roundToDouble (Z.of_N (N.of_uint d))
  /\ parseInt (String "-" (NilEmpty.string_of_uint d))
     = roundToDouble (- Z.of_N (N.of_uint d)).
Proof.
  intros Hd.
  assert (Hread : read_int 10 (NilEmpty.string_of_uint d) None
                  = Some (Z.of_N (N.of_uint d))).
  { unfold N.of_uint.
    destruct d as [|d|d|d|d|d|d|d|d|d|d]; [contradiction|..];
      cbn [NilEmpty.string_of_uint read_int Pos.of_uint];
      match goal with
      | |- context [digit_of 10 ?c] =>
          let v := eval vm_compute in (digit_of 10 c) in
          change (digit_of 10 c) with v
      end;
      cbv iota beta; cbn [Z.of_N]; [apply read_int_zero|..];
      apply read_int_acc. }
  assert (Hshape : exists c r,
             NilEmpty.string_of_uint d = String c r
             /\ (48 <=? nat_of_ascii c)%nat && (nat_of_ascii c <=? 57)%nat
                = true
             /\ (c =? "-")%char = false /\ (c =? "+")%char = false
             /\ match r with
                | String c1 _ =>
                    (c =? "0")%char && ((c1 =? "x")%char || (c1 =? "X")%char)
                    = false
                | EmptyString => True
                end).
  { destruct d as [|d|d|d|d|d|d|d|d|d|d]; [contradiction|..];
      cbn [NilEmpty.string_of_uint]; eexists; eexists;
      (split; [reflexivity|]); (split; [reflexivity|]);
      (split; [reflexivity|]); (split; [reflexivity|]);
      destruct d; cbn [NilEmpty.string_of_uint]; exact I || reflexivity. }
  destruct Hshape as (c & r & E & Hs & Hm & Hp & Hx).
  rewrite E in *. unfold parseInt. split.
  - rewrite (trimStart_digit c r (or_introl Hs)). rewrite Hm, Hp.
    destruct r as [|c1 r']; [rewrite Hread; f_equal; lia|].
    rewrite Hx, Hread. f_equal; lia.
  - rewrite (trimStart_digit "-" (String c r) (or_intror eq_refl)).
    change ("-" =? "-")%char with true. cbv iota.
    destruct r as [|c1 r']; [rewrite Hread; f_equal; lia|].
    rewrite Hx, Hread. f_equal; lia.
Qed.

Lemma parseInt_toString (n : Z) :
  Z.abs n <= 9007199254740991 -> parseInt (toString n) = Some n.
Proof.
  intros Hsafe.
  assert (Hdec : forall m, 0 <= m ->
            JSDate.decimal m
            = NilEmpty.string_of_uint (N.to_uint (Z.to_N m))
            /\ N.to_uint (Z.to_N m) <> Decimal.Nil).
  { intros m Hm. unfold JSDate.decimal.
    assert (Hn : N.to_uint (Z.to_N m) <> Decimal.Nil).
    { destruct (Z.to_N m) as [|p]; [discriminate|].
      apply Unsigned.to_uint_nonnil. }
    split; [|exact Hn].
    unfold NilZero.string_of_uint.
    destruct (N.to_uint (Z.to_N m)); [contradiction|reflexivity..]. }
  rewrite <- (roundToDouble_safe n Hsafe).
  unfold toString. destruct (Z.ltb_spec n 0) as [Hn|Hn].
  - destruct (Hdec (- n) ltac:(lia)) as [E Hnil]. rewrite E.
    rewrite (proj2 (parseInt_numeral _ Hnil)), DecimalN.Unsigned.of_to.
    f_equal. lia.
  - destruct (Hdec n Hn) as [E Hnil]. rewrite E.
    rewrite (proj1 (parseInt_numeral _ Hnil)), DecimalN.Unsigned.of_to.
    f_equal. lia.
Qed.

Example parseInt_samples :
  parseInt "" = None /\ parseInt "abc" = None
  /\ parseInt "1.5" = Some 1 /\ parseInt " 12 packs" = Some 12
  /\ parseInt "-7" = Some (-7) /\ parseInt "0x1F" = Some 31
  /\ parseInt "1e3" = Some 1 /\ parseInt "　20" = Some 20
  /\ parseInt "9007199254740993" = Some 9007199254740992
  /\ parseInt "9007199254740995" = Some 9007199254740996
  /\ parseInt "-18014398509481985" = Some (-18014398509481984).
Proof. vm_compute. repeat split; reflexivity. Qed.

(** [roundToDouble] against the rounding of the Standard Library's
    specification of binary64. *)
Example roundToDouble_samples :
  map (fun n => match binary_normalize 53 1024 n 0 false with
                | S754_zero _ => Some 0
                | S754_finite sign m e =>
                    Some ((if sign then -1 else 1) * Z.shiftl (Z.pos m) e)
                | _ => None
                end)
      [0; 25; 9007199254740993; 9007199254740995; -18014398509481985;
       123456789012345678901234567890; 2 ^ 1024 - 2 ^ 970 - 1;
       2 ^ 1024 - 2 ^ 970; 2 ^ 1100]
  = map roundToDouble
      [0; 25; 9007199254740993; 9007199254740995; -18014398509481985;
       123456789012345678901234567890; 2 ^ 1024 - 2 ^ 970 - 1;
       2 ^ 1024 - 2 ^ 970; 2 ^ 1100].
Proof. vm_compute. reflexivity. Qed.

(** *** What the dialog sends *)

(** X21.  The button that opened the slot dialog decides what saving
    sends.  After "Edit" on a slot (whose daily slots are a safe integer)
    and no change to the fields, saving sends one update, for that slot's
    id, carrying the slot's own four columns: the number goes through
    [toString] and [parseInt] unchanged.  After "+ Add Slot Range",
    saving sends one insert, of the range from today to the seventh day
    after it with 20 daily slots, active; read back with a [parseISO]
    that inverts [format], that range counts 8 days and 160 slots.  In
    both cases a select follows exactly when the write succeeded. *)
Theorem dialog_openers_decide_the_write (store : Store) (st : State)
    (w : World) (slot : SlotData) (today : Date) :
  (Z.abs (daily_slots slot) <= 9007199254740991 ->
   calls (snd (handleSlotSubmit store (editSlotClicked slot st) w))
   = calls w
     ++ UpdateSlot (id slot)
          (mkValues (start_date slot) (end_date slot)
                    (Some (daily_slots slot)) (is_active slot))
        :: (if write_ok store then [SelectSlots] else []))
  /\ calls (snd (handleSlotSubmit store (addSlotClicked today st) w))
     = calls w
       ++ InsertSlot
            (mkValues (format_yyyy_MM_dd today)
                      (format_yyyy_MM_dd (today + 7)) (Some 20) true)
          :: (if write_ok store then [SelectSlots] else [])
  /\ (forall (parseISO : string -> option Date) (slotId created : string),
        parseISO (format_yyyy_MM_dd today) = Some today ->
        parseISO (format_yyyy_MM_dd (today + 7)) = Some (today + 7) ->
        let saved := mkSlot slotId (format_yyyy_MM_dd today)
                            (format_yyyy_MM_dd (today + 7)) 20 true created in
        getDaysInSlotRange parseISO saved = Some 8
        /\ totalSlots parseISO saved = Some 160).
Proof.
  split; [|split].
  - intros Hsafe. unfold handleSlotSubmit, editSlotClicked, slotValues.
    cbn [selectedSlot slotForm startDate endDate dailySlots isActive].
    rewrite (parseInt_toString _ Hsafe).
    destruct (write_ok store); unfold slotSaved, slotSaveFailed, fetchSlots;
      [destruct (select store)|]; simpl; rewrite <- ?app_assoc; reflexivity.
  - unfold handleSlotSubmit, addSlotClicked, slotValues.
    cbn [selectedSlot slotForm startDate endDate dailySlots isActive].
    change (parseInt "20") with (Some 20).
    destruct (write_ok store); unfold slotSaved, slotSaveFailed, fetchSlots;
      [destruct (select store)|]; simpl; rewrite <- ?app_assoc; reflexivity.
  - intros parseISO slotId created H1 H2. cbv zeta.
    unfold totalSlots, getDaysInSlotRange.
    cbn [start_date end_date daily_slots]. rewrite H1, H2.
    split; f_equal; lia.
Qed.

Lemma dialog_openers_decide_the_write_witness :
  let slot := mkSlot "s1" "2026-11-02" "2026-11-08" 35 true
                     "2026-11-01T09:00:00" in
  let st := editSlotClicked slot initialState in
  Z.abs (daily_slots slot) <= 9007199254740991
  /\ CalendarAux.parseISO_utc (format_yyyy_MM_dd 20760) = Some 20760
  /\ CalendarAux.parseISO_utc (format_yyyy_MM_dd (20760 + 7))
     = Some (20760 + 7)
  /\ calls (snd (handleSlotSubmit (mkStore SlotsError true) st
                   (mkWorld [] [])))
     = [UpdateSlot "s1" (mkValues "2026-11-02" "2026-11-08" (Some 35) true);
        SelectSlots]
  /\ getDaysInSlotRange CalendarAux.parseISO_utc
       (mkSlot "s2" (format_yyyy_MM_dd 20760)
               (format_yyyy_MM_dd (20760 + 7)) 20 true "") = Some 8.
Proof.
  cbv zeta.
  set (slot := mkSlot "s1" "2026-11-02" "2026-11-08" 35 true
                      "2026-11-01T09:00:00").
  assert (H0 : Z.abs (daily_slots slot) <= 9007199254740991)
    by (vm_compute; discriminate).
  assert (H1 : CalendarAux.parseISO_utc (format_yyyy_MM_dd 20760)
               = Some 20760) by (vm_compute; reflexivity).
  assert (H2 : CalendarAux.parseISO_utc (format_yyyy_MM_dd (20760 + 7))
               = Some (20760 + 7)) by (vm_compute; reflexivity).
  split; [exact H0|]. split; [exact H1|]. split; [exact H2|].
  split.
  - exact (proj1 (dialog_openers_decide_the_write (mkStore SlotsError true)
                    initialState (mkWorld [] []) slot 20760) H0).
  - exact (proj1 (proj2 (proj2 (dialog_openers_decide_the_write
                                  (mkStore SlotsError true) initialState
                                  (mkWorld [] []) slot 20760))
                    CalendarAux.parseISO_utc "s2" "" H1 H2)).
Defined.

(** X22.  What one call of [handleSlotSubmit] does.  It checks nothing:
    the first call to the store is always a write of the four fields as
    they stand, the daily slots being whatever [parseInt] makes of the
    text ([NaN] included) - an update of the selected slot when there is
    one, an insert otherwise.  If the store refuses, the state is
    untouched (the dialog stays as it is), one destructive notification
    is shown and nothing is reloaded.  If it accepts, the first
    notification is not destructive, the slots are asked for once, the
    dialog is closed, the selection cleared and the form reset to its
    defaults; the list becomes the store's answer, and if the reload
    fails the list stays and a destructive notification follows. *)
Theorem handleSlotSubmit_outcome (store : Store) (st : State) (w : World) :
  let st' := fst (handleSlotSubmit store st w) in
  let w' := snd (handleSlotSubmit store st w) in
  let write :=
    match selectedSlot st with
    | Some s => UpdateSlot (id s) (slotValues (slotForm st))
    | None => InsertSlot (slotValues (slotForm st))
    end in
  (write_ok store = false ->
   st' = st /\ calls w' = calls w ++ [write]
   /\ exists t, toasts w' = toasts w ++ [t]
                /\ Dashboard.destructive t = true)
  /\ (write_ok store = true ->
      calls w' = calls w ++ [write; SelectSlots]
      /\ isSlotModalOpen st' = false /\ selectedSlot st' = None
      /\ slotForm st' = defaultSlotForm
      /\ (exists t rest, toasts w' = toasts w ++ t :: rest
                         /\ Dashboard.destructive t = false
                         /\ (rest = [] <-> select store <> SlotsError)
                         /\ Forall (fun t' => Dashboard.destructive t' = true)
                                   rest)
      /\ (forall data, select store = Rows (Some data) -> slots st' = data)
      /\ (select store = Rows None -> slots st' = [])
      /\ (select store = SlotsError -> slots st' = slots st)).
Proof.
  cbv zeta. unfold handleSlotSubmit. split.
  - intros Hw. rewrite Hw.
    destruct (selectedSlot st) as [s|]; unfold slotSaveFailed; simpl;
      (split; [reflexivity|]); (split; [reflexivity|]);
      eexists; split; reflexivity.
  - intros Hw. rewrite Hw.
    destruct (selectedSlot st) as [s|]; unfold slotSaved, fetchSlots;
      destruct (select store) as [[data|]|]; simpl;
      rewrite <- ?app_assoc; simpl;
      (split; [reflexivity|]); (split; [reflexivity|]);
      (split; [reflexivity|]); (split; [reflexivity|]);
      (split;
       [eexists; eexists; split; [reflexivity|];
        split; [reflexivity|];
        split; [split; intros H; (discriminate H || reflexivity
                                  || discriminate
                                  || (exfalso; apply H; reflexivity))|];
        repeat constructor|]);
      (split; [intros d H; (discriminate H || (injection H as <-; reflexivity))|]);
      split; intros H; (discriminate H || reflexivity).
Qed.

Lemma handleSlotSubmit_outcome_witness :
  let st := onDailySlotsChange "" (addSlotClicked 20760 initialState) in
  let store := mkStore (Rows None) false in
  write_ok store = false
  /\ calls (snd (handleSlotSubmit store st (mkWorld [] [])))
     = [InsertSlot (mkValues "2026-11-03" "2026-11-10" None true)].
Proof.
  cbv zeta.
  assert (H : write_ok (mkStore (Rows None) false) = false) by reflexivity.
  split; [exact H|].
  exact (proj1 (proj2 (proj1 (handleSlotSubmit_outcome
                                (mkStore (Rows None) false)
                                (onDailySlotsChange ""
                                   (addSlotClicked 20760 initialState))
                                (mkWorld [] [])) H))).
Defined.

(** X23.  Deleting a slot range asks nothing of the list on screen: one
    delete is sent for the given id; the list is never edited locally,
    it changes only by a reload that follows an accepted delete and
    succeeds, and then it is the store's answer.  The dialog, the
    selection and the form are never touched.  A refused delete shows
    one destructive notification and reloads nothing. *)
Theorem handleDeleteSlot_outcome (store : Store) (slotId : string)
    (st : State) (w : World) :
  let st' := fst (handleDeleteSlot store slotId st w) in
  let w' := snd (handleDeleteSlot store slotId st w) in
  isSlotModalOpen st' = isSlotModalOpen st
  /\ selectedSlot st' = selectedSlot st /\ slotForm st' = slotForm st
  /\ calls w'
     = calls w
       ++ DeleteSlot slotId :: (if write_ok store then [SelectSlots] else [])
  /\ (slots st' <> slots st ->
      write_ok store = true
      /\ exists data, select store = Rows data
                      /\ slots st' = match data with
                                     | Some l => l
                                     | None => []
                                     end)
  /\ (write_ok store = false ->
      st' = st
      /\ exists t, toasts w' = toasts w ++ [t]
                   /\ Dashboard.destructive t = true).
Proof.
  cbv zeta. unfold handleDeleteSlot, fetchSlots.
  destruct (write_ok store); [destruct (select store) as [data|]|]; simpl;
    rewrite <- ?app_assoc; simpl;
    (split; [reflexivity|]); (split; [reflexivity|]);
    (split; [reflexivity|]); (split; [reflexivity|]); split.
  - intros _. split; [reflexivity|]. exists data. split; reflexivity.
  - discriminate.
  - intros H. exfalso. apply H. reflexivity.
  - discriminate.
  - intros H. exfalso. apply H. reflexivity.
  - intros _. split; [reflexivity|]. eexists. split; reflexivity.
Qed.

Lemma handleDeleteSlot_outcome_witness :
  let store := mkStore SlotsError false in
  write_ok store = false
  /\ fst (handleDeleteSlot store "s1" initialState (mkWorld [] []))
     = initialState.
Proof.
  cbv zeta.
  assert (H : write_ok (mkStore SlotsError false) = false) by reflexivity.
  split; [exact H|].
  exact (proj1 (proj2 (proj2 (proj2 (proj2 (proj2
           (handleDeleteSlot_outcome (mkStore SlotsError false) "s1"
              initialState (mkWorld [] [])))))) H)).
Defined.

End SlotFacts.
